(** * The Navico radar receive path (src/navico/NavicoReceive.cpp)

    A shallow embedding of the spoke-frame decoder [ProcessFrame], the
    status-report dispatcher [ProcessReport] and the body of the receive
    loop [Entry], followed by the properties of the receive subsystem that
    are established on them.

    Conventions.
    - A C [int] is a [Z]; conversions to narrower or unsigned types are
      written out ([to_short], [to_int], [to_uint32]).  C division and
      remainder truncate towards zero: [Z.quot] and [Z.rem].
    - The receive buffer is a [list byte]: the whole array [data] of [Entry],
      of which only the first [len] bytes belong to the datagram at hand.
    - Every access to the buffer goes through the [Rd] monad, which records
      the offset that was read.
    - [double] computations are IEEE binary64 operations ([PrimFloat]). *)

From Stdlib Require Import ZArith List Bool Lia String Ascii.
From Stdlib.Strings Require Import Byte.
From Stdlib Require Import Floats Uint63.
Import ListNotations.
Open Scope Z_scope.

(** ** Machine integers *)

(** Conversion to a 16-bit [short int]. *)
Definition to_short (z : Z) : Z := (z + 32768) mod 65536 - 32768.

(** Conversion to a 32-bit [int]. *)
Definition to_int (z : Z) : Z := (z + 2147483648) mod 4294967296 - 2147483648.

(** Conversion to a 32-bit unsigned integer. *)
Definition to_uint32 (z : Z) : Z := z mod 4294967296.

(** [(double)i] for an [int]. *)
Definition double_of_int (z : Z) : float :=
  if z <? 0 then PrimFloat.opp (PrimFloat.of_uint63 (Uint63.of_Z (- z)))
  else PrimFloat.of_uint63 (Uint63.of_Z z).

(** [(int)d] for a finite [double]: the fraction is discarded. *)
Definition int_of_double (f : float) : Z :=
  match Prim2SF f with
  | S754_finite s m e =>
      let v := if 0 <=? e then Z.pos m * 2 ^ e else Z.pos m / 2 ^ (- e) in
      if s then - v else v
  | _ => 0
  end.

(** ** The receive buffer and the read monad *)

Definition u8 (b : byte) : Z := Z.of_N (Byte.to_N b).

Definition byte_at (buf : list byte) (off : Z) : Z :=
  u8 (nth (Z.to_nat off) buf x00).

(** A computation that reads the buffer and appends the offsets it reads to
    a trace. *)
Definition Rd (A : Type) : Type := list byte -> list Z -> A * list Z.

Definition ret {A : Type} (a : A) : Rd A := fun _ tr => (a, tr).

Definition bind {A B : Type} (m : Rd A) (k : A -> Rd B) : Rd B :=
  fun buf tr => let (a, tr') := m buf tr in k a buf tr'.

Declare Scope rd_scope.
Delimit Scope rd_scope with rd.
Notation "x <- m ;; k" := (bind m (fun x => k))
  (at level 61, m at next level, right associativity) : rd_scope.
Open Scope rd_scope.

(** One byte of the buffer. *)
Definition rd8 (off : Z) : Rd Z :=
  fun buf tr => (byte_at buf off, tr ++ [off]).

(** A packed little-endian [UINT16] field. *)
Definition rd_u16 (off : Z) : Rd Z :=
  lo <- rd8 off ;; hi <- rd8 (off + 1) ;; ret (lo + 256 * hi).

(** A packed little-endian [UINT32] field. *)
Definition rd_u32 (off : Z) : Rd Z :=
  lo <- rd_u16 off ;; hi <- rd_u16 (off + 2) ;; ret (lo + 65536 * hi).

(** [n] consecutive bytes from [off] on, as the callee of a pointer and a
    length reads them. *)
Fixpoint rd_array (n : nat) (off : Z) : Rd (list Z) :=
  match n with
  | O => ret []
  | S k => b <- rd8 off ;; bs <- rd_array k (off + 1) ;; ret (b :: bs)
  end.

(** The size of the array behind the pointer. *)
Definition capacity : Rd nat := fun buf tr => (List.length buf, tr).

Definition run {A : Type} (m : Rd A) (buf : list byte) : A := fst (m buf []).
Definition reads {A : Type} (m : Rd A) (buf : list byte) : list Z := snd (m buf []).

Definition u16_at (buf : list byte) (off : Z) : Z :=
  byte_at buf off + 256 * byte_at buf (off + 1).

(** ** Shared radar state *)

Inductive RadarState : Set :=
  | RADAR_OFF | RADAR_STANDBY | RADAR_WAKING_UP | RADAR_TRANSMIT.

Class EqB (A : Type) : Type := eqb_of : A -> A -> bool.

#[global] Instance EqB_Z : EqB Z := Z.eqb.

#[global] Instance EqB_RadarState : EqB RadarState :=
  fun a b =>
    match a, b with
    | RADAR_OFF, RADAR_OFF | RADAR_STANDBY, RADAR_STANDBY
    | RADAR_WAKING_UP, RADAR_WAKING_UP | RADAR_TRANSMIT, RADAR_TRANSMIT => true
    | _, _ => false
    end.

(** [radar_control_item] of RadarInfo.h. *)
Record radar_control_item (A : Type) : Type := mk_item {
  value : A;
  button : A;
  mod_ : bool
}.
Arguments mk_item {A}.
Arguments value {A}.
Arguments button {A}.
Arguments mod_ {A}.

(** Modelled from the spec: [radar_control_item::Update], declared in
    RadarInfo.h, has its body outside the sources.  The update operation
    stores the new value and "records whether the value changed". *)
Definition Update {A : Type} `{EqB A} (v : A) (c : radar_control_item A)
  : radar_control_item A :=
  {| value := v;
     button := button c;
     mod_ := mod_ c || negb (eqb_of v (value c)) |}.

(** The settings of [RadarInfo] that reports update. *)
Inductive Control : Set :=
  | m_range | m_gain | m_rain | m_sea
  | m_target_boost | m_interference_rejection | m_target_expansion
  | m_bearing_alignment | m_antenna_height
  | m_scan_speed | m_noise_rejection | m_target_separation
  | m_side_lobe_suppression | m_local_interference_rejection.

Definition Control_eqb (a b : Control) : bool :=
  match a, b with
  | m_range, m_range | m_gain, m_gain | m_rain, m_rain | m_sea, m_sea
  | m_target_boost, m_target_boost
  | m_interference_rejection, m_interference_rejection
  | m_target_expansion, m_target_expansion
  | m_bearing_alignment, m_bearing_alignment
  | m_antenna_height, m_antenna_height
  | m_scan_speed, m_scan_speed | m_noise_rejection, m_noise_rejection
  | m_target_separation, m_target_separation
  | m_side_lobe_suppression, m_side_lobe_suppression
  | m_local_interference_rejection, m_local_interference_rejection => true
  | _, _ => false
  end.

Record receive_statistics : Set := mk_stats {
  packets : Z;
  broken_packets : Z;
  spokes : Z;
  broken_spokes : Z;
  missing_spokes : Z
}.

(** One call of [RadarInfo::ProcessRadarSpoke]: the angle and bearing
    arguments, the return-strength bytes and the range.  The position and
    the receive time are handed through unchanged and are left out. *)
Record spoke_call : Set := mk_spoke {
  spoke_angle : Z;
  spoke_bearing : Z;
  spoke_data : list Z;
  spoke_range_meters : Z
}.

Record NetworkAddress : Set := mk_addr { addr : Z; port : Z }.

Record RadarInfo : Type := mk_ri {
  m_radar_timeout : Z;
  m_data_timeout : Z;
  m_state : radar_control_item RadarState;
  m_statistics : receive_statistics;
  controls : Control -> radar_control_item Z;
  spoke_calls : list spoke_call;
  image_resets : Z;
  detected : option (NetworkAddress * NetworkAddress)
}.

(** A call of [radar_pi::SetRadarHeading].  With arguments it carries the
    raw heading the degrees are computed from and the true-heading flag;
    without, it withdraws the radar heading. *)
Inductive heading_call : Set :=
  | SetRadarHeading (heading_raw : Z) (radar_heading_true : bool)
  | SetRadarHeading_none.

(** The texts handed to [SetStatus]. *)
Inductive status_text : Set :=
  | Standby | Transmit | Waking_up | Unknown_status
  | Scanning_interface | Socket_error.

(** The receive object, together with what it reaches through [m_ri] and
    [m_pi] and the file-level flag [g_first_receive]. *)
Record NavicoReceive : Type := mk_rx {
  m_ri : RadarInfo;
  m_next_spoke : Z;
  m_radar_status : Z;
  m_interface_addr : NetworkAddress;
  m_status : option status_text;
  heading_calls : list heading_call;
  build_info : option (list Z);
  g_first_receive : bool
}.

Definition with_ri (f : RadarInfo -> RadarInfo) (r : NavicoReceive) : NavicoReceive :=
  mk_rx (f (m_ri r)) (m_next_spoke r) (m_radar_status r) (m_interface_addr r)
        (m_status r) (heading_calls r) (build_info r) (g_first_receive r).

Definition set_next_spoke (n : Z) (r : NavicoReceive) : NavicoReceive :=
  mk_rx (m_ri r) n (m_radar_status r) (m_interface_addr r)
        (m_status r) (heading_calls r) (build_info r) (g_first_receive r).

Definition set_radar_status (n : Z) (r : NavicoReceive) : NavicoReceive :=
  mk_rx (m_ri r) (m_next_spoke r) n (m_interface_addr r)
        (m_status r) (heading_calls r) (build_info r) (g_first_receive r).

Definition set_interface_addr (a : NetworkAddress) (r : NavicoReceive) : NavicoReceive :=
  mk_rx (m_ri r) (m_next_spoke r) (m_radar_status r) a
        (m_status r) (heading_calls r) (build_info r) (g_first_receive r).

Definition SetStatus (s : status_text) (r : NavicoReceive) : NavicoReceive :=
  mk_rx (m_ri r) (m_next_spoke r) (m_radar_status r) (m_interface_addr r)
        (Some s) (heading_calls r) (build_info r) (g_first_receive r).

Definition call_heading (h : heading_call) (r : NavicoReceive) : NavicoReceive :=
  mk_rx (m_ri r) (m_next_spoke r) (m_radar_status r) (m_interface_addr r)
        (m_status r) (heading_calls r ++ [h]) (build_info r) (g_first_receive r).

Definition SetRadarBuildInfo (ts : list Z) (r : NavicoReceive) : NavicoReceive :=
  mk_rx (m_ri r) (m_next_spoke r) (m_radar_status r) (m_interface_addr r)
        (m_status r) (heading_calls r) (Some ts) (g_first_receive r).

Definition set_first_receive (b : bool) (r : NavicoReceive) : NavicoReceive :=
  mk_rx (m_ri r) (m_next_spoke r) (m_radar_status r) (m_interface_addr r)
        (m_status r) (heading_calls r) (build_info r) b.

Definition set_radar_timeout (t : Z) (i : RadarInfo) : RadarInfo :=
  mk_ri t (m_data_timeout i) (m_state i) (m_statistics i) (controls i)
        (spoke_calls i) (image_resets i) (detected i).

Definition set_data_timeout (t : Z) (i : RadarInfo) : RadarInfo :=
  mk_ri (m_radar_timeout i) t (m_state i) (m_statistics i) (controls i)
        (spoke_calls i) (image_resets i) (detected i).

Definition update_state (v : RadarState) (i : RadarInfo) : RadarInfo :=
  mk_ri (m_radar_timeout i) (m_data_timeout i) (Update v (m_state i))
        (m_statistics i) (controls i) (spoke_calls i) (image_resets i) (detected i).

Definition with_statistics (f : receive_statistics -> receive_statistics)
  (i : RadarInfo) : RadarInfo :=
  mk_ri (m_radar_timeout i) (m_data_timeout i) (m_state i) (f (m_statistics i))
        (controls i) (spoke_calls i) (image_resets i) (detected i).

(** [m_ri-><c>.Update(v)] for one of the settings. *)
Definition update_control (c : Control) (v : Z) (i : RadarInfo) : RadarInfo :=
  mk_ri (m_radar_timeout i) (m_data_timeout i) (m_state i) (m_statistics i)
        (fun c' => if Control_eqb c c' then Update v (controls i c') else controls i c')
        (spoke_calls i) (image_resets i) (detected i).

(** The effect of [m_ri->ProcessRadarSpoke(...)] that this file observes. *)
Definition ProcessRadarSpoke (s : spoke_call) (i : RadarInfo) : RadarInfo :=
  mk_ri (m_radar_timeout i) (m_data_timeout i) (m_state i) (m_statistics i)
        (controls i) (spoke_calls i ++ [s]) (image_resets i) (detected i).

(** Modelled from the spec: [RadarInfo::ResetRadarImage] is outside the
    sources; it is "a reset of the rendered image buffer ... without
    altering operating state". *)
Definition ResetRadarImage (i : RadarInfo) : RadarInfo :=
  mk_ri (m_radar_timeout i) (m_data_timeout i) (m_state i) (m_statistics i)
        (controls i) (spoke_calls i) (image_resets i + 1) (detected i).

Definition DetectedRadar (iface radar : NetworkAddress) (i : RadarInfo) : RadarInfo :=
  mk_ri (m_radar_timeout i) (m_data_timeout i) (m_state i) (m_statistics i)
        (controls i) (spoke_calls i) (image_resets i) (Some (iface, radar)).

Definition inc_packets (s : receive_statistics) : receive_statistics :=
  mk_stats (packets s + 1) (broken_packets s) (spokes s) (broken_spokes s) (missing_spokes s).
Definition inc_broken_packets (s : receive_statistics) : receive_statistics :=
  mk_stats (packets s) (broken_packets s + 1) (spokes s) (broken_spokes s) (missing_spokes s).
Definition inc_spokes (s : receive_statistics) : receive_statistics :=
  mk_stats (packets s) (broken_packets s) (spokes s + 1) (broken_spokes s) (missing_spokes s).
Definition inc_broken_spokes (s : receive_statistics) : receive_statistics :=
  mk_stats (packets s) (broken_packets s) (spokes s) (broken_spokes s + 1) (missing_spokes s).
Definition add_missing_spokes (n : Z) (s : receive_statistics) : receive_statistics :=
  mk_stats (packets s) (broken_packets s) (spokes s) (broken_spokes s) (missing_spokes s + n).

(** ** Spoke frames: [ProcessFrame] *)

Definition SPOKES : Z := 4096.

(** If BR24MARK is found in a line the line is in the BR24 layout,
    otherwise in the 4G layout. *)
Definition BR24MARK : list Z := [0x00; 0x44; 0x0d; 0x0e].

Definition HEADING_TRUE_FLAG : Z := 0x4000.
Definition HEADING_MASK : Z := SPOKES - 1.
Definition HEADING_VALID (x : Z) : bool :=
  Z.land x (Z.lnot (Z.lor HEADING_TRUE_FLAG HEADING_MASK)) =? 0.

Fixpoint memcmp_eq (a b : list Z) : bool :=
  match a, b with
  | [], [] => true
  | x :: a', y :: b' => (x =? y) && memcmp_eq a' b'
  | _, _ => false
  end.

(** What one call of [ProcessFrame] takes from its surroundings: [time(0)],
    the setting [ignore_radar_heading], and
    [SCALE_DEGREES_TO_RAW(m_pi->GetHeadingTrue())]. *)
Record frame_env : Set := mk_frame_env {
  now : Z;
  ignore_radar_heading : bool;
  heading_true_raw : Z
}.

(** Lines 192-198: the gap between the spoke that was expected and the one
    that arrived is added to [missing_spokes]. *)
Definition track_spoke (spoke : Z) (r : NavicoReceive) : NavicoReceive :=
  if (0 <=? m_next_spoke r) && negb (spoke =? m_next_spoke r) then
    if m_next_spoke r <? spoke then
      with_ri (with_statistics (add_missing_spokes (spoke - m_next_spoke r))) r
    else
      with_ri (with_statistics (add_missing_spokes (SPOKES + spoke - m_next_spoke r))) r
  else r.

(** Lines 188-191: a status other than 0x02 and 0x12 counts as a broken
    spoke; the line is processed all the same. *)
Definition check_status (status : Z) (r : NavicoReceive) : NavicoReceive :=
  if negb (status =? 0x02) && negb (status =? 0x12)
  then with_ri (with_statistics inc_broken_spokes) r else r.

(** Lines 242-252: the heading of the line is handed to the plugin when it
    is valid and the radar heading is not ignored. *)
Definition report_heading (e : frame_env) (heading_raw : Z) (r : NavicoReceive)
  : NavicoReceive :=
  let radar_heading_valid := HEADING_VALID heading_raw in
  let radar_heading_true := negb (Z.land heading_raw HEADING_TRUE_FLAG =? 0) in
  if radar_heading_valid && negb (ignore_radar_heading e)
  then call_heading (SetRadarHeading heading_raw radar_heading_true) r
  else call_heading SetRadarHeading_none r.

(** Line 212: [(int)((double)range_raw * 10.0 / sqrt(2.0))]. *)
Definition br24_range_meters (range_raw : Z) : Z :=
  int_of_double
    (PrimFloat.div (PrimFloat.mul (double_of_int range_raw) 10%float)
                   (PrimFloat.sqrt 2%float)).

(** Lines 225-233: the raw range of a 4G line. *)
Definition br4g_range_raw (large_range small_range : Z) : Z :=
  if large_range =? 0x80 then
    if small_range =? -1 then 0 else small_range
  else to_int (large_range * 256).

Section Receive.

(** Constants and macros of headers that are not among the sources. *)
Variable RETURNS_PER_LINE : nat.
Variables WATCHDOG_TIMEOUT DATA_TIMEOUT AUTO_RANGE : Z.
Variable MOD_SPOKES : Z -> Z.

Definition sizeof_frame_hdr : Z := 8.
Definition sizeof_header : Z := 24.
Definition sizeof_radar_line : Z := sizeof_header + Z.of_nat RETURNS_PER_LINE.

(** The range and angle fields of a BR24 line at [base]:
    [(angle_raw, range_meters)]. *)
Definition decode_br24 (base : Z) : Rd (Z * Z) :=
  r2 <- rd8 (base + 14) ;; r1 <- rd8 (base + 13) ;; r0 <- rd8 (base + 12) ;;
  let range_raw :=
    Z.lor (Z.lor (Z.shiftl (Z.land r2 0xff) 16) (Z.shiftl (Z.land r1 0xff) 8))
          (Z.land r0 0xff) in
  a1 <- rd8 (base + 9) ;; a0 <- rd8 (base + 8) ;;
  let angle_raw := Z.lor (Z.shiftl a1 8) a0 in
  ret (angle_raw, br24_range_meters range_raw).

(** The range and angle fields of a 4G line at [base]. *)
Definition decode_br4g (base : Z) : Rd (Z * Z) :=
  l1 <- rd8 (base + 7) ;; l0 <- rd8 (base + 6) ;;
  let large_range := to_short (Z.lor (Z.shiftl l1 8) l0) in
  s1 <- rd8 (base + 13) ;; s0 <- rd8 (base + 12) ;;
  let small_range := to_short (Z.lor (Z.shiftl s1 8) s0) in
  a1 <- rd8 (base + 9) ;; a0 <- rd8 (base + 8) ;;
  let angle_raw := Z.lor (Z.shiftl a1 8) a0 in
  let range_raw := br4g_range_raw large_range small_range in
  ret (angle_raw, Z.quot range_raw 4).

(** The body of the loop over the scan lines, for the line at [base]. *)
Definition process_line (e : frame_env) (base : Z) (r : NavicoReceive)
  : Rd NavicoReceive :=
  n0 <- rd8 (base + 2) ;; n1 <- rd8 (base + 3) ;;
  let spoke := Z.lor n0 (Z.shiftl n1 8) in
  let r := with_ri (with_statistics inc_spokes) r in
  headerLen <- rd8 base ;;
  if negb (headerLen =? 0x18) then
    (* Do not draw something with this... *)
    let r := with_ri (with_statistics (add_missing_spokes 1)) r in
    ret (set_next_spoke (Z.rem (spoke + 1) SPOKES) r)
  else
    status <- rd8 (base + 1) ;;
    let r := check_status status r in
    let r := track_spoke spoke r in
    let r := set_next_spoke (Z.rem (spoke + 1) SPOKES) r in
    h1 <- rd8 (base + 11) ;; h0 <- rd8 (base + 10) ;;
    let heading_raw := to_short (Z.lor (Z.shiftl h1 8) h0) in
    mark <- rd_array 4 (base + 4) ;;
    ar <- (if memcmp_eq mark BR24MARK then decode_br24 base else decode_br4g base) ;;
    let angle_raw := fst ar in
    let range_meters := snd ar in
    let r := report_heading e heading_raw r in
    let heading_raw := to_short (heading_true_raw e) in
    let bearing_raw := angle_raw + heading_raw in
    let a := MOD_SPOKES (Z.quot angle_raw 2) in
    let b := MOD_SPOKES (Z.quot bearing_raw 2) in
    data <- rd_array RETURNS_PER_LINE (base + sizeof_header) ;;
    ret (with_ri (ProcessRadarSpoke (mk_spoke a b data range_meters)) r).

(** [n] iterations of the loop, from line number [scanline] on. *)
Fixpoint process_lines (e : frame_env) (n : nat) (scanline : Z) (r : NavicoReceive)
  : Rd NavicoReceive :=
  match n with
  | O => ret r
  | S k =>
      r' <- process_line e (sizeof_frame_hdr + scanline * sizeof_radar_line) r ;;
      process_lines e k (scanline + 1) r'
  end.

Definition ProcessFrame (e : frame_env) (len : Z) (r : NavicoReceive)
  : Rd NavicoReceive :=
  let r := with_ri (set_radar_timeout (now e + WATCHDOG_TIMEOUT)) r in
  let r := with_ri (set_data_timeout (now e + DATA_TIMEOUT)) r in
  let r := with_ri (update_state RADAR_TRANSMIT) r in
  let r := with_ri (with_statistics inc_packets) r in
  if len <? sizeof_frame_hdr then
    (* The packet is so small it contains no scan_lines, quit! *)
    ret (with_ri (with_statistics inc_broken_packets) r)
  else
    let scanlines_in_packet := (len - sizeof_frame_hdr) / sizeof_radar_line in
    let r := if negb (scanlines_in_packet =? 32)
             then with_ri (with_statistics inc_broken_packets) r else r in
    let r := if g_first_receive r then set_first_receive false r else r in
    process_lines e (Z.to_nat scanlines_in_packet) 0 r.

(** ** Status reports: [ProcessReport] *)

(** The code units of a string literal. *)
Definition wxT (s : string) : list Z :=
  map (fun c => Z.of_N (N_of_ascii c)) (list_ascii_of_string s).

(** [AppendChar16String]: the code units from [src] on are appended to
    [dest] up to the first zero unit.  The loop of the source has no bound;
    [fuel] is the number of units that the array can hold.  Beyond the
    array, where the behaviour of the source is undefined, the model reads
    zero bytes, so that the scan ends there at the latest. *)
Fixpoint AppendChar16String (fuel : nat) (dest : list Z) (src : Z) : Rd (list Z) :=
  match fuel with
  | O => ret dest
  | S k =>
      wc <- rd_u16 src ;;
      if wc =? 0 then ret dest else AppendChar16String k (dest ++ [wc]) (src + 2)
  end.

(** The case of the dispatch that a report takes. *)
Inductive report_path : Set :=
  | Report_01C4_18 | Report_02C4_99 | Report_03C4_129 | Report_04C4_66
  | Report_08C4_18 | Report_C4_unknown | Report_F5 | Report_unknown_message.

(** [RadarReport_01C4_18]: radar status in byte 2. *)
Definition process_01C4_18 (now : Z) (r : NavicoReceive) : Rd NavicoReceive :=
  radar_status <- rd8 2 ;;
  if negb (radar_status =? m_radar_status r) then
    let r := set_radar_status radar_status r in
    let rs :=
      if m_radar_status r =? 0x01 then
        (with_ri (update_state RADAR_STANDBY) r, Standby)
      else if m_radar_status r =? 0x02 then
        (with_ri (update_state RADAR_TRANSMIT) r, Transmit)
      else if m_radar_status r =? 0x05 then
        (with_ri (set_data_timeout (now + DATA_TIMEOUT))
           (with_ri (update_state RADAR_WAKING_UP) r), Waking_up)
      else (r, Unknown_status) in
    ret (SetStatus (snd rs) (fst rs))
  else ret r.

(** [RadarReport_02C4_99]: range 2-5, field8 8-11, gain 12, sea_auto 13,
    sea 17-20, rain 22, interference_rejection 34, target_expansion 38,
    target_boost 42. *)
Definition process_02C4_99 (r : NavicoReceive) : Rd NavicoReceive :=
  field8 <- rd_u32 8 ;;
  g <- (if field8 =? 1 then ret (AUTO_RANGE - 1)
        else gain <- rd8 12 ;; ret (Z.quot (gain * 100) 255)) ;;
  let r := with_ri (update_control m_gain g) r in
  rain <- rd8 22 ;;
  let r := with_ri (update_control m_rain (Z.quot (rain * 100) 255)) r in
  sea_auto <- rd8 13 ;;
  s <- (if 0 <? sea_auto then ret (AUTO_RANGE - sea_auto)
        else sea <- rd_u32 17 ;; ret (to_uint32 (sea * 100) / 255)) ;;
  let r := with_ri (update_control m_sea s) r in
  target_boost <- rd8 42 ;;
  let r := with_ri (update_control m_target_boost target_boost) r in
  interference_rejection <- rd8 34 ;;
  let r := with_ri (update_control m_interference_rejection interference_rejection) r in
  target_expansion <- rd8 38 ;;
  let r := with_ri (update_control m_target_expansion target_expansion) r in
  range <- rd_u32 2 ;;
  ret (with_ri (update_control m_range (range / 10)) r).

(** [RadarReport_03C4_129]: firmware_date 58-89, firmware_time 90-121. *)
Definition process_03C4_129 (r : NavicoReceive) : Rd NavicoReceive :=
  size <- capacity ;;
  let fuel := Nat.div size 2 in
  ts <- AppendChar16String fuel (wxT "Firmware date: ") 58 ;;
  ts <- AppendChar16String fuel (ts ++ wxT " ") 90 ;;
  ret (SetRadarBuildInfo ts r).

(** [RadarReport_04C4_66]: bearing_alignment 6-7, antenna_height 10-11. *)
Definition process_04C4_66 (r : NavicoReceive) : Rd NavicoReceive :=
  bearing_alignment <- rd_u16 6 ;;
  let ba := Z.quot bearing_alignment 10 in
  let ba := if 180 <? ba then ba - 360 else ba in
  let r := with_ri (update_control m_bearing_alignment ba) r in
  antenna_height <- rd_u16 10 ;;
  ret (with_ri (update_control m_antenna_height (Z.quot antenna_height 1000)) r).

(** [RadarReport_08C4_18]: local_interference_rejection 3, scan_speed 4,
    sls_auto 5, side_lobe_suppression 9, noise_rejection 12, target_sep 13. *)
Definition process_08C4_18 (r : NavicoReceive) : Rd NavicoReceive :=
  scan_speed <- rd8 4 ;;
  let r := with_ri (update_control m_scan_speed scan_speed) r in
  noise_rejection <- rd8 12 ;;
  let r := with_ri (update_control m_noise_rejection noise_rejection) r in
  target_sep <- rd8 13 ;;
  let r := with_ri (update_control m_target_separation target_sep) r in
  sls_auto <- rd8 5 ;;
  s <- (if sls_auto =? 1 then ret (AUTO_RANGE - 1)
        else sls <- rd8 9 ;; ret (Z.quot (sls * 100) 255)) ;;
  let r := with_ri (update_control m_side_lobe_suppression s) r in
  lir <- rd8 3 ;;
  ret (with_ri (update_control m_local_interference_rejection lir) r).

(** [ProcessReport(report, len)] at time [now]: the value returned, the
    case of the dispatch that was taken, and the state afterwards. *)
Definition ProcessReport (now len : Z) (r : NavicoReceive)
  : Rd (bool * report_path * NavicoReceive) :=
  let r := with_ri (set_radar_timeout (now + WATCHDOG_TIMEOUT)) r in
  command <- rd8 1 ;;
  if command =? 0xC4 then
    (* Looks like a radar report. Is it a known one? *)
    what <- rd8 0 ;;
    let key := to_int (Z.shiftl len 8 + what) in
    if key =? Z.shiftl 18 8 + 0x01 then
      r' <- process_01C4_18 now r ;; ret (true, Report_01C4_18, r')
    else if key =? Z.shiftl 99 8 + 0x02 then
      r' <- process_02C4_99 r ;; ret (true, Report_02C4_99, r')
    else if key =? Z.shiftl 129 8 + 0x03 then
      r' <- process_03C4_129 r ;; ret (true, Report_03C4_129, r')
    else if key =? Z.shiftl 66 8 + 0x04 then
      r' <- process_04C4_66 r ;; ret (true, Report_04C4_66, r')
    else if key =? Z.shiftl 18 8 + 0x08 then
      r' <- process_08C4_18 r ;; ret (true, Report_08C4_18, r')
    else ret (true, Report_C4_unknown, r)
  else if command =? 0xF5 then ret (true, Report_F5, r)
  else ret (false, Report_unknown_message, r).

(** ** The receive loop: [Entry] *)

Definition SOCKET : Set := Z.

(** The locals of [Entry] and the members it works on.  [INVALID_SOCKET]
    is [None]; [radar_addr] is null or points to [radarFoundAddr];
    [data] is the receive buffer; [closed] lists the sockets handed to
    [closesocket]. *)
Record entry_state : Type := mk_entry {
  rx : NavicoReceive;
  m_receive_socket : option SOCKET;
  no_data_timeout : Z;
  no_spoke_timeout : Z;
  radar_addr : option NetworkAddress;
  dataSocket : option SOCKET;
  reportSocket : option SOCKET;
  data : list byte;
  closed : list SOCKET
}.

Definition with_rx (f : NavicoReceive -> NavicoReceive) (s : entry_state) : entry_state :=
  mk_entry (f (rx s)) (m_receive_socket s) (no_data_timeout s) (no_spoke_timeout s)
           (radar_addr s) (dataSocket s) (reportSocket s) (data s) (closed s).

Definition set_no_data_timeout (n : Z) (s : entry_state) : entry_state :=
  mk_entry (rx s) (m_receive_socket s) n (no_spoke_timeout s)
           (radar_addr s) (dataSocket s) (reportSocket s) (data s) (closed s).

Definition set_no_spoke_timeout (n : Z) (s : entry_state) : entry_state :=
  mk_entry (rx s) (m_receive_socket s) (no_data_timeout s) n
           (radar_addr s) (dataSocket s) (reportSocket s) (data s) (closed s).

Definition set_radar_addr (a : option NetworkAddress) (s : entry_state) : entry_state :=
  mk_entry (rx s) (m_receive_socket s) (no_data_timeout s) (no_spoke_timeout s)
           a (dataSocket s) (reportSocket s) (data s) (closed s).

Definition set_dataSocket (k : option SOCKET) (s : entry_state) : entry_state :=
  mk_entry (rx s) (m_receive_socket s) (no_data_timeout s) (no_spoke_timeout s)
           (radar_addr s) k (reportSocket s) (data s) (closed s).

Definition set_reportSocket (k : option SOCKET) (s : entry_state) : entry_state :=
  mk_entry (rx s) (m_receive_socket s) (no_data_timeout s) (no_spoke_timeout s)
           (radar_addr s) (dataSocket s) k (data s) (closed s).

Definition set_data (d : list byte) (s : entry_state) : entry_state :=
  mk_entry (rx s) (m_receive_socket s) (no_data_timeout s) (no_spoke_timeout s)
           (radar_addr s) (dataSocket s) (reportSocket s) d (closed s).

Definition closesocket (k : SOCKET) (s : entry_state) : entry_state :=
  mk_entry (rx s) (m_receive_socket s) (no_data_timeout s) (no_spoke_timeout s)
           (radar_addr s) (dataSocket s) (reportSocket s) (data s) (closed s ++ [k]).

Definition MILLIS_PER_SELECT : Z := 250.

(** Modelled from the spec: the macro [MILLISECONDS_PER_SECOND] of a header
    that is not among the sources; the threshold [SECONDS_SELECT(2)] is
    "2 seconds of accumulated quanta" of 250 ms. *)
Definition MILLISECONDS_PER_SECOND : Z := 1000.

Definition SECONDS_SELECT (x : Z) : Z :=
  Z.quot (x * MILLISECONDS_PER_SECOND) MILLIS_PER_SELECT.

Definition CLEAR_STRUCT_addr : NetworkAddress := mk_addr 0 0.

(** Lines 482-493: the countdown for the report channel. *)
Definition no_data_watchdog (s : entry_state) : entry_state :=
  if SECONDS_SELECT 2 <=? no_data_timeout s then
    let s := set_no_data_timeout 0 s in
    match reportSocket s with
    | Some k =>
        let s := closesocket k s in
        let s := set_reportSocket None s in
        let s := with_rx (with_ri (update_state RADAR_OFF)) s in
        let s := with_rx (set_interface_addr CLEAR_STRUCT_addr) s in
        set_radar_addr None s
    | None => s
    end
  else set_no_data_timeout (no_data_timeout s + 1) s.

(** Lines 495-500: the countdown for the spokes. *)
Definition no_spoke_watchdog (s : entry_state) : entry_state :=
  if SECONDS_SELECT 2 <=? no_spoke_timeout s then
    let s := set_no_spoke_timeout 0 s in
    with_rx (with_ri ResetRadarImage) s
  else set_no_spoke_timeout (no_spoke_timeout s + 1) s.

(** The [else] branch of [if (r > 0)]: select timed out. *)
Definition select_timeout (s : entry_state) : entry_state :=
  no_spoke_watchdog (no_data_watchdog s).

(** What [recvfrom] delivers: an error, or the bytes of a datagram. *)
Inductive recv_result : Set :=
  | recv_error
  | recv_bytes (bytes : list byte).

(** The value of [recvfrom] for a buffer [buf]: a datagram is cut to the
    size of the buffer. *)
Definition recv_r (buf : list byte) (x : recv_result) : Z :=
  match x with
  | recv_error => -1
  | recv_bytes bytes => Z.of_nat (Nat.min (List.length bytes) (List.length buf))
  end.

(** The buffer after [recvfrom]: the datagram lies in front, what was
    behind it stays. *)
Definition recv_into (buf : list byte) (x : recv_result) : list byte :=
  match x with
  | recv_error => buf
  | recv_bytes bytes =>
      firstn (List.length buf) (bytes ++ skipn (List.length bytes) buf)
  end.

(** What one turn of the loop takes from the system: the interface that
    [PickNextEthernetCard] arrives at, the outcome of opening the two
    multicast sockets, the value of [select], the sockets it reports ready
    and what [recvfrom] then delivers on each. *)
Record iteration_env : Set := mk_iteration_env {
  next_interface : option Z;
  report_socket_opened : option SOCKET;
  data_socket_opened : option SOCKET;
  select_r : Z;
  stop_ready : bool;
  stop_recv : recv_result;
  data_ready : bool;
  data_recv : recv_result;
  data_env : frame_env;
  report_ready : bool;
  report_recv : recv_result;
  report_from : NetworkAddress;
  report_now : Z
}.

Definition GetNewReportSocket (v : iteration_env) (r : NavicoReceive)
  : option SOCKET * NavicoReceive :=
  if addr (m_interface_addr r) =? 0 then (None, r)
  else match report_socket_opened v with
       | Some k => (Some k, SetStatus Scanning_interface r)
       | None => (None, SetStatus Socket_error r)
       end.

Definition GetNewDataSocket (v : iteration_env) (r : NavicoReceive)
  : option SOCKET * NavicoReceive :=
  if addr (m_interface_addr r) =? 0 then (None, r)
  else match data_socket_opened v with
       | Some k => (Some k, r)
       | None => (None, SetStatus Socket_error r)
       end.

(** The walk along the interface list is given by [next_interface]: the
    address of the next card with a valid IPv4 address, if there is one. *)
Definition PickNextEthernetCard (v : iteration_env) (r : NavicoReceive)
  : option SOCKET * NavicoReceive :=
  let r := set_interface_addr CLEAR_STRUCT_addr r in
  let r := match next_interface v with
           | Some a => set_interface_addr (mk_addr a 0) r
           | None => r
           end in
  GetNewReportSocket v r.

(** Lines 433-445: the data socket is readable. *)
Definition data_readable (v : iteration_env) (s : entry_state) : entry_state :=
  match dataSocket s with
  | Some k =>
      if data_ready v then
        let s := set_data (recv_into (data s) (data_recv v)) s in
        let r := recv_r (data s) (data_recv v) in
        if 0 <? r then
          let s := with_rx (fun x =>
                     run (ProcessFrame (data_env v) r x) (data s)) s in
          let s := set_no_data_timeout (-15) s in
          set_no_spoke_timeout (-5) s
        else
          let s := closesocket k s in
          set_dataSocket None s
      else s
  | None => s
  end.

(** Lines 447-478: the report socket is readable. *)
Definition report_readable (v : iteration_env) (s : entry_state) : entry_state :=
  match reportSocket s with
  | Some k =>
      if report_ready v then
        let s := set_data (recv_into (data s) (report_recv v)) s in
        let r := recv_r (data s) (report_recv v) in
        if 0 <? r then
          let radar_address := report_from v in
          let res := run (ProcessReport (report_now v) r (rx s)) (data s) in
          let s := with_rx (fun _ => snd res) s in
          if fst (fst res) then
            let s :=
              match radar_addr s with
              | None =>
                  let s := with_rx (with_ri
                             (DetectedRadar (m_interface_addr (rx s)) radar_address)) s in
                  (* the dataSocket is opened in the next loop *)
                  let s := set_radar_addr (Some radar_address) s in
                  if eqb_of (value (m_state (m_ri (rx s)))) RADAR_OFF
                  then with_rx (with_ri (update_state RADAR_STANDBY)) s
                  else s
              | Some _ => s
              end in
            set_no_data_timeout (SECONDS_SELECT (-15)) s
          else s
        else
          let s := closesocket k s in
          set_reportSocket None s
      else s
  | None => s
  end.

(** One turn of the [while] loop.  The boolean tells whether the loop was
    left through [break]. *)
Definition Entry_iteration (v : iteration_env) (s : entry_state) : entry_state * bool :=
  let s :=
    match reportSocket s with
    | None =>
        let pr := PickNextEthernetCard v (rx s) in
        let s := with_rx (fun _ => snd pr) s in
        let s := set_reportSocket (fst pr) s in
        match reportSocket s with
        | Some _ => set_no_spoke_timeout 0 (set_no_data_timeout 0 s)
        | None => s
        end
    | Some _ => s
    end in
  let s :=
    match radar_addr s with
    | Some _ =>
        match dataSocket s with
        | None =>
            let pr := GetNewDataSocket v (rx s) in
            set_dataSocket (fst pr) (with_rx (fun _ => snd pr) s)
        | Some _ => s
        end
    | None =>
        match dataSocket s with
        | Some k => set_dataSocket None (closesocket k s)
        | None => s
        end
    end in
  let stop :=
    (0 <? select_r v)
    && match m_receive_socket s with Some _ => stop_ready v | None => false end
    && (0 <? recv_r (data s) (stop_recv v)) in
  if stop then (s, true)
  else
    let s :=
      if 0 <? select_r v then report_readable v (data_readable v s)
      else select_timeout s in
    let s :=
      match reportSocket s with
      | None =>
          (* If we closed the reportSocket then close the command and data socket *)
          match dataSocket s with
          | Some k => set_dataSocket None (closesocket k s)
          | None => s
          end
      | Some _ => s
      end in
    (s, false).

(** The loop over the successive answers of the system, as far as they are
    given. *)
Fixpoint Entry_loop (vs : list iteration_env) (s : entry_state) : entry_state :=
  match vs with
  | [] => s
  | v :: vs' =>
      match m_receive_socket s with
      | None => s
      | Some _ =>
          let (s', stop) := Entry_iteration v s in
          if stop then s' else Entry_loop vs' s'
      end
  end.

(** ** The steps of one turn of the loop *)

(** Lines 379-385: a report socket is asked for when there is none. *)
Definition iteration_open_report (v : iteration_env) (s : entry_state) : entry_state :=
  match reportSocket s with
  | None =>
      let pr := PickNextEthernetCard v (rx s) in
      let s := with_rx (fun _ => snd pr) s in
      let s := set_reportSocket (fst pr) s in
      match reportSocket s with
      | Some _ => set_no_spoke_timeout 0 (set_no_data_timeout 0 s)
      | None => s
      end
  | Some _ => s
  end.

(** Lines 386-400: the data socket is opened for a detected radar and
    closed without one. *)
Definition iteration_open_data (v : iteration_env) (s : entry_state) : entry_state :=
  match radar_addr s with
  | Some _ =>
      match dataSocket s with
      | None =>
          let pr := GetNewDataSocket v (rx s) in
          set_dataSocket (fst pr) (with_rx (fun _ => snd pr) s)
      | Some _ => s
      end
  | None =>
      match dataSocket s with
      | Some k => set_dataSocket None (closesocket k s)
      | None => s
      end
  end.

(** Lines 424-431: the stop message has arrived. *)
Definition iteration_stop (v : iteration_env) (s : entry_state) : bool :=
  (0 <? select_r v)
  && match m_receive_socket s with Some _ => stop_ready v | None => false end
  && (0 <? recv_r (data s) (stop_recv v)).

(** Lines 503-509: without a report socket the data socket is closed. *)
Definition iteration_close_data (s : entry_state) : entry_state :=
  match reportSocket s with
  | None =>
      match dataSocket s with
      | Some k => set_dataSocket None (closesocket k s)
      | None => s
      end
  | Some _ => s
  end.

(** Lines 513-538, the end of [Entry]: the sockets that are open are
    closed, [m_send_socket] is reset and [m_is_shutdown] is raised.  The
    result is the state with the sockets closed, [m_send_socket] and
    [m_is_shutdown]. *)
Definition Entry_exit (m_send_socket : option SOCKET) (s : entry_state)
  : entry_state * option SOCKET * bool :=
  let s := match dataSocket s with Some k => closesocket k s | None => s end in
  let s := match reportSocket s with Some k => closesocket k s | None => s end in
  let s := match m_send_socket with Some k => closesocket k s | None => s end in
  let s := match m_receive_socket s with Some k => closesocket k s | None => s end in
  (s, None, true).

(** The socket [k] is held in one of the two socket variables of the loop. *)
Definition held (s : entry_state) (k : SOCKET) : Prop :=
  reportSocket s = Some k \/ dataSocket s = Some k.

(** A socket that is held or was closed before is held or closed after. *)
Definition kept_or_closed (s s' : entry_state) : Prop :=
  forall k, held s k \/ In k (closed s) -> held s' k \/ In k (closed s').

(** The data socket is open only together with the report socket and for
    a detected radar. *)
Definition sockets_consistent (s : entry_state) : Prop :=
  dataSocket s <> None -> reportSocket s <> None /\ radar_addr s <> None.

(** The turns of the loop one after the other, without regard to the stop
    message. *)
Definition iterate_turns (vs : list iteration_env) (s : entry_state) : entry_state :=
  fold_left (fun s v => fst (Entry_iteration v s)) vs s.

(** ** The fields of a line, read off the buffer *)

Definition line_spoke (buf : list byte) (base : Z) : Z :=
  Z.lor (byte_at buf (base + 2)) (Z.shiftl (byte_at buf (base + 3)) 8).

Definition line_heading_raw (buf : list byte) (base : Z) : Z :=
  to_short (Z.lor (Z.shiftl (byte_at buf (base + 11)) 8) (byte_at buf (base + 10))).

Definition line_mark (buf : list byte) (base : Z) : list Z :=
  [byte_at buf (base + 4); byte_at buf (base + 5);
   byte_at buf (base + 6); byte_at buf (base + 7)].

Definition line_br24_range_raw (buf : list byte) (base : Z) : Z :=
  byte_at buf (base + 12) + 256 * byte_at buf (base + 13)
  + 65536 * byte_at buf (base + 14).

Definition line_large_range (buf : list byte) (base : Z) : Z :=
  to_short (u16_at buf (base + 6)).

Definition line_small_range (buf : list byte) (base : Z) : Z :=
  to_short (u16_at buf (base + 12)).

Definition line_angle_raw (buf : list byte) (base : Z) : Z :=
  u16_at buf (base + 8).

(** The angle and the range in meters of the line at [base]. *)
Definition line_fields (buf : list byte) (base : Z) : Z * Z :=
  if memcmp_eq (line_mark buf base) BR24MARK
  then (line_angle_raw buf base, br24_range_meters (line_br24_range_raw buf base))
  else (line_angle_raw buf base,
        Z.quot (br4g_range_raw (line_large_range buf base) (line_small_range buf base)) 4).

(** The [n] return-strength bytes of the line at [base]. *)
Definition line_data (buf : list byte) (base : Z) (n : nat) : list Z :=
  fst (rd_array n (base + 24) buf []).

(** The offsets that the decoding of a well-formed line reads, in order. *)
Definition line_reads (n : nat) (buf : list byte) (base : Z) : list Z :=
  [base + 2; base + 3; base; base + 1; base + 11; base + 10;
   base + 4; base + 5; base + 6; base + 7]
  ++ (if memcmp_eq (line_mark buf base) BR24MARK
      then [base + 14; base + 13; base + 12; base + 9; base + 8]
      else [base + 7; base + 6; base + 13; base + 12; base + 9; base + 8])
  ++ map (fun i => base + 24 + Z.of_nat i) (seq 0 n).

(** The missing-spoke count of the statistics. *)
Definition missing_of (r : NavicoReceive) : Z :=
  missing_spokes (m_statistics (m_ri r)).

(** What the lines of a frame leave alone: the operating state, the two
    deadlines and the packet counters. *)
Definition frame_kept (r r' : NavicoReceive) : Prop :=
  m_state (m_ri r') = m_state (m_ri r)
  /\ m_radar_timeout (m_ri r') = m_radar_timeout (m_ri r)
  /\ m_data_timeout (m_ri r') = m_data_timeout (m_ri r)
  /\ packets (m_statistics (m_ri r')) = packets (m_statistics (m_ri r))
  /\ broken_packets (m_statistics (m_ri r')) = broken_packets (m_statistics (m_ri r)).

(** ** The dispatch of a report, read off its key *)

(** The case that [ProcessReport] selects for a report of length [len]
    whose first byte is [what] and whose second byte is [command]. *)
Definition dispatch_path (len what command : Z) : report_path :=
  if command =? 0xC4 then
    let key := to_int (Z.shiftl len 8 + what) in
    if key =? Z.shiftl 18 8 + 0x01 then Report_01C4_18
    else if key =? Z.shiftl 99 8 + 0x02 then Report_02C4_99
    else if key =? Z.shiftl 129 8 + 0x03 then Report_03C4_129
    else if key =? Z.shiftl 66 8 + 0x04 then Report_04C4_66
    else if key =? Z.shiftl 18 8 + 0x08 then Report_08C4_18
    else Report_C4_unknown
  else if command =? 0xF5 then Report_F5
  else Report_unknown_message.

(** The known set of (length, first byte) keys. *)
Definition known_report_keys : list (Z * Z) :=
  [(18, 0x01); (99, 0x02); (129, 0x03); (66, 0x04); (18, 0x08)].

(** The three components of what [ProcessReport] yields. *)
Definition report_accepted (res : bool * report_path * NavicoReceive) : bool :=
  fst (fst res).
Definition report_path_of (res : bool * report_path * NavicoReceive) : report_path :=
  snd (fst res).
Definition report_state (res : bool * report_path * NavicoReceive) : NavicoReceive :=
  snd res.

(** ** Views used by the further properties *)

(** [scanlines_in_packet] of [ProcessFrame] for a datagram of length [len]. *)
Definition scanlines_in_packet (len : Z) : Z :=
  (len - sizeof_frame_hdr) / sizeof_radar_line.

(** The number of lines with the regular header length 0x18 among the [n]
    lines from line number [scanline] on. *)
Fixpoint wellformed_lines (buf : list byte) (n : nat) (scanline : Z) : Z :=
  match n with
  | O => 0
  | S k =>
      (if byte_at buf (sizeof_frame_hdr + scanline * sizeof_radar_line) =? 0x18
       then 1 else 0)
      + wellformed_lines buf k (scanline + 1)
  end.

(** What the lines of a frame leave alone besides [frame_kept]: all that
    belongs to the reports and to the loop. *)
Definition reports_kept (r r' : NavicoReceive) : Prop :=
  controls (m_ri r') = controls (m_ri r)
  /\ image_resets (m_ri r') = image_resets (m_ri r)
  /\ detected (m_ri r') = detected (m_ri r)
  /\ m_radar_status r' = m_radar_status r
  /\ m_interface_addr r' = m_interface_addr r
  /\ m_status r' = m_status r
  /\ build_info r' = build_info r
  /\ g_first_receive r' = g_first_receive r.

(** The counters of the statistics never go down, and the expected spoke
    stays below 4096. *)
Definition tracker_step (r r' : NavicoReceive) : Prop :=
  m_next_spoke r < SPOKES ->
  m_next_spoke r' < SPOKES
  /\ missing_of r <= missing_of r'
  /\ spokes (m_statistics (m_ri r)) <= spokes (m_statistics (m_ri r'))
  /\ broken_spokes (m_statistics (m_ri r)) <= broken_spokes (m_statistics (m_ri r')).

(** A packed little-endian [UINT32] field of the buffer. *)
Definition u32_at (buf : list byte) (off : Z) : Z :=
  u16_at buf off + 65536 * u16_at buf (off + 2).

(** The [k] 16-bit code units from offset [src] on. *)
Definition code_units (buf : list byte) (src : Z) (k : nat) : list Z :=
  map (fun i => u16_at buf (src + 2 * Z.of_nat i)) (seq 0 k).

(** The offsets of the [k] code units from [src] on and of the unit that
    follows them. *)
Definition code_unit_reads (src : Z) (k : nat) : list Z :=
  map (fun i => src + Z.of_nat i) (seq 0 (2 * k + 2)).

(** The settings that the report 02 C4 of length 99 carries, and those of
    the report 08 C4 of length 18. *)
Definition settings_02C4_99 : list Control :=
  [m_range; m_gain; m_rain; m_sea; m_target_boost; m_interference_rejection;
   m_target_expansion].

Definition settings_08C4_18 : list Control :=
  [m_scan_speed; m_noise_rejection; m_target_separation;
   m_side_lobe_suppression; m_local_interference_rejection].

(** ** Exhaustive checks *)

(** [p] holds for every number whose binary digits are those of [acc]
    followed by [k] further digits. *)
Fixpoint forall_bits (k : nat) (acc : Z) (p : Z -> bool) : bool :=
  match k with
  | O => p acc
  | S k' => forall_bits k' (2 * acc) p && forall_bits k' (2 * acc + 1) p
  end.

(** ** Readings of the specification that the code is compared with *)

(** The validity of a heading with "a 13-bit magnitude mask and one
    true-heading flag bit". *)
Definition claimed_HEADING_VALID_13bit (x : Z) : bool :=
  Z.land x (Z.lnot (Z.lor HEADING_TRUE_FLAG 0x1FFF)) =? 0.

(** ** Sample values *)

Definition sample_item {A : Type} (v : A) : radar_control_item A := mk_item v v false.

Definition sample_ri : RadarInfo :=
  mk_ri 0 0 (sample_item RADAR_OFF) (mk_stats 0 0 0 0 0) (fun _ => sample_item 0)
        [] 0 None.

(** A receiver that has not seen a spoke yet, and one that expects spoke 0. *)
Definition sample_rx : NavicoReceive :=
  mk_rx sample_ri (-1) 0 (mk_addr 0 0) None [] None true.

Definition sample_rx_expect0 : NavicoReceive := set_next_spoke 0 sample_rx.

Definition sample_env : frame_env := mk_frame_env 1000 false 0.

Definition sample_MOD_SPOKES (x : Z) : Z := x mod 2048.

Definition sample_frame_hdr : list byte :=
  [x01; x00; x00; x00; x00; x20; x00; x02].

(** A 4G line: spoke 0, large range 0x80, angle 0x0010, heading 0x07d6,
    small range 400. *)
Definition sample_line_4g : list byte :=
  [x18; x02; x00; x00; x00; x44; x80; x00; x10; x00; xd6; x07;
   x90; x01; x00; x00; xff; xff; xff; xff; xff; xff; xff; x80].

(** A BR24 line: spoke 0, the mark, angle 0x0010, no heading (0x8000),
    range 1000. *)
Definition sample_line_br24 : list byte :=
  [x18; x02; x00; x00; x00; x44; x0d; x0e; x10; x00; x00; x80;
   xe8; x03; x00; x00; x00; x00; x00; x00; x00; x00; x00; x00].

(** Reports.  Length 18, 01 C4, status 1 (standby). *)
Definition sample_report_standby : list byte :=
  [x01; xc4; x01; x00; x00; x00; x00; x00; x00; x00; x00; x00; x00; x00;
   x00; x00; x00; x00].

(** Length 66, 04 C4, bearing alignment 0xFFF6 (-10 as a signed value),
    antenna height 4000 mm. *)
Definition sample_report_bearing : list byte :=
  [x04; xc4; x00; x00; x00; x00; xf6; xff; x00; x00; xa0; x0f]
  ++ repeat x00 54.

(** Length 7, 42 C4: a key outside the known set. *)
Definition sample_report_unknown : list byte :=
  [x42; xc4; x01; x02; x03; x04; x05].

(** The receive buffer after a datagram of the single byte 01 has arrived
    behind the standby report: the byte C4 of the earlier datagram is
    still at offset 1. *)
Definition sample_buffer_one_byte : list byte :=
  recv_into sample_report_standby (recv_bytes [x01]).

(** Length 129, 03 C4, with no zero code unit in the firmware date and
    time, followed in the buffer by bytes of an earlier datagram. *)
Definition sample_report_unterminated : list byte :=
  [x03; xc4; x01] ++ repeat x41 126 ++ [x41; x00; x00; x00].

(** Length 66, 04 C4, bearing alignment 3500 (350.0 degrees), antenna
    height 4000 mm. *)
Definition sample_report_bearing_350 : list byte :=
  [x04; xc4; x00; x00; x00; x00; xac; x0d; x00; x00; xa0; x0f]
  ++ repeat x00 54.

(** A frame of one 4G line with four return-strength bytes. *)
Definition sample_frame : list byte :=
  sample_frame_hdr ++ sample_line_4g ++ [x01; x02; x03; x04].

(** A 4G line like [sample_line_4g], but with spoke number 5 and a large
    range of 10. *)
Definition sample_line_4g_spoke5 : list byte :=
  [x18; x02; x05; x00; x00; x44; x0a; x00; x10; x00; xd6; x47;
   xff; xff; x00; x00; xff; xff; xff; xff; xff; xff; xff; x80].

(** A frame of two lines, spokes 0 and 5. *)
Definition sample_frame_gap : list byte :=
  sample_frame ++ sample_line_4g_spoke5 ++ [x05; x06; x07; x08].

(** A frame of one BR24 line with four return-strength bytes. *)
Definition sample_frame_br24 : list byte :=
  sample_frame_hdr ++ sample_line_br24 ++ [x01; x02; x03; x04].

(** The receive loop at its start: no socket but the one for the stop
    message, an empty buffer of the size of [radar_frame_pkt]. *)
Definition sample_entry : entry_state :=
  mk_entry sample_rx (Some 3) 0 0 None None None (repeat x00 3368) [].

Definition sample_radar_address : NetworkAddress := mk_addr 0xA9FE0102 6679.

(** Turns of the loop: a standby report arrives on a freshly opened report
    socket; a spoke frame arrives on the data socket; an empty datagram
    arrives on the report socket; nothing arrives and no interface is
    there to be picked. *)
Definition env_report_arrives : iteration_env :=
  mk_iteration_env (Some 0xA9FE0101) (Some 4) (Some 5) 1 false recv_error
    false recv_error sample_env true (recv_bytes sample_report_standby)
    sample_radar_address 1000.

Definition env_frame_arrives : iteration_env :=
  mk_iteration_env (Some 0xA9FE0101) (Some 4) (Some 5) 1 false recv_error
    true (recv_bytes sample_frame) sample_env false recv_error
    sample_radar_address 1001.

Definition env_empty_report : iteration_env :=
  mk_iteration_env None None None 1 false recv_error
    false recv_error sample_env true (recv_bytes [])
    sample_radar_address 1002.

Definition env_silence : iteration_env :=
  mk_iteration_env None None None 0 false recv_error
    false recv_error sample_env false recv_error
    sample_radar_address 1003.

(** A radar is detected and transmits, then falls silent for 23 quanta. *)
Definition sample_run_silence : list iteration_env :=
  [env_report_arrives; env_frame_arrives] ++ repeat env_silence 23.

(** The same, but an empty datagram closes the report socket first and
    no interface can be picked afterwards. *)
Definition sample_run_report_lost : list iteration_env :=
  [env_report_arrives; env_frame_arrives; env_empty_report]
  ++ repeat env_silence 23.

(** A frame whose only line announces a header of 0x19 bytes. *)
Definition sample_frame_strange : list byte :=
  sample_frame_hdr ++ (x19 :: tl sample_line_4g) ++ [x01; x02; x03; x04].

(** [sample_frame] with the status byte 0x0c in the place of 0x02. *)
Definition sample_frame_status_0c : list byte :=
  firstn 9 sample_frame ++ x0c :: skipn 10 sample_frame.

(** Length 99, 02 C4: range 20000 dm, manual gain 0x80, sea clutter on
    harbour, rain 0x40, interference rejection 2, target expansion 1,
    target boost 2. *)
Definition sample_report_settings : list byte :=
  [x02; xc4; x20; x4e; x00; x00; x00; x00; x00; x00; x00; x00; x80; x01]
  ++ repeat x00 8 ++ [x40] ++ repeat x00 11 ++ [x02; x00; x00; x00; x01;
  x00; x00; x00; x02] ++ repeat x00 56.

(** Length 18, 08 C4: local interference rejection 1, scan speed 1,
    side-lobe suppression manual at 0xff, noise rejection 2, target
    separation 3. *)
Definition sample_report_scan : list byte :=
  [x08; xc4; x00; x01; x01; x00; x00; x00; x00; xff; x00; x00; x02; x03;
   x00; x00; x00; x00].

(** Length 129, 03 C4: firmware date "12", firmware time "3". *)
Definition sample_report_build : list byte :=
  [x03; xc4] ++ repeat x00 56 ++ [x31; x00; x32; x00] ++ repeat x00 28
  ++ [x33; x00] ++ repeat x00 37.

(** The loop with a radar detected on the report socket 4. *)
Definition sample_entry_detected : entry_state :=
  mk_entry sample_rx (Some 3) 0 0 (Some sample_radar_address) None (Some 4)
    (repeat x00 3368) [].

(** The turn in which the one byte of [Shutdown] arrives. *)
Definition env_stop : iteration_env :=
  mk_iteration_env None None None 1 true (recv_bytes [x21])
    true (recv_bytes sample_frame) sample_env false recv_error
    sample_radar_address 1004.

(** * Properties *)

(** ** Bytes and bit operations *)

Lemma u8_range (b : byte) : 0 <= u8 b < 256.
Proof.
  unfold u8. pose proof (Byte.to_N_bounded b) as Hb. lia.
Qed.

Lemma byte_at_range (buf : list byte) (off : Z) : 0 <= byte_at buf off < 256.
Proof. apply u8_range. Qed.

Lemma land_shiftl_low (lo hi k : Z) :
  0 <= k -> 0 <= lo < 2 ^ k -> Z.land lo (Z.shiftl hi k) = 0.
Proof.
  intros Hk Hlo. apply Z.bits_inj'. intros n Hn.
  rewrite Z.land_spec, Z.bits_0.
  destruct (Z.lt_ge_cases n k) as [Hlt | Hge].
  - rewrite (Z.shiftl_spec_low hi k n Hlt). apply andb_false_r.
  - destruct (Z.eq_dec lo 0) as [-> | Hnz].
    + now rewrite Z.bits_0.
    + rewrite Z.bits_above_log2; [reflexivity | lia |].
      apply Z.log2_lt_pow2; [lia |].
      apply Z.lt_le_trans with (2 ^ k); [lia |].
      apply Z.pow_le_mono_r; lia.
Qed.

Lemma lor_shiftl (lo hi k : Z) :
  0 <= k -> 0 <= lo < 2 ^ k -> Z.lor lo (Z.shiftl hi k) = lo + hi * 2 ^ k.
Proof.
  intros Hk Hlo.
  pose proof (Z.add_lor_land lo (Z.shiftl hi k)) as H.
  rewrite (land_shiftl_low lo hi k Hk Hlo) in H.
  rewrite <- (Z.shiftl_mul_pow2 hi k Hk). lia.
Qed.

Lemma lor_bytes (lo hi : Z) :
  0 <= lo < 256 -> Z.lor lo (Z.shiftl hi 8) = lo + 256 * hi.
Proof.
  intros Hlo. change 256 with (2 ^ 8) in *.
  rewrite (lor_shiftl lo hi 8); lia.
Qed.

Lemma lor_bytes_hi (lo hi : Z) :
  0 <= lo < 256 -> Z.lor (Z.shiftl hi 8) lo = lo + 256 * hi.
Proof. intros Hlo. rewrite Z.lor_comm. now apply lor_bytes. Qed.

Lemma land_byte (b : Z) : 0 <= b < 256 -> Z.land b 0xff = b.
Proof.
  intros Hb. change 0xff with (Z.ones 8).
  rewrite Z.land_ones by lia. apply Z.mod_small.
  change (2 ^ 8) with 256. lia.
Qed.

Lemma quot_bounds (a b : Z) :
  0 <= a -> 0 < b -> b * Z.quot a b <= a < b * Z.quot a b + b.
Proof.
  intros Ha Hb. pose proof (Z.quot_rem' a b) as Hqr.
  pose proof (Z.rem_bound_pos a b Ha Hb) as Hrem. lia.
Qed.

Lemma to_short_range (z : Z) : -32768 <= to_short z < 32768.
Proof. unfold to_short. pose proof (Z.mod_pos_bound (z + 32768) 65536). lia. Qed.

Lemma to_short_small (z : Z) : -32768 <= z < 32768 -> to_short z = z.
Proof. intros H. unfold to_short. rewrite Z.mod_small; lia. Qed.

Lemma to_int_small (z : Z) : -2147483648 <= z < 2147483648 -> to_int z = z.
Proof. intros H. unfold to_int. rewrite Z.mod_small; lia. Qed.

(** ** The read monad *)

Lemma rd_array_fst (n : nat) (off : Z) (buf : list byte) (tr : list Z) :
  fst (rd_array n off buf tr) = fst (rd_array n off buf []).
Proof.
  revert off tr. induction n as [| n IH]; intros off tr; [reflexivity |].
  simpl. unfold bind, rd8, ret.
  specialize (IH (off + 1)).
  rewrite (surjective_pairing (rd_array n (off + 1) buf (tr ++ [off]))).
  rewrite (surjective_pairing (rd_array n (off + 1) buf ([] ++ [off]))).
  simpl. now rewrite (IH (tr ++ [off])), (IH [off]).
Qed.

Lemma rd_array_snd (n : nat) (off : Z) (buf : list byte) (tr : list Z) :
  snd (rd_array n off buf tr) = tr ++ map (fun i => off + Z.of_nat i) (seq 0 n).
Proof.
  revert off tr. induction n as [| n IH]; intros off tr.
  - simpl. now rewrite app_nil_r.
  - simpl. unfold bind, rd8, ret.
    rewrite (surjective_pairing (rd_array n (off + 1) buf (tr ++ [off]))).
    simpl. rewrite IH, <- app_assoc. simpl. do 2 f_equal.
    + lia.
    + rewrite <- seq_shift, map_map. apply map_ext. intros i. lia.
Qed.

(** ** One line of a spoke frame *)

Lemma decode_br24_eq (base : Z) (buf : list byte) (tr : list Z) :
  decode_br24 base buf tr =
  ((line_angle_raw buf base, br24_range_meters (line_br24_range_raw buf base)),
   tr ++ [base + 14; base + 13; base + 12; base + 9; base + 8]).
Proof.
  unfold decode_br24, bind, rd8, ret, line_angle_raw, line_br24_range_raw, u16_at.
  pose proof (byte_at_range buf (base + 12)) as H12.
  pose proof (byte_at_range buf (base + 13)) as H13.
  pose proof (byte_at_range buf (base + 14)) as H14.
  pose proof (byte_at_range buf (base + 8)) as H8.
  rewrite !land_byte by assumption.
  rewrite (lor_bytes_hi (byte_at buf (base + 8))) by assumption.
  replace (Z.lor (Z.shiftl (byte_at buf (base + 14)) 16)
                 (Z.shiftl (byte_at buf (base + 13)) 8))
    with (Z.shiftl (byte_at buf (base + 13) + 256 * byte_at buf (base + 14)) 8).
  2:{ rewrite <- (lor_bytes (byte_at buf (base + 13))) by assumption.
      rewrite Z.shiftl_lor, Z.shiftl_shiftl by lia.
      apply Z.lor_comm. }
  rewrite lor_bytes_hi by assumption.
  rewrite <- !app_assoc. simpl app.
  replace (byte_at buf (base + 12)
           + 256 * (byte_at buf (base + 13) + 256 * byte_at buf (base + 14)))
    with (byte_at buf (base + 12) + 256 * byte_at buf (base + 13)
          + 65536 * byte_at buf (base + 14)) by lia.
  replace (base + 8 + 1) with (base + 9) by lia.
  reflexivity.
Qed.

Lemma decode_br4g_eq (base : Z) (buf : list byte) (tr : list Z) :
  decode_br4g base buf tr =
  ((line_angle_raw buf base,
    Z.quot (br4g_range_raw (line_large_range buf base) (line_small_range buf base)) 4),
   tr ++ [base + 7; base + 6; base + 13; base + 12; base + 9; base + 8]).
Proof.
  unfold decode_br4g, bind, rd8, ret, line_angle_raw, line_large_range,
    line_small_range, u16_at.
  rewrite !lor_bytes_hi by apply byte_at_range.
  rewrite <- !app_assoc. simpl app.
  replace (base + 6 + 1) with (base + 7) by lia.
  replace (base + 12 + 1) with (base + 13) by lia.
  replace (base + 8 + 1) with (base + 9) by lia.
  reflexivity.
Qed.

Lemma process_line_normal (e : frame_env) (base : Z) (r : NavicoReceive)
    (buf : list byte) (tr : list Z) :
  byte_at buf base = 0x18 ->
  process_line e base r buf tr =
  (let ar := line_fields buf base in
   with_ri
     (ProcessRadarSpoke
        (mk_spoke (MOD_SPOKES (Z.quot (fst ar) 2))
                  (MOD_SPOKES (Z.quot (fst ar + to_short (heading_true_raw e)) 2))
                  (line_data buf base RETURNS_PER_LINE) (snd ar)))
     (report_heading e (line_heading_raw buf base)
        (set_next_spoke (Z.rem (line_spoke buf base + 1) SPOKES)
           (track_spoke (line_spoke buf base)
              (check_status (byte_at buf (base + 1))
                 (with_ri (with_statistics inc_spokes) r))))),
   tr ++ line_reads RETURNS_PER_LINE buf base).
Proof.
  intros H. unfold process_line, bind, rd8, ret. rewrite H.
  change (negb (24 =? 24)) with false. cbv iota.
  cbn [rd_array bind rd8 ret]. unfold bind, rd8, ret.
  replace (base + 4 + 1 + 1 + 1) with (base + 7) by lia.
  replace (base + 4 + 1 + 1) with (base + 6) by lia.
  replace (base + 4 + 1) with (base + 5) by lia.
  fold (line_spoke buf base). fold (line_heading_raw buf base).
  fold (line_mark buf base).
  unfold line_fields, line_reads, line_data, sizeof_header.
  destruct (memcmp_eq (line_mark buf base) BR24MARK).
  - rewrite decode_br24_eq.
    rewrite (surjective_pairing (rd_array RETURNS_PER_LINE (base + 24) buf _)).
    rewrite rd_array_fst, rd_array_snd. cbn [fst snd].
    f_equal. rewrite <- !app_assoc. reflexivity.
  - rewrite decode_br4g_eq.
    rewrite (surjective_pairing (rd_array RETURNS_PER_LINE (base + 24) buf _)).
    rewrite rd_array_fst, rd_array_snd. cbn [fst snd].
    f_equal. rewrite <- !app_assoc. reflexivity.
Qed.

Lemma process_line_strange (e : frame_env) (base : Z) (r : NavicoReceive)
    (buf : list byte) (tr : list Z) :
  byte_at buf base <> 0x18 ->
  process_line e base r buf tr =
  (set_next_spoke (Z.rem (line_spoke buf base + 1) SPOKES)
     (with_ri (with_statistics (add_missing_spokes 1))
        (with_ri (with_statistics inc_spokes) r)),
   tr ++ [base + 2; base + 3; base]).
Proof.
  intros H. unfold process_line, bind, rd8, ret.
  apply Z.eqb_neq in H. rewrite H. cbn [negb].
  fold (line_spoke buf base). rewrite <- !app_assoc. reflexivity.
Qed.

(** What the steps of a line leave alone. *)

Lemma report_heading_ri (e : frame_env) (h : Z) (r : NavicoReceive) :
  m_ri (report_heading e h r) = m_ri r.
Proof. unfold report_heading. now destruct (_ && _). Qed.

Lemma report_heading_next (e : frame_env) (h : Z) (r : NavicoReceive) :
  m_next_spoke (report_heading e h r) = m_next_spoke r.
Proof. unfold report_heading. now destruct (_ && _). Qed.

Lemma check_status_missing (st : Z) (r : NavicoReceive) :
  missing_of (check_status st r) = missing_of r.
Proof. unfold check_status. now destruct (_ && _). Qed.

Lemma check_status_next (st : Z) (r : NavicoReceive) :
  m_next_spoke (check_status st r) = m_next_spoke r.
Proof. unfold check_status. now destruct (_ && _). Qed.

Lemma line_spoke_u16 (buf : list byte) (base : Z) :
  line_spoke buf base = u16_at buf (base + 2).
Proof.
  unfold line_spoke, u16_at. rewrite lor_bytes by apply byte_at_range.
  now replace (base + 2 + 1) with (base + 3) by lia.
Qed.

Lemma u16_at_range (buf : list byte) (off : Z) : 0 <= u16_at buf off < 65536.
Proof.
  unfold u16_at. pose proof (byte_at_range buf off).
  pose proof (byte_at_range buf (off + 1)). lia.
Qed.

(** The count that [track_spoke] adds when a spoke was expected: the
    distance from the expected to the observed number on the circle of
    4096 spokes. *)
Lemma track_spoke_expected (spoke : Z) (r : NavicoReceive) :
  0 <= m_next_spoke r < SPOKES -> 0 <= spoke < SPOKES ->
  missing_of (track_spoke spoke r)
  = missing_of r + (spoke - m_next_spoke r) mod SPOKES.
Proof.
  unfold track_spoke, missing_of, SPOKES. intros Hn Hs.
  assert (Hge : (0 <=? m_next_spoke r) = true) by (apply Z.leb_le; lia).
  rewrite Hge. cbn [andb].
  destruct (Z.eqb_spec spoke (m_next_spoke r)) as [-> | Hne]; cbn [negb].
  - rewrite Z.sub_diag. cbn. lia.
  - destruct (Z.ltb_spec (m_next_spoke r) spoke) as [Hlt | Hle]; cbn.
    + rewrite Z.mod_small by lia. reflexivity.
    + replace (spoke - m_next_spoke r)
        with (4096 + spoke - m_next_spoke r + (-1) * 4096) by lia.
      rewrite Z.mod_add by lia. rewrite Z.mod_small by lia. reflexivity.
Qed.

Lemma track_spoke_first (spoke : Z) (r : NavicoReceive) :
  m_next_spoke r < 0 -> track_spoke spoke r = r.
Proof.
  unfold track_spoke. intros Hn.
  assert (Hge : (0 <=? m_next_spoke r) = false) by (apply Z.leb_gt; lia).
  now rewrite Hge.
Qed.

Lemma track_spoke_next (spoke : Z) (r : NavicoReceive) :
  m_next_spoke (track_spoke spoke r) = m_next_spoke r.
Proof.
  unfold track_spoke. destruct (_ && _); [| reflexivity].
  now destruct (_ <? _).
Qed.

(** ** C1: the sequence tracker *)

(** C1.  For a well-formed line whose spoke number [obs] lies in [0,4095]:
    when the tracker expects the successor of a previously observed number
    [prev] in [0,4095], the line adds [(obs - prev - 1) mod 4096] to the
    missing-spoke count if [obs] is not that successor and 0 if it is (also
    across the wrap from 4095 to 0); when nothing is expected yet (the very
    first spoke) it adds nothing; afterwards the expected number is
    [(obs + 1) mod 4096]. *)
Theorem C1_sequence_tracker (e : frame_env) (base : Z) (r : NavicoReceive)
    (buf : list byte) (tr : list Z) (prev obs : Z) :
  0 <= prev <= 4095 -> 0 <= obs <= 4095 ->
  byte_at buf base = 0x18 ->
  u16_at buf (base + 2) = obs ->
  (m_next_spoke r = (prev + 1) mod 4096 ->
   missing_of (fst (process_line e base r buf tr))
   = missing_of r
     + (if obs =? (prev + 1) mod 4096 then 0 else (obs - prev - 1) mod 4096))
  /\ (m_next_spoke r < 0 ->
      missing_of (fst (process_line e base r buf tr)) = missing_of r)
  /\ m_next_spoke (fst (process_line e base r buf tr)) = (obs + 1) mod 4096.
Proof.
  intros Hprev Hobs Hlen Hspoke.
  rewrite (process_line_normal e base r buf tr Hlen). cbn [fst].
  rewrite line_spoke_u16, Hspoke.
  assert (Hmiss : forall s x h q,
    missing_of (with_ri (ProcessRadarSpoke s)
                  (report_heading e h (set_next_spoke q x))) = missing_of x).
  { intros s x h q. unfold missing_of. cbn [with_ri m_ri].
    rewrite report_heading_ri. reflexivity. }
  rewrite Hmiss. repeat split.
  - intros Hnext.
    assert (Hrange : 0 <= (prev + 1) mod 4096 < 4096) by (apply Z.mod_pos_bound; lia).
    rewrite track_spoke_expected;
      rewrite ?check_status_next; cbn [with_ri m_next_spoke]; unfold SPOKES;
      try lia.
    rewrite check_status_missing. unfold missing_of at 1. cbn.
    fold (missing_of r). f_equal. rewrite Hnext.
    rewrite Zminus_mod_idemp_r.
    replace (obs - (prev + 1)) with (obs - prev - 1) by lia.
    destruct (Z.eqb_spec obs ((prev + 1) mod 4096)) as [Heq | Hne]; [| reflexivity].
    rewrite Heq. rewrite <- Z.sub_add_distr.
    rewrite Zminus_mod_idemp_l, Z.sub_diag. reflexivity.
  - intros Hneg. rewrite track_spoke_first.
    + rewrite check_status_missing. reflexivity.
    + rewrite check_status_next. exact Hneg.
  - cbn [with_ri m_next_spoke]. rewrite report_heading_next. cbn [set_next_spoke m_next_spoke].
    unfold SPOKES. apply Z.rem_mod_nonneg; lia.
Qed.

(** ** C2: validity of the heading *)

Lemma forall_bits_spec (k : nat) (p : Z -> bool) (acc : Z) :
  forall_bits k acc p = true ->
  forall z, acc * 2 ^ Z.of_nat k <= z < (acc + 1) * 2 ^ Z.of_nat k -> p z = true.
Proof.
  revert acc. induction k as [| k IH]; intros acc H z Hz.
  - cbn [forall_bits] in H. change (2 ^ Z.of_nat 0) with 1 in Hz.
    replace z with acc by lia. exact H.
  - cbn [forall_bits] in H. apply andb_prop in H. destruct H as [H0 H1].
    rewrite Nat2Z.inj_succ, Z.pow_succ_r in Hz by lia.
    destruct (Z.lt_ge_cases z ((2 * acc + 1) * 2 ^ Z.of_nat k)) as [Hlt | Hge].
    + apply (IH (2 * acc) H0). lia.
    + apply (IH (2 * acc + 1) H1). lia.
Qed.

(** On the 16 bits of the wire the test of [HEADING_VALID], made on the
    [short int], asks that bits 12, 13 and 15 are clear. *)
Lemma heading_valid_mask (raw : Z) :
  0 <= raw < 65536 -> HEADING_VALID (to_short raw) = (Z.land raw 0xB000 =? 0).
Proof.
  intros H. apply eqb_prop.
  apply (forall_bits_spec 16
           (fun z => Bool.eqb (HEADING_VALID (to_short z)) (Z.land z 0xB000 =? 0)) 0).
  - vm_compute. reflexivity.
  - change (2 ^ Z.of_nat 16) with 65536. lia.
Qed.

Lemma testbit_B000 (n : Z) :
  0 <= n -> Z.testbit 0xB000 n = ((n =? 12) || (n =? 13) || (n =? 15)).
Proof.
  intros Hn. destruct (Z.lt_ge_cases n 16) as [Hlt | Hge].
  - apply eqb_prop.
    apply (forall_bits_spec 4
             (fun k => Bool.eqb (Z.testbit 0xB000 k)
                                ((k =? 12) || (k =? 13) || (k =? 15))) 0).
    + reflexivity.
    + change (2 ^ Z.of_nat 4) with 16. lia.
  - rewrite Z.bits_above_log2; [| lia | simpl; lia].
    symmetry. repeat (apply orb_false_intro); apply Z.eqb_neq; lia.
Qed.

Lemma land_B000_bits (raw : Z) :
  0 <= raw < 65536 ->
  Z.land raw 0xB000 = 0
  <-> (forall n, 0 <= n -> Z.testbit raw n = true -> n < 12 \/ n = 14).
Proof.
  intros Hr. split.
  - intros H n Hn Hb.
    assert (Hl : Z.testbit (Z.land raw 0xB000) n = false)
      by (rewrite H; apply Z.bits_0).
    rewrite Z.land_spec, Hb, testbit_B000 in Hl by assumption. cbn [andb] in Hl.
    apply orb_false_elim in Hl. destruct Hl as [Hl H15].
    apply orb_false_elim in Hl. destruct Hl as [H12 H13].
    apply Z.eqb_neq in H12, H13, H15.
    destruct (Z.lt_ge_cases n 16) as [Hlt | Hge]; [lia |].
    destruct (Z.eq_dec raw 0) as [-> | Hnz];
      [rewrite Z.bits_0 in Hb; discriminate |].
    rewrite Z.bits_above_log2 in Hb; [discriminate | lia |].
    apply Z.log2_lt_pow2; [lia |].
    apply Z.lt_le_trans with (2 ^ 16); [simpl; lia |].
    apply Z.pow_le_mono_r; lia.
  - intros H. apply Z.bits_inj'. intros n Hn.
    rewrite Z.land_spec, Z.bits_0, testbit_B000 by assumption.
    destruct (Z.testbit raw n) eqn:Hb; [| reflexivity].
    destruct (H n Hn Hb) as [Hlt | ->]; [| reflexivity].
    cbn [andb]. repeat (apply orb_false_intro); apply Z.eqb_neq; lia.
Qed.

Ltac line_steps :=
  unfold track_spoke, check_status, report_heading;
  repeat match goal with
         | |- context [if ?b then _ else _] => destruct b
         end;
  reflexivity.

Lemma line_heading_u16 (buf : list byte) (base : Z) :
  line_heading_raw buf base = to_short (u16_at buf (base + 10)).
Proof.
  unfold line_heading_raw, u16_at. rewrite lor_bytes_hi by apply byte_at_range.
  now replace (base + 10 + 1) with (base + 11) by lia.
Qed.

(** The call of [SetRadarHeading] that a well-formed line makes. *)
Lemma process_line_heading (e : frame_env) (base : Z) (r : NavicoReceive)
    (buf : list byte) (tr : list Z) :
  byte_at buf base = 0x18 ->
  heading_calls (fst (process_line e base r buf tr))
  = heading_calls r
    ++ [let h := to_short (u16_at buf (base + 10)) in
        if HEADING_VALID h && negb (ignore_radar_heading e)
        then SetRadarHeading h (negb (Z.land h HEADING_TRUE_FLAG =? 0))
        else SetRadarHeading_none].
Proof.
  intros Hlen. rewrite (process_line_normal e base r buf tr Hlen). cbn [fst].
  rewrite line_heading_u16. cbv zeta. cbn [with_ri heading_calls].
  unfold report_heading.
  destruct (HEADING_VALID _ && negb _); cbn [call_heading heading_calls];
    f_equal; cbn [set_next_spoke heading_calls]; line_steps.
Qed.

(** C2 (as amended).  A 16-bit raw heading is valid exactly when all its
    bits outside the 12-bit magnitude mask 0x0FFF and the true-heading flag
    bit 0x4000 are zero.  0x8000 is invalid, 0x07d6 is valid with the flag
    clear, 0x4000|0x07d6 is valid with the flag set.  A line whose heading
    is invalid makes the decoder withdraw the radar heading instead of
    handing the value on. *)
Theorem C2_heading_validity (raw : Z) :
  0 <= raw < 65536 ->
  (HEADING_VALID (to_short raw) = true
   <-> (forall n, 0 <= n -> Z.testbit raw n = true -> n < 12 \/ n = 14))
  /\ HEADING_VALID (to_short 0x8000) = false
  /\ (HEADING_VALID (to_short 0x07d6) = true
      /\ Z.land (to_short 0x07d6) HEADING_TRUE_FLAG = 0)
  /\ (HEADING_VALID (to_short (Z.lor 0x4000 0x07d6)) = true
      /\ Z.land (to_short (Z.lor 0x4000 0x07d6)) HEADING_TRUE_FLAG <> 0)
  /\ (forall e base r buf tr,
        byte_at buf base = 0x18 ->
        u16_at buf (base + 10) = raw ->
        HEADING_VALID (to_short raw) = false ->
        heading_calls (fst (process_line e base r buf tr))
        = heading_calls r ++ [SetRadarHeading_none]).
Proof.
  intros Hraw. split; [| repeat split; try reflexivity].
  - rewrite (heading_valid_mask raw Hraw), Z.eqb_eq.
    apply land_B000_bits; assumption.
  - discriminate.
  - intros e base r buf tr Hlen Hh Hinv.
    rewrite (process_line_heading e base r buf tr Hlen), Hh.
    cbv zeta. rewrite Hinv. reflexivity.
Qed.

(** C2, the claim as it stands: 0x1000 has no bit outside a 13-bit
    magnitude and the flag bit, and the code holds it invalid. *)
Lemma C2_heading_13bit_counterexample :
  claimed_HEADING_VALID_13bit (to_short 0x1000) = true
  /\ (forall n, 0 <= n -> Z.testbit 0x1000 n = true -> n < 13 \/ n = 14)
  /\ HEADING_VALID (to_short 0x1000) = false.
Proof.
  split; [reflexivity | split; [| reflexivity]].
  intros n Hn Hb. destruct (Z.lt_ge_cases n 13) as [Hlt | Hge]; [now left |].
  rewrite Z.bits_above_log2 in Hb; [discriminate | lia | simpl; lia].
Qed.

(** ** C3 and C9: the range of a line *)

Lemma memcmp_eq_iff (a b : list Z) : memcmp_eq a b = true <-> a = b.
Proof.
  revert b. induction a as [| x a IH]; intros [| y b]; cbn [memcmp_eq];
    try (split; [discriminate | discriminate]).
  - split; reflexivity.
  - rewrite andb_true_iff, Z.eqb_eq, IH. split.
    + intros [-> ->]. reflexivity.
    + intros H. injection H as -> ->. split; reflexivity.
Qed.

(** The call of [ProcessRadarSpoke] that a well-formed line makes. *)
Lemma process_line_spoke (e : frame_env) (base : Z) (r : NavicoReceive)
    (buf : list byte) (tr : list Z) :
  byte_at buf base = 0x18 ->
  spoke_calls (m_ri (fst (process_line e base r buf tr)))
  = spoke_calls (m_ri r)
    ++ [let ar := line_fields buf base in
        mk_spoke (MOD_SPOKES (Z.quot (fst ar) 2))
                 (MOD_SPOKES (Z.quot (fst ar + to_short (heading_true_raw e)) 2))
                 (line_data buf base RETURNS_PER_LINE) (snd ar)].
Proof.
  intros Hlen. rewrite (process_line_normal e base r buf tr Hlen). cbn [fst].
  cbv zeta. cbn [with_ri m_ri ProcessRadarSpoke spoke_calls].
  f_equal. rewrite report_heading_ri. cbn [set_next_spoke m_ri]. line_steps.
Qed.

(** C3.  A well-formed line without the BR24 mark has the raw range
    [small_range] when [large_range] is 0x80 and [small_range] is not -1,
    0 when [large_range] is 0x80 and [small_range] is -1, and
    [large_range * 256] otherwise, both fields being 16-bit signed; the
    range in meters handed on with the spoke is the raw range divided by 4.
    So (0x80, 400) gives 100 meters, (0x80, -1) gives 0, and 10 gives raw
    2560 and 640 meters. *)
Theorem C3_br4g_range (e : frame_env) (base : Z) (r : NavicoReceive)
    (buf : list byte) (tr : list Z) :
  byte_at buf base = 0x18 ->
  line_mark buf base <> BR24MARK ->
  exists range_raw : Z,
    (line_large_range buf base = 0x80 -> line_small_range buf base = -1 ->
     range_raw = 0)
    /\ (line_large_range buf base = 0x80 -> line_small_range buf base <> -1 ->
        range_raw = line_small_range buf base)
    /\ (line_large_range buf base <> 0x80 ->
        range_raw = line_large_range buf base * 256)
    /\ map spoke_range_meters (spoke_calls (m_ri (fst (process_line e base r buf tr))))
       = map spoke_range_meters (spoke_calls (m_ri r)) ++ [Z.quot range_raw 4]
    /\ Z.quot (br4g_range_raw 0x80 400) 4 = 100
    /\ br4g_range_raw 0x80 (-1) = 0
    /\ (forall small, br4g_range_raw 10 small = 2560
                      /\ Z.quot (br4g_range_raw 10 small) 4 = 640).
Proof.
  intros Hlen Hmark.
  exists (br4g_range_raw (line_large_range buf base) (line_small_range buf base)).
  assert (Hcmp : memcmp_eq (line_mark buf base) BR24MARK = false).
  { destruct (memcmp_eq (line_mark buf base) BR24MARK) eqn:E; [| reflexivity].
    apply memcmp_eq_iff in E. contradiction. }
  unfold br4g_range_raw at 1 2 3.
  repeat split.
  - intros -> ->. reflexivity.
  - intros -> Hs. apply Z.eqb_neq in Hs. rewrite Hs. reflexivity.
  - intros Hl. apply Z.eqb_neq in Hl. rewrite Hl.
    unfold line_large_range.
    pose proof (to_short_range (u16_at buf (base + 6))) as Hr.
    apply to_int_small. lia.
  - rewrite (process_line_spoke e base r buf tr Hlen).
    rewrite map_app. cbn [map]. unfold line_fields. rewrite Hcmp. reflexivity.
Qed.

(** On raw ranges of up to 16 bits the [double] computation of the BR24
    range gives the integer part of [raw * 10 / sqrt 2], which is the
    integer square root of [50 * raw * raw]. *)
Lemma br24_range_meters_exact (raw : Z) :
  0 <= raw < 65536 -> br24_range_meters raw = Z.sqrt (50 * raw * raw).
Proof.
  intros H. apply Z.eqb_eq.
  apply (forall_bits_spec 16
           (fun z => br24_range_meters z =? Z.sqrt (50 * z * z)) 0).
  - vm_compute. reflexivity.
  - change (2 ^ Z.of_nat 16) with 65536. lia.
Qed.

(** C9.  A well-formed line with the BR24 mark hands on, as its range in
    meters, the 24-bit raw range of bytes 12 to 14 multiplied by 10 and
    divided by the square root of 2 in [double] arithmetic, cut to an
    integer; for a raw range below 65536 that is the integer part of
    [raw * 10 / sqrt 2]; raw 1000 gives 7071 meters. *)
Theorem C9_br24_range (e : frame_env) (base : Z) (r : NavicoReceive)
    (buf : list byte) (tr : list Z) :
  byte_at buf base = 0x18 ->
  line_mark buf base = BR24MARK ->
  map spoke_range_meters (spoke_calls (m_ri (fst (process_line e base r buf tr))))
  = map spoke_range_meters (spoke_calls (m_ri r))
    ++ [br24_range_meters (line_br24_range_raw buf base)]
  /\ 0 <= line_br24_range_raw buf base < 2 ^ 24
  /\ (line_br24_range_raw buf base < 65536 ->
      br24_range_meters (line_br24_range_raw buf base)
      = Z.sqrt (50 * line_br24_range_raw buf base * line_br24_range_raw buf base))
  /\ br24_range_meters 1000 = 7071
  /\ (7071 * 7071 <= 50 * 1000 * 1000 < 7072 * 7072).
Proof.
  intros Hlen Hmark.
  assert (Hcmp : memcmp_eq (line_mark buf base) BR24MARK = true)
    by (apply memcmp_eq_iff; exact Hmark).
  repeat split.
  - rewrite (process_line_spoke e base r buf tr Hlen).
    rewrite map_app. cbn [map]. unfold line_fields. rewrite Hcmp. reflexivity.
  - unfold line_br24_range_raw.
    pose proof (byte_at_range buf (base + 12)).
    pose proof (byte_at_range buf (base + 13)).
    pose proof (byte_at_range buf (base + 14)). lia.
  - unfold line_br24_range_raw.
    pose proof (byte_at_range buf (base + 12)).
    pose proof (byte_at_range buf (base + 13)).
    pose proof (byte_at_range buf (base + 14)).
    change (2 ^ 24) with 16777216. lia.
  - intros Hsmall. apply br24_range_meters_exact.
    unfold line_br24_range_raw in *.
    pose proof (byte_at_range buf (base + 12)).
    pose proof (byte_at_range buf (base + 13)).
    pose proof (byte_at_range buf (base + 14)). lia.
  - lia.
Qed.

(** ** C10 and the reads of [ProcessFrame] *)

Lemma frame_kept_refl (r : NavicoReceive) : frame_kept r r.
Proof. unfold frame_kept. repeat split. Qed.

Lemma frame_kept_trans (r1 r2 r3 : NavicoReceive) :
  frame_kept r1 r2 -> frame_kept r2 r3 -> frame_kept r1 r3.
Proof.
  unfold frame_kept. intros (A1 & A2 & A3 & A4 & A5) (B1 & B2 & B3 & B4 & B5).
  repeat split; congruence.
Qed.

Lemma process_line_kept (e : frame_env) (base : Z) (r : NavicoReceive)
    (buf : list byte) (tr : list Z) :
  frame_kept r (fst (process_line e base r buf tr)).
Proof.
  destruct (Z.eq_dec (byte_at buf base) 0x18) as [Hlen | Hlen].
  - rewrite (process_line_normal e base r buf tr Hlen). cbn [fst]. cbv zeta.
    unfold frame_kept. cbn [with_ri m_ri]. rewrite report_heading_ri.
    cbn [set_next_spoke m_ri]. repeat split; line_steps.
  - rewrite (process_line_strange e base r buf tr Hlen). cbn [fst].
    unfold frame_kept. repeat split.
Qed.

Lemma process_lines_kept (e : frame_env) (n : nat) (scanline : Z)
    (r : NavicoReceive) (buf : list byte) (tr : list Z) :
  frame_kept r (fst (process_lines e n scanline r buf tr)).
Proof.
  revert scanline r tr. induction n as [| n IH]; intros scanline r tr.
  - apply frame_kept_refl.
  - cbn [process_lines]. unfold bind.
    rewrite (surjective_pairing (process_line e _ r buf tr)).
    eapply frame_kept_trans; [apply process_line_kept | apply IH].
Qed.

(** C10.  Whatever the length of the datagram, also below the 8 bytes of
    the frame header, [ProcessFrame] leaves the operating state at
    TRANSMIT, both deadlines refreshed from the current time and the
    packet counter one higher; a datagram shorter than the header is then
    counted as broken without a byte of it being read. *)
Theorem C10_frame_unconditional (e : frame_env) (len : Z) (r : NavicoReceive)
    (buf : list byte) :
  m_state (m_ri (run (ProcessFrame e len r) buf))
    = Update RADAR_TRANSMIT (m_state (m_ri r))
  /\ value (m_state (m_ri (run (ProcessFrame e len r) buf))) = RADAR_TRANSMIT
  /\ m_radar_timeout (m_ri (run (ProcessFrame e len r) buf)) = now e + WATCHDOG_TIMEOUT
  /\ m_data_timeout (m_ri (run (ProcessFrame e len r) buf)) = now e + DATA_TIMEOUT
  /\ packets (m_statistics (m_ri (run (ProcessFrame e len r) buf)))
     = packets (m_statistics (m_ri r)) + 1
  /\ (len < 8 ->
      broken_packets (m_statistics (m_ri (run (ProcessFrame e len r) buf)))
      = broken_packets (m_statistics (m_ri r)) + 1
      /\ reads (ProcessFrame e len r) buf = []).
Proof.
  unfold run, reads, ProcessFrame, sizeof_frame_hdr.
  destruct (Z.ltb_spec len 8) as [Hshort | Hlong].
  - cbn. repeat split; lia.
  - match goal with
    | |- context [process_lines e ?n 0 ?x buf []] =>
        pose proof (process_lines_kept e n 0 x buf []) as (K1 & K2 & K3 & K4 & _)
    end.
    cbv zeta. rewrite K1, K2, K3, K4.
    repeat split; try lia;
      destruct (negb _); destruct (g_first_receive _); reflexivity.
Qed.

Lemma process_line_reads (e : frame_env) (base : Z) (r : NavicoReceive)
    (buf : list byte) (tr : list Z) (off : Z) :
  In off (snd (process_line e base r buf tr)) ->
  In off tr \/ base <= off < base + sizeof_radar_line.
Proof.
  unfold sizeof_radar_line, sizeof_header.
  destruct (Z.eq_dec (byte_at buf base) 0x18) as [Hlen | Hlen].
  - rewrite (process_line_normal e base r buf tr Hlen). cbn [snd].
    rewrite in_app_iff. intros [Hin | Hin]; [now left | right].
    unfold line_reads in Hin. rewrite !in_app_iff in Hin.
    destruct Hin as [Hin | [Hin | Hin]].
    + cbn [In] in Hin. lia.
    + destruct (memcmp_eq _ _); cbn [In] in Hin; lia.
    + apply in_map_iff in Hin. destruct Hin as (i & <- & Hi).
      apply in_seq in Hi. lia.
  - rewrite (process_line_strange e base r buf tr Hlen). cbn [snd].
    rewrite in_app_iff. intros [Hin | Hin]; [now left | right].
    cbn [In] in Hin. lia.
Qed.

Lemma process_lines_reads (e : frame_env) (n : nat) (scanline : Z)
    (r : NavicoReceive) (buf : list byte) (tr : list Z) (off : Z) :
  In off (snd (process_lines e n scanline r buf tr)) ->
  In off tr
  \/ exists i, scanline <= i < scanline + Z.of_nat n
               /\ sizeof_frame_hdr + i * sizeof_radar_line <= off
                  < sizeof_frame_hdr + (i + 1) * sizeof_radar_line.
Proof.
  revert scanline r tr. induction n as [| n IH]; intros scanline r tr.
  - cbn. now left.
  - cbn [process_lines]. unfold bind.
    rewrite (surjective_pairing (process_line e _ r buf tr)).
    intros Hin. apply IH in Hin. destruct Hin as [Hin | (i & Hi & Hoff)].
    + apply process_line_reads in Hin. destruct Hin as [Hin | Hin]; [now left |].
      right. exists scanline. split; [lia |]. lia.
    + right. exists i. split; [lia | exact Hoff].
Qed.

(** [ProcessFrame] reads only inside line records that lie entirely within
    the declared length of the datagram. *)
Lemma ProcessFrame_reads_in_bounds (e : frame_env) (len : Z) (r : NavicoReceive)
    (buf : list byte) (off : Z) :
  In off (reads (ProcessFrame e len r) buf) ->
  exists i, 0 <= i
            /\ sizeof_frame_hdr + i * sizeof_radar_line <= off
               < sizeof_frame_hdr + (i + 1) * sizeof_radar_line
            /\ sizeof_frame_hdr + (i + 1) * sizeof_radar_line <= len.
Proof.
  unfold reads, ProcessFrame.
  destruct (Z.ltb_spec len sizeof_frame_hdr) as [Hshort | Hlong].
  - cbn. contradiction.
  - cbv zeta. intros Hin. apply process_lines_reads in Hin.
    destruct Hin as [[] | (i & Hi & Hoff)].
    exists i. split; [lia |]. split; [exact Hoff |].
    assert (HL : 0 < sizeof_radar_line)
      by (unfold sizeof_radar_line, sizeof_header; lia).
    set (n := (len - sizeof_frame_hdr) / sizeof_radar_line) in *.
    assert (Hn : 0 <= n) by (apply Z.div_pos; lia).
    rewrite Z2Nat.id in Hi by exact Hn.
    assert (Hmul : sizeof_radar_line * n <= len - sizeof_frame_hdr)
      by (apply Z.mul_div_le; exact HL).
    nia.
Qed.

(** ** Status reports *)

Lemma ProcessReport_unfold (now len : Z) (r : NavicoReceive) (buf : list byte)
    (tr : list Z) :
  ProcessReport now len r buf tr =
  let r0 := with_ri (set_radar_timeout (now + WATCHDOG_TIMEOUT)) r in
  match dispatch_path len (byte_at buf 0) (byte_at buf 1) with
  | Report_01C4_18 =>
      let (r', tr') := process_01C4_18 now r0 buf (tr ++ [1; 0]) in
      ((true, Report_01C4_18, r'), tr')
  | Report_02C4_99 =>
      let (r', tr') := process_02C4_99 r0 buf (tr ++ [1; 0]) in
      ((true, Report_02C4_99, r'), tr')
  | Report_03C4_129 =>
      let (r', tr') := process_03C4_129 r0 buf (tr ++ [1; 0]) in
      ((true, Report_03C4_129, r'), tr')
  | Report_04C4_66 =>
      let (r', tr') := process_04C4_66 r0 buf (tr ++ [1; 0]) in
      ((true, Report_04C4_66, r'), tr')
  | Report_08C4_18 =>
      let (r', tr') := process_08C4_18 r0 buf (tr ++ [1; 0]) in
      ((true, Report_08C4_18, r'), tr')
  | Report_C4_unknown => ((true, Report_C4_unknown, r0), tr ++ [1; 0])
  | Report_F5 => ((true, Report_F5, r0), tr ++ [1])
  | Report_unknown_message => ((false, Report_unknown_message, r0), tr ++ [1])
  end.
Proof.
  unfold ProcessReport, dispatch_path, bind, rd8, ret. cbv zeta.
  destruct (byte_at buf 1 =? 196).
  - rewrite <- app_assoc. cbn [app].
    repeat match goal with
           | |- context [if ?b then _ else _] => destruct b; [reflexivity |]
           end.
    reflexivity.
  - destruct (byte_at buf 1 =? 245); reflexivity.
Qed.

(** The case that a report takes is the one of its key. *)
Lemma ProcessReport_path (now len : Z) (r : NavicoReceive) (buf : list byte) :
  report_path_of (run (ProcessReport now len r) buf)
  = dispatch_path len (byte_at buf 0) (byte_at buf 1).
Proof.
  unfold report_path_of, run. rewrite ProcessReport_unfold. cbv zeta.
  destruct (dispatch_path len (byte_at buf 0) (byte_at buf 1));
    try reflexivity;
    match goal with
    | |- context [let (_, _) := ?m in _] => rewrite (surjective_pairing m)
    end; reflexivity.
Qed.

(** A key outside the known set selects none of the five known cases. *)
Lemma dispatch_path_unknown (len what command : Z) :
  0 < len < 2 ^ 23 -> 0 <= what < 256 ->
  ~ In (len, what) known_report_keys ->
  dispatch_path len what command = Report_C4_unknown
  \/ dispatch_path len what command = Report_F5
  \/ dispatch_path len what command = Report_unknown_message.
Proof.
  intros Hlen Hwhat Hkey. unfold dispatch_path.
  destruct (command =? 196); [| destruct (command =? 245); auto].
  left. cbv zeta.
  rewrite Z.shiftl_mul_pow2 by lia. change (2 ^ 8) with 256.
  change (2 ^ 23) with 8388608 in Hlen.
  rewrite to_int_small by lia.
  change (Z.shiftl 18 8 + 1) with 4609. change (Z.shiftl 99 8 + 2) with 25346.
  change (Z.shiftl 129 8 + 3) with 33027. change (Z.shiftl 66 8 + 4) with 16900.
  change (Z.shiftl 18 8 + 8) with 4616.
  unfold known_report_keys in Hkey. cbn [In] in Hkey.
  repeat match goal with
         | |- context [?a =? ?b] =>
             destruct (Z.eqb_spec a b) as [? | ?];
             [exfalso; apply Hkey |]
         end;
    try reflexivity.
  - left. f_equal; lia.
  - right; left. f_equal; lia.
  - right; right; left. f_equal; lia.
  - right; right; right; left. f_equal; lia.
  - right; right; right; right; left. f_equal; lia.
Qed.

Lemma process_01C4_18_state (now : Z) (r : NavicoReceive) (buf : list byte)
    (tr : list Z) :
  fst (process_01C4_18 now r buf tr) =
  if byte_at buf 2 =? m_radar_status r then r
  else
    let r1 := set_radar_status (byte_at buf 2) r in
    if byte_at buf 2 =? 0x01 then
      SetStatus Standby (with_ri (update_state RADAR_STANDBY) r1)
    else if byte_at buf 2 =? 0x02 then
      SetStatus Transmit (with_ri (update_state RADAR_TRANSMIT) r1)
    else if byte_at buf 2 =? 0x05 then
      SetStatus Waking_up
        (with_ri (set_data_timeout (now + DATA_TIMEOUT))
           (with_ri (update_state RADAR_WAKING_UP) r1))
    else SetStatus Unknown_status r1.
Proof.
  unfold process_01C4_18, bind, rd8, ret.
  destruct (byte_at buf 2 =? m_radar_status r); [reflexivity |].
  cbn [negb set_radar_status m_radar_status]. cbv zeta.
  repeat match goal with
         | |- context [if ?b then _ else _] => destruct b; [reflexivity |]
         end.
  reflexivity.
Qed.

(** ** C5: the operating-status report *)

(** C5 (as amended).  For an operating-status report (length 18, 01 C4)
    whose status byte differs from the status byte recorded from the
    report before: 0x01 yields STANDBY, 0x02 TRANSMIT and 0x05 WAKING_UP,
    any other value leaves the operating state as it was; only 0x05
    refreshes the data-timeout deadline; the status byte is recorded.  A
    report that repeats the recorded status byte leaves the operating
    state and the deadline as they are. *)
Theorem C5_operating_status (now : Z) (r : NavicoReceive) (buf : list byte) :
  byte_at buf 0 = 0x01 -> byte_at buf 1 = 0xC4 ->
  let r' := report_state (run (ProcessReport now 18 r) buf) in
  let status := byte_at buf 2 in
  (status <> m_radar_status r ->
   m_radar_status r' = status
   /\ (status = 0x01 ->
       value (m_state (m_ri r')) = RADAR_STANDBY
       /\ m_data_timeout (m_ri r') = m_data_timeout (m_ri r))
   /\ (status = 0x02 ->
       value (m_state (m_ri r')) = RADAR_TRANSMIT
       /\ m_data_timeout (m_ri r') = m_data_timeout (m_ri r))
   /\ (status = 0x05 ->
       value (m_state (m_ri r')) = RADAR_WAKING_UP
       /\ m_data_timeout (m_ri r') = now + DATA_TIMEOUT)
   /\ (status <> 0x01 -> status <> 0x02 -> status <> 0x05 ->
       m_state (m_ri r') = m_state (m_ri r)
       /\ m_data_timeout (m_ri r') = m_data_timeout (m_ri r)))
  /\ (status = m_radar_status r ->
      m_state (m_ri r') = m_state (m_ri r)
      /\ m_data_timeout (m_ri r') = m_data_timeout (m_ri r)
      /\ m_radar_status r' = m_radar_status r).
Proof.
  intros H0 H1. cbv zeta. unfold report_state, run.
  rewrite ProcessReport_unfold, H0, H1. cbv zeta.
  change (dispatch_path 18 1 196) with Report_01C4_18. cbv iota.
  rewrite (surjective_pairing (process_01C4_18 _ _ _ _)). cbn [snd].
  rewrite process_01C4_18_state.
  cbn [with_ri m_radar_status]. split.
  - intros Hne. apply Z.eqb_neq in Hne. rewrite Hne. cbv zeta.
    split; [| split; [| split; [| split]]].
    + repeat match goal with
             | |- context [if ?b then _ else _] => destruct b
             end; reflexivity.
    + intros Hs. rewrite Hs. split; reflexivity.
    + intros Hs. rewrite Hs. split; reflexivity.
    + intros Hs. rewrite Hs. split; reflexivity.
    + intros Hs1 Hs2 Hs5. apply Z.eqb_neq in Hs1, Hs2, Hs5.
      rewrite Hs1, Hs2, Hs5. split; reflexivity.
  - intros Heq. apply Z.eqb_eq in Heq. rewrite Heq. repeat split.
Qed.

(** ** C7: reports with an unknown key *)

(** C7.  The case of the dispatch that a report takes is the same for any
    two reports of equal length whose first two bytes agree, whatever the
    rest of the payload, the time and the state.  A report whose (length,
    first byte) key is outside the known set changes no setting and not
    the operating state: the state afterwards is the state before with the
    radar-presence deadline refreshed; and it is accepted ([true]) when its
    second byte is one of the two family bytes 0xC4 and 0xF5. *)
Theorem C7_unknown_report_ignored (now len : Z) (r : NavicoReceive)
    (buf : list byte) :
  0 < len < 2 ^ 23 ->
  (forall now' r' buf',
      byte_at buf' 0 = byte_at buf 0 -> byte_at buf' 1 = byte_at buf 1 ->
      report_path_of (run (ProcessReport now' len r') buf')
      = report_path_of (run (ProcessReport now len r) buf))
  /\ (~ In (len, byte_at buf 0) known_report_keys ->
      report_state (run (ProcessReport now len r) buf)
      = with_ri (set_radar_timeout (now + WATCHDOG_TIMEOUT)) r
      /\ controls (m_ri (report_state (run (ProcessReport now len r) buf)))
         = controls (m_ri r)
      /\ m_state (m_ri (report_state (run (ProcessReport now len r) buf)))
         = m_state (m_ri r)
      /\ (byte_at buf 1 = 0xC4 \/ byte_at buf 1 = 0xF5 ->
          report_accepted (run (ProcessReport now len r) buf) = true)).
Proof.
  intros Hlen. split.
  - intros now' r' buf' H0 H1. rewrite !ProcessReport_path, H0, H1. reflexivity.
  - intros Hkey.
    assert (Hst : report_state (run (ProcessReport now len r) buf)
                  = with_ri (set_radar_timeout (now + WATCHDOG_TIMEOUT)) r).
    { unfold report_state, run. rewrite ProcessReport_unfold. cbv zeta.
      destruct (dispatch_path_unknown len (byte_at buf 0) (byte_at buf 1)
                  Hlen (byte_at_range buf 0) Hkey) as [-> | [-> | ->]];
        reflexivity. }
    rewrite Hst. repeat split.
    intros Hfam. unfold report_accepted, run. rewrite ProcessReport_unfold.
    cbv zeta.
    pose proof (dispatch_path_unknown len (byte_at buf 0) (byte_at buf 1)
                  Hlen (byte_at_range buf 0) Hkey) as Hp.
    destruct Hp as [-> | [-> | Hp]]; try reflexivity.
    exfalso. unfold dispatch_path in Hp.
    destruct Hfam as [Hc | Hc]; rewrite Hc in Hp; cbn in Hp.
    + repeat match type of Hp with
             | (if ?b then _ else _) = _ => destruct b; [discriminate |]
             end.
      discriminate.
    + discriminate.
Qed.

(** ** C8: the bearing and antenna report *)

Lemma process_04C4_66_state (r : NavicoReceive) (buf : list byte) (tr : list Z) :
  fst (process_04C4_66 r buf tr) =
  let ba := Z.quot (u16_at buf 6) 10 in
  with_ri (update_control m_antenna_height (Z.quot (u16_at buf 10) 1000))
    (with_ri (update_control m_bearing_alignment
                (if 180 <? ba then ba - 360 else ba)) r).
Proof. reflexivity. Qed.

(** C8 (as amended).  For a bearing and antenna report (length 66, 04 C4)
    the bearing-alignment field is read as an unsigned 16-bit number of
    tenths of a degree; the value stored is the field divided by 10, less
    360 when that is above 180.  It lies in (-180, 180] exactly when the
    field is at most 5409, so for every field from 0 to 3599.  The antenna
    height stored is the field in millimeters divided by 1000. *)
Theorem C8_bearing_antenna (now : Z) (r : NavicoReceive) (buf : list byte) :
  byte_at buf 0 = 0x04 -> byte_at buf 1 = 0xC4 ->
  let r' := report_state (run (ProcessReport now 66 r) buf) in
  let ba := Z.quot (u16_at buf 6) 10 in
  value (controls (m_ri r') m_bearing_alignment)
    = (if 180 <? ba then ba - 360 else ba)
  /\ (u16_at buf 6 <= 5409 <->
      -180 < value (controls (m_ri r') m_bearing_alignment) <= 180)
  /\ value (controls (m_ri r') m_antenna_height) = Z.quot (u16_at buf 10) 1000.
Proof.
  intros H0 H1. cbv zeta. unfold report_state, run.
  rewrite ProcessReport_unfold, H0, H1. cbv zeta.
  change (dispatch_path 66 4 196) with Report_04C4_66. cbv iota.
  rewrite (surjective_pairing (process_04C4_66 _ _ _)). cbn [snd].
  rewrite process_04C4_66_state. cbv zeta.
  cbn [fst snd with_ri m_ri update_control controls Control_eqb Update value].
  pose proof (u16_at_range buf 6) as Hr.
  pose proof (quot_bounds (u16_at buf 6) 10 ltac:(lia) ltac:(lia)) as Hq.
  split; [reflexivity |]. split; [| reflexivity].
  destruct (Z.ltb_spec 180 (Z.quot (u16_at buf 6) 10)); lia.
Qed.

(** ** C4: reads beyond the declared length *)

Lemma In_by_existsb (x : Z) (l : list Z) : existsb (Z.eqb x) l = true -> In x l.
Proof.
  intros H. apply existsb_exists in H. destruct H as (y & Hin & Heq).
  apply Z.eqb_eq in Heq. now subst y.
Qed.

Ltac reads_fixed :=
  unfold process_01C4_18, process_02C4_99, process_04C4_66, process_08C4_18,
    rd_u32, rd_u16, bind, rd8, ret;
  cbv beta iota zeta;
  repeat match goal with
         | |- context [if ?b then _ else _] => destruct b; cbv beta iota zeta
         end;
  cbn [snd]; rewrite ?in_app_iff; cbn [In]; intuition lia.

Lemma process_01C4_18_reads (now : Z) (r : NavicoReceive) (buf : list byte)
    (tr : list Z) (off : Z) :
  In off (snd (process_01C4_18 now r buf tr)) -> In off tr \/ 0 <= off < 18.
Proof. reads_fixed. Qed.

Lemma process_02C4_99_reads (r : NavicoReceive) (buf : list byte)
    (tr : list Z) (off : Z) :
  In off (snd (process_02C4_99 r buf tr)) -> In off tr \/ 0 <= off < 99.
Proof. reads_fixed. Qed.

Lemma process_04C4_66_reads (r : NavicoReceive) (buf : list byte)
    (tr : list Z) (off : Z) :
  In off (snd (process_04C4_66 r buf tr)) -> In off tr \/ 0 <= off < 66.
Proof. reads_fixed. Qed.

Lemma process_08C4_18_reads (r : NavicoReceive) (buf : list byte)
    (tr : list Z) (off : Z) :
  In off (snd (process_08C4_18 r buf tr)) -> In off tr \/ 0 <= off < 18.
Proof. reads_fixed. Qed.

(** A known case is only taken by a report of the length of its layout. *)
Lemma dispatch_path_known_len (len what command : Z) :
  0 < len < 2 ^ 23 -> 0 <= what < 256 ->
  match dispatch_path len what command with
  | Report_01C4_18 | Report_08C4_18 => len = 18
  | Report_02C4_99 => len = 99
  | Report_03C4_129 => len = 129
  | Report_04C4_66 => len = 66
  | _ => True
  end.
Proof.
  intros Hlen Hwhat. unfold dispatch_path.
  destruct (command =? 196); [| destruct (command =? 245); exact I].
  cbv zeta. rewrite Z.shiftl_mul_pow2 by lia. change (2 ^ 8) with 256.
  change (2 ^ 23) with 8388608 in Hlen.
  rewrite to_int_small by lia.
  change (Z.shiftl 18 8 + 1) with 4609. change (Z.shiftl 99 8 + 2) with 25346.
  change (Z.shiftl 129 8 + 3) with 33027. change (Z.shiftl 66 8 + 4) with 16900.
  change (Z.shiftl 18 8 + 8) with 4616.
  repeat match goal with
         | |- context [?a =? ?b] => destruct (Z.eqb_spec a b) as [? | ?]; [lia |]
         end.
  exact I.
Qed.

(** Where [ProcessReport] does stay inside the datagram: at a length of two
    bytes or more, in every case but that of the firmware strings. *)
Lemma ProcessReport_reads_in_bounds (now len : Z) (r : NavicoReceive)
    (buf : list byte) (off : Z) :
  2 <= len < 2 ^ 23 ->
  report_path_of (run (ProcessReport now len r) buf) <> Report_03C4_129 ->
  In off (reads (ProcessReport now len r) buf) -> 0 <= off < len.
Proof.
  intros Hlen Hpath. rewrite ProcessReport_path in Hpath.
  unfold reads. rewrite ProcessReport_unfold. cbv zeta.
  pose proof (dispatch_path_known_len len (byte_at buf 0) (byte_at buf 1)
                ltac:(lia) (byte_at_range buf 0)) as Hk.
  destruct (dispatch_path len (byte_at buf 0) (byte_at buf 1));
    try contradiction;
    try match goal with
        | |- context [let (_, _) := ?m in _] => rewrite (surjective_pairing m)
        end;
    cbn [snd]; intros Hin.
  - apply process_01C4_18_reads in Hin. cbn [app In] in Hin. lia.
  - apply process_02C4_99_reads in Hin. cbn [app In] in Hin. lia.
  - apply process_04C4_66_reads in Hin. cbn [app In] in Hin. lia.
  - apply process_08C4_18_reads in Hin. cbn [app In] in Hin. lia.
  - cbn [app In] in Hin. lia.
  - cbn [app In] in Hin. lia.
  - cbn [app In] in Hin. lia.
Qed.

(** C4, at the inputs where the code fails.  For a datagram of length 1
    [ProcessReport] reads offset 1, which is not part of the datagram; with
    the byte C4 of an earlier report still there the datagram is accepted
    as a radar report.  For the report of length 129 whose firmware strings
    have no zero code unit the scan reads offsets 129, 130 and 131. *)
Theorem C4_report_reads_past_length (now : Z) (r : NavicoReceive)
    (buf : list byte) :
  In 1 (reads (ProcessReport now 1 r) buf)
  /\ reads (ProcessReport now 1 r) sample_buffer_one_byte = [1; 0]
  /\ report_accepted (run (ProcessReport now 1 r) sample_buffer_one_byte) = true
  /\ (In 129 (reads (ProcessReport now 129 r) sample_report_unterminated)
      /\ In 130 (reads (ProcessReport now 129 r) sample_report_unterminated)
      /\ In 131 (reads (ProcessReport now 129 r) sample_report_unterminated)).
Proof.
  split.
  - unfold reads. rewrite ProcessReport_unfold. cbv zeta.
    assert (Hkey : ~ In (1, byte_at buf 0) known_report_keys).
    { unfold known_report_keys. cbn [In].
      intros [H | [H | [H | [H | [H | []]]]]]; discriminate H. }
    destruct (dispatch_path_unknown 1 (byte_at buf 0) (byte_at buf 1))
      as [-> | [-> | ->]];
      [change (2 ^ 23) with 8388608; lia | apply byte_at_range | exact Hkey
      | cbn; tauto ..].
  - split; [reflexivity |]. split; [reflexivity |].
    repeat split; apply In_by_existsb; vm_compute; reflexivity.
Qed.

(** ** C6: the select timeout *)

Lemma no_spoke_watchdog_state (s : entry_state) :
  m_state (m_ri (rx (no_spoke_watchdog s))) = m_state (m_ri (rx s))
  /\ radar_addr (no_spoke_watchdog s) = radar_addr s
  /\ reportSocket (no_spoke_watchdog s) = reportSocket s
  /\ closed (no_spoke_watchdog s) = closed s
  /\ no_data_timeout (no_spoke_watchdog s) = no_data_timeout s
  /\ m_interface_addr (rx (no_spoke_watchdog s)) = m_interface_addr (rx s).
Proof.
  unfold no_spoke_watchdog. destruct (_ <=? _); repeat split.
Qed.

Lemma no_data_watchdog_image (s : entry_state) :
  image_resets (m_ri (rx (no_data_watchdog s))) = image_resets (m_ri (rx s))
  /\ no_spoke_timeout (no_data_watchdog s) = no_spoke_timeout s.
Proof.
  unfold no_data_watchdog. destruct (_ <=? _); [| split; reflexivity].
  cbv zeta. cbn [set_no_data_timeout reportSocket].
  destruct (reportSocket s); split; reflexivity.
Qed.

(** C6 (as amended).  On a select timeout with the no-data counter at its
    threshold of 8 quanta of 250 ms the counter is reset and, when the
    report socket is open, that socket is closed, the operating state is
    forced to OFF and the interface address and the address of the
    detected radar are cleared; when the report socket is not open the
    operating state and the radar address stay as they are.  Below the
    threshold the counter advances and nothing else changes.  Whatever the
    no-data counter, the no-spoke counter at its threshold resets the image
    and is itself reset, and otherwise advances; this step leaves the
    operating state as the no-data step left it. *)
Theorem C6_select_timeout (s : entry_state) :
  SECONDS_SELECT 2 = 8
  /\ (8 <= no_data_timeout s ->
      no_data_timeout (select_timeout s) = 0
      /\ (forall k, reportSocket s = Some k ->
            reportSocket (select_timeout s) = None
            /\ closed (select_timeout s) = closed s ++ [k]
            /\ value (m_state (m_ri (rx (select_timeout s)))) = RADAR_OFF
            /\ radar_addr (select_timeout s) = None
            /\ m_interface_addr (rx (select_timeout s)) = CLEAR_STRUCT_addr)
      /\ (reportSocket s = None ->
          m_state (m_ri (rx (select_timeout s))) = m_state (m_ri (rx s))
          /\ radar_addr (select_timeout s) = radar_addr s
          /\ closed (select_timeout s) = closed s))
  /\ (no_data_timeout s < 8 ->
      no_data_timeout (select_timeout s) = no_data_timeout s + 1
      /\ reportSocket (select_timeout s) = reportSocket s
      /\ m_state (m_ri (rx (select_timeout s))) = m_state (m_ri (rx s))
      /\ radar_addr (select_timeout s) = radar_addr s)
  /\ (8 <= no_spoke_timeout s ->
      no_spoke_timeout (select_timeout s) = 0
      /\ image_resets (m_ri (rx (select_timeout s)))
         = image_resets (m_ri (rx s)) + 1)
  /\ (no_spoke_timeout s < 8 ->
      no_spoke_timeout (select_timeout s) = no_spoke_timeout s + 1
      /\ image_resets (m_ri (rx (select_timeout s))) = image_resets (m_ri (rx s)))
  /\ m_state (m_ri (rx (select_timeout s)))
     = m_state (m_ri (rx (no_data_watchdog s))).
Proof.
  unfold select_timeout.
  destruct (no_spoke_watchdog_state (no_data_watchdog s))
    as (Kst & Kaddr & Krep & Kcl & Knd & Kif).
  destruct (no_data_watchdog_image s) as (Kimg & Kns).
  split; [reflexivity |].
  rewrite Kst, Kaddr, Krep, Kcl, Knd, Kif.
  change (SECONDS_SELECT 2) with 8 in *.
  split; [| split; [| split; [| split; [| reflexivity]]]].
  - intros Hth. unfold no_data_watchdog. change (SECONDS_SELECT 2) with 8.
    assert (Hb : (8 <=? no_data_timeout s) = true) by (apply Z.leb_le; exact Hth).
    rewrite Hb. cbv zeta. cbn [set_no_data_timeout reportSocket].
    split; [destruct (reportSocket s); reflexivity |]. split.
    + intros k Hk. rewrite Hk. repeat split.
    + intros Hk. rewrite Hk. repeat split.
  - intros Hth. unfold no_data_watchdog. change (SECONDS_SELECT 2) with 8.
    assert (Hb : (8 <=? no_data_timeout s) = false) by (apply Z.leb_gt; exact Hth).
    rewrite Hb. repeat split.
  - intros Hth. unfold no_spoke_watchdog. change (SECONDS_SELECT 2) with 8.
    rewrite Kns.
    assert (Hb : (8 <=? no_spoke_timeout s) = true) by (apply Z.leb_le; exact Hth).
    rewrite Hb. cbv zeta.
    cbn [with_rx rx with_ri m_ri ResetRadarImage image_resets no_spoke_timeout
         set_no_spoke_timeout].
    rewrite Kimg. split; reflexivity.
  - intros Hth. unfold no_spoke_watchdog. change (SECONDS_SELECT 2) with 8.
    rewrite Kns.
    assert (Hb : (8 <=? no_spoke_timeout s) = false) by (apply Z.leb_gt; exact Hth).
    rewrite Hb. cbn [set_no_spoke_timeout no_spoke_timeout rx].
    rewrite Kimg. split; reflexivity.
Qed.

(** * Further properties *)

(** ** Lines and frames *)

Lemma track_spoke_fields (spoke : Z) (r : NavicoReceive) :
  spoke_calls (m_ri (track_spoke spoke r)) = spoke_calls (m_ri r)
  /\ heading_calls (track_spoke spoke r) = heading_calls r
  /\ spokes (m_statistics (m_ri (track_spoke spoke r))) = spokes (m_statistics (m_ri r))
  /\ broken_spokes (m_statistics (m_ri (track_spoke spoke r)))
     = broken_spokes (m_statistics (m_ri r))
  /\ reports_kept r (track_spoke spoke r).
Proof. unfold reports_kept. repeat split; line_steps. Qed.

Lemma check_status_fields (st : Z) (r : NavicoReceive) :
  spoke_calls (m_ri (check_status st r)) = spoke_calls (m_ri r)
  /\ heading_calls (check_status st r) = heading_calls r
  /\ spokes (m_statistics (m_ri (check_status st r))) = spokes (m_statistics (m_ri r))
  /\ broken_spokes (m_statistics (m_ri (check_status st r)))
     = broken_spokes (m_statistics (m_ri r))
       + (if negb (st =? 0x02) && negb (st =? 0x12) then 1 else 0)
  /\ reports_kept r (check_status st r).
Proof.
  unfold reports_kept, check_status.
  destruct (negb (st =? 2) && negb (st =? 18)); cbn; repeat split; lia.
Qed.

(** What one line does to the counters and to the calls it makes. *)
Lemma process_line_effect (e : frame_env) (base : Z) (r : NavicoReceive)
    (buf : list byte) (tr : list Z) :
  spokes (m_statistics (m_ri (fst (process_line e base r buf tr))))
  = spokes (m_statistics (m_ri r)) + 1
  /\ m_next_spoke (fst (process_line e base r buf tr))
     = (u16_at buf (base + 2) + 1) mod 4096
  /\ reports_kept r (fst (process_line e base r buf tr))
  /\ (byte_at buf base = 0x18 ->
      Z.of_nat (List.length (spoke_calls (m_ri (fst (process_line e base r buf tr)))))
      = Z.of_nat (List.length (spoke_calls (m_ri r))) + 1
      /\ Z.of_nat (List.length (heading_calls (fst (process_line e base r buf tr))))
         = Z.of_nat (List.length (heading_calls r)) + 1
      /\ broken_spokes (m_statistics (m_ri (fst (process_line e base r buf tr))))
         = broken_spokes (m_statistics (m_ri r))
           + (if negb (byte_at buf (base + 1) =? 0x02)
                 && negb (byte_at buf (base + 1) =? 0x12) then 1 else 0))
  /\ (byte_at buf base <> 0x18 ->
      spoke_calls (m_ri (fst (process_line e base r buf tr))) = spoke_calls (m_ri r)
      /\ heading_calls (fst (process_line e base r buf tr)) = heading_calls r
      /\ missing_of (fst (process_line e base r buf tr)) = missing_of r + 1
      /\ broken_spokes (m_statistics (m_ri (fst (process_line e base r buf tr))))
         = broken_spokes (m_statistics (m_ri r))).
Proof.
  assert (Hnext : Z.rem (line_spoke buf base + 1) SPOKES
                  = (u16_at buf (base + 2) + 1) mod 4096).
  { rewrite line_spoke_u16. pose proof (u16_at_range buf (base + 2)).
    unfold SPOKES. apply Z.rem_mod_nonneg; lia. }
  destruct (Z.eq_dec (byte_at buf base) 0x18) as [Hlen | Hlen].
  - rewrite (process_line_normal e base r buf tr Hlen). cbn [fst]. cbv zeta.
    unfold reports_kept.
    split; [line_steps |].
    split; [cbn [with_ri m_next_spoke]; rewrite report_heading_next; exact Hnext |].
    split; [repeat split; line_steps |].
    split; [intros _ | intros Hne; contradiction].
    split; [| split].
    + cbn [with_ri m_ri ProcessRadarSpoke spoke_calls].
      rewrite length_app, report_heading_ri. cbn [set_next_spoke m_ri].
      replace (spoke_calls (m_ri (track_spoke (line_spoke buf base)
                 (check_status (byte_at buf (base + 1))
                    (with_ri (with_statistics inc_spokes) r)))))
        with (spoke_calls (m_ri r)) by line_steps.
      cbn [List.length]. lia.
    + cbn [with_ri heading_calls]. unfold report_heading.
      destruct (_ && _); cbn [call_heading heading_calls];
        rewrite length_app; cbn [set_next_spoke heading_calls];
        replace (heading_calls (track_spoke (line_spoke buf base)
                   (check_status (byte_at buf (base + 1))
                      (with_ri (with_statistics inc_spokes) r))))
          with (heading_calls r) by line_steps;
        cbn [List.length]; lia.
    + cbn [with_ri m_ri ProcessRadarSpoke m_statistics].
      rewrite report_heading_ri. cbn [set_next_spoke m_ri].
      destruct (track_spoke_fields (line_spoke buf base)
                  (check_status (byte_at buf (base + 1))
                     (with_ri (with_statistics inc_spokes) r)))
        as (_ & _ & _ & T4 & _).
      destruct (check_status_fields (byte_at buf (base + 1))
                  (with_ri (with_statistics inc_spokes) r))
        as (_ & _ & _ & K4 & _).
      rewrite T4, K4. reflexivity.
  - rewrite (process_line_strange e base r buf tr Hlen). cbn [fst].
    unfold reports_kept, missing_of. cbn.
    repeat split; try exact Hnext; try contradiction; try lia.
Qed.

Lemma reports_kept_refl (r : NavicoReceive) : reports_kept r r.
Proof. unfold reports_kept. repeat split. Qed.

Lemma reports_kept_trans (r1 r2 r3 : NavicoReceive) :
  reports_kept r1 r2 -> reports_kept r2 r3 -> reports_kept r1 r3.
Proof.
  unfold reports_kept.
  intros (A1 & A2 & A3 & A4 & A5 & A6 & A7 & A8)
         (B1 & B2 & B3 & B4 & B5 & B6 & B7 & B8).
  repeat split; congruence.
Qed.

Lemma process_lines_step (e : frame_env) (n : nat) (scanline : Z)
    (r : NavicoReceive) (buf : list byte) (tr : list Z) :
  process_lines e (S n) scanline r buf tr
  = process_lines e n (scanline + 1)
      (fst (process_line e (sizeof_frame_hdr + scanline * sizeof_radar_line) r buf tr))
      buf
      (snd (process_line e (sizeof_frame_hdr + scanline * sizeof_radar_line) r buf tr)).
Proof.
  cbn [process_lines]. unfold bind.
  now rewrite (surjective_pairing (process_line e _ r buf tr)) at 1.
Qed.

Lemma wellformed_lines_bounds (buf : list byte) (n : nat) (scanline : Z) :
  0 <= wellformed_lines buf n scanline <= Z.of_nat n.
Proof.
  revert scanline. induction n as [| n IH]; intros scanline.
  - cbn. lia.
  - cbn [wellformed_lines]. specialize (IH (scanline + 1)).
    destruct (_ =? _); lia.
Qed.

(** The counters and the calls over the lines of a frame. *)
Lemma process_lines_counts (e : frame_env) (n : nat) (scanline : Z)
    (r : NavicoReceive) (buf : list byte) (tr : list Z) :
  spokes (m_statistics (m_ri (fst (process_lines e n scanline r buf tr))))
  = spokes (m_statistics (m_ri r)) + Z.of_nat n
  /\ Z.of_nat (List.length
                 (spoke_calls (m_ri (fst (process_lines e n scanline r buf tr)))))
     = Z.of_nat (List.length (spoke_calls (m_ri r))) + wellformed_lines buf n scanline
  /\ Z.of_nat (List.length (heading_calls (fst (process_lines e n scanline r buf tr))))
     = Z.of_nat (List.length (heading_calls r)) + wellformed_lines buf n scanline
  /\ reports_kept r (fst (process_lines e n scanline r buf tr)).
Proof.
  revert scanline r tr. induction n as [| n IH]; intros scanline r tr.
  - cbn [process_lines ret fst wellformed_lines Z.of_nat].
    split; [lia |]. split; [lia |]. split; [lia |]. apply reports_kept_refl.
  - rewrite process_lines_step.
    set (base := sizeof_frame_hdr + scanline * sizeof_radar_line).
    destruct (process_line_effect e base r buf tr) as (P1 & _ & P3 & P4 & P5).
    destruct (IH (scanline + 1) (fst (process_line e base r buf tr))
                 (snd (process_line e base r buf tr))) as (I1 & I2 & I3 & I4).
    rewrite I1, I2, I3, P1. cbn [wellformed_lines]. fold base.
    split; [lia |].
    destruct (Z.eqb_spec (byte_at buf base) 24) as [Hlen | Hlen].
    + destruct (P4 Hlen) as (Q1 & Q2 & _). rewrite Q1, Q2.
      split; [lia |]. split; [lia |]. eapply reports_kept_trans; eassumption.
    + destruct (P5 Hlen) as (Q1 & Q2 & _). rewrite Q1, Q2.
      split; [lia |]. split; [lia |]. eapply reports_kept_trans; eassumption.
Qed.

Lemma clear_first_receive (x : NavicoReceive) :
  g_first_receive (if g_first_receive x then set_first_receive false x else x) = false
  /\ m_ri (if g_first_receive x then set_first_receive false x else x) = m_ri x
  /\ m_radar_status (if g_first_receive x then set_first_receive false x else x)
     = m_radar_status x
  /\ m_status (if g_first_receive x then set_first_receive false x else x)
     = m_status x
  /\ m_next_spoke (if g_first_receive x then set_first_receive false x else x)
     = m_next_spoke x
  /\ heading_calls (if g_first_receive x then set_first_receive false x else x)
     = heading_calls x.
Proof. destruct (g_first_receive x) eqn:E; repeat split; exact E. Qed.

(** X1.  For a datagram that holds the frame header, [ProcessFrame] counts
    one spoke for each whole line record that fits into the declared
    length, whatever the lines contain, and counts the packet as broken
    exactly when that number of lines is not 32; the flag for the first
    frame is down afterwards; settings, report status and status text are
    not touched. *)
Theorem ProcessFrame_statistics (e : frame_env) (len : Z) (r : NavicoReceive)
    (buf : list byte) :
  sizeof_frame_hdr <= len ->
  0 <= scanlines_in_packet len
  /\ sizeof_frame_hdr + scanlines_in_packet len * sizeof_radar_line <= len
  /\ spokes (m_statistics (m_ri (run (ProcessFrame e len r) buf)))
     = spokes (m_statistics (m_ri r)) + scanlines_in_packet len
  /\ broken_packets (m_statistics (m_ri (run (ProcessFrame e len r) buf)))
     = broken_packets (m_statistics (m_ri r))
       + (if scanlines_in_packet len =? 32 then 0 else 1)
  /\ g_first_receive (run (ProcessFrame e len r) buf) = false
  /\ controls (m_ri (run (ProcessFrame e len r) buf)) = controls (m_ri r)
  /\ m_radar_status (run (ProcessFrame e len r) buf) = m_radar_status r
  /\ m_status (run (ProcessFrame e len r) buf) = m_status r.
Proof.
  intros Hlen.
  assert (HL : 0 < sizeof_radar_line)
    by (unfold sizeof_radar_line, sizeof_header; lia).
  assert (Hn : 0 <= scanlines_in_packet len)
    by (unfold scanlines_in_packet; apply Z.div_pos; lia).
  assert (Hfit : sizeof_frame_hdr + scanlines_in_packet len * sizeof_radar_line <= len).
  { unfold scanlines_in_packet.
    pose proof (Z.mul_div_le (len - sizeof_frame_hdr) sizeof_radar_line HL). lia. }
  split; [exact Hn |]. split; [exact Hfit |].
  unfold run, ProcessFrame.
  assert (Hb : (len <? sizeof_frame_hdr) = false) by (apply Z.ltb_ge; exact Hlen).
  rewrite Hb. cbv zeta. fold (scanlines_in_packet len).
  match goal with
  | |- context [process_lines e ?n 0 ?x buf []] =>
      destruct (process_lines_counts e n 0 x buf [])
        as (C1 & _ & _ & (K1 & _ & _ & K4 & _ & K6 & _ & K8));
      pose proof (process_lines_kept e n 0 x buf []) as (_ & _ & _ & _ & F5)
  end.
  rewrite C1, F5, K1, K4, K6, K8, Z2Nat.id by exact Hn.
  match goal with
  | |- context [if g_first_receive ?x then _ else _] =>
      destruct (clear_first_receive x) as (G1 & G2 & G3 & G4 & _)
  end.
  rewrite G1, G2, G3, G4.
  destruct (scanlines_in_packet len =? 32); cbn; repeat split; lia.
Qed.

(** X2.  [ProcessFrame] calls [ProcessRadarSpoke] and [SetRadarHeading]
    once for each line whose header length is 0x18 and for no other line:
    a line with a strange header length draws nothing.  A datagram shorter
    than the frame header makes no call and leaves the tracker alone. *)
Theorem ProcessFrame_emits_wellformed_lines (e : frame_env) (len : Z)
    (r : NavicoReceive) (buf : list byte) :
  (sizeof_frame_hdr <= len ->
   Z.of_nat (List.length (spoke_calls (m_ri (run (ProcessFrame e len r) buf))))
   = Z.of_nat (List.length (spoke_calls (m_ri r)))
     + wellformed_lines buf (Z.to_nat (scanlines_in_packet len)) 0
   /\ Z.of_nat (List.length (heading_calls (run (ProcessFrame e len r) buf)))
      = Z.of_nat (List.length (heading_calls r))
        + wellformed_lines buf (Z.to_nat (scanlines_in_packet len)) 0
   /\ 0 <= wellformed_lines buf (Z.to_nat (scanlines_in_packet len)) 0
        <= scanlines_in_packet len)
  /\ (len < sizeof_frame_hdr ->
      spoke_calls (m_ri (run (ProcessFrame e len r) buf)) = spoke_calls (m_ri r)
      /\ heading_calls (run (ProcessFrame e len r) buf) = heading_calls r
      /\ m_next_spoke (run (ProcessFrame e len r) buf) = m_next_spoke r
      /\ missing_of (run (ProcessFrame e len r) buf) = missing_of r).
Proof.
  unfold run, ProcessFrame. split.
  - intros Hlen.
    assert (Hb : (len <? sizeof_frame_hdr) = false) by (apply Z.ltb_ge; exact Hlen).
    rewrite Hb. cbv zeta. fold (scanlines_in_packet len).
    assert (HL : 0 < sizeof_radar_line)
      by (unfold sizeof_radar_line, sizeof_header; lia).
    assert (Hn : 0 <= scanlines_in_packet len)
      by (unfold scanlines_in_packet; apply Z.div_pos; lia).
    match goal with
    | |- context [process_lines e ?n 0 ?x buf []] =>
        destruct (process_lines_counts e n 0 x buf []) as (_ & C2 & C3 & _)
    end.
    rewrite C2, C3.
    pose proof (wellformed_lines_bounds buf (Z.to_nat (scanlines_in_packet len)) 0)
      as Hw.
    rewrite Z2Nat.id in Hw by exact Hn.
    destruct (negb _); destruct (g_first_receive _); cbn; repeat split; lia.
  - intros Hlen.
    assert (Hb : (len <? sizeof_frame_hdr) = true) by (apply Z.ltb_lt; exact Hlen).
    rewrite Hb. repeat split.
Qed.

Lemma track_spoke_monotone (spoke : Z) (r : NavicoReceive) :
  m_next_spoke r < SPOKES -> 0 <= spoke ->
  missing_of r <= missing_of (track_spoke spoke r).
Proof.
  unfold track_spoke, missing_of, SPOKES. intros Hn Hs.
  destruct (_ && _); [| lia].
  destruct (Z.ltb_spec (m_next_spoke r) spoke);
    cbn [with_ri with_statistics add_missing_spokes m_ri m_statistics
         missing_spokes]; lia.
Qed.

Lemma tracker_step_trans (r1 r2 r3 : NavicoReceive) :
  tracker_step r1 r2 -> tracker_step r2 r3 -> tracker_step r1 r3.
Proof.
  unfold tracker_step. intros H12 H23 H1.
  destruct (H12 H1) as (A1 & A2 & A3 & A4).
  destruct (H23 A1) as (B1 & B2 & B3 & B4).
  repeat split; lia.
Qed.

Lemma process_line_tracker (e : frame_env) (base : Z) (r : NavicoReceive)
    (buf : list byte) (tr : list Z) :
  tracker_step r (fst (process_line e base r buf tr))
  /\ 0 <= m_next_spoke (fst (process_line e base r buf tr)) < SPOKES.
Proof.
  destruct (process_line_effect e base r buf tr) as (P1 & P2 & _ & P4 & P5).
  assert (Hn : 0 <= m_next_spoke (fst (process_line e base r buf tr)) < SPOKES).
  { rewrite P2. unfold SPOKES. apply Z.mod_pos_bound. lia. }
  split; [| exact Hn].
  intros Hnext. split; [lia |].
  destruct (Z.eq_dec (byte_at buf base) 0x18) as [Hlen | Hlen].
  - destruct (P4 Hlen) as (_ & _ & Q3).
    split; [| split; [lia | destruct (_ && _); lia]].
    rewrite (process_line_normal e base r buf tr Hlen). cbn [fst]. cbv zeta.
    unfold missing_of at 2. cbn [with_ri m_ri]. rewrite report_heading_ri.
    cbn [set_next_spoke m_ri].
    fold (missing_of (track_spoke (line_spoke buf base)
            (check_status (byte_at buf (base + 1))
               (with_ri (with_statistics inc_spokes) r)))).
    etransitivity; [| apply track_spoke_monotone].
    + rewrite check_status_missing. unfold missing_of. cbn. lia.
    + rewrite check_status_next. exact Hnext.
    + rewrite line_spoke_u16. apply u16_at_range.
  - destruct (P5 Hlen) as (_ & _ & Q3 & Q4). repeat split; lia.
Qed.

Lemma process_lines_tracker (e : frame_env) (n : nat) (scanline : Z)
    (r : NavicoReceive) (buf : list byte) (tr : list Z) :
  tracker_step r (fst (process_lines e n scanline r buf tr))
  /\ (n <> O -> 0 <= m_next_spoke (fst (process_lines e n scanline r buf tr))).
Proof.
  revert scanline r tr. induction n as [| n IH]; intros scanline r tr.
  - split; [| congruence]. intros H. cbn. repeat split; lia.
  - rewrite process_lines_step.
    set (base := sizeof_frame_hdr + scanline * sizeof_radar_line).
    destruct (process_line_tracker e base r buf tr) as (S1 & S2).
    destruct (IH (scanline + 1) (fst (process_line e base r buf tr))
                 (snd (process_line e base r buf tr))) as (I1 & I2).
    split; [eapply tracker_step_trans; eassumption |].
    intros _. destruct n as [| n]; [exact (proj1 S2) | apply I2; congruence].
Qed.

(** X3.  If the expected spoke number is below 4096 before a datagram it
    is below 4096 afterwards, and none of the counters of the statistics
    has gone down: the packet counter is up by one, the missing-spoke
    count has not decreased.  Once a datagram holds at least one line the
    expected spoke number is in [0,4095], whatever number was on the
    wire. *)
Theorem ProcessFrame_tracker_invariant (e : frame_env) (len : Z)
    (r : NavicoReceive) (buf : list byte) :
  m_next_spoke r < SPOKES ->
  m_next_spoke (run (ProcessFrame e len r) buf) < SPOKES
  /\ missing_of r <= missing_of (run (ProcessFrame e len r) buf)
  /\ spokes (m_statistics (m_ri r))
     <= spokes (m_statistics (m_ri (run (ProcessFrame e len r) buf)))
  /\ broken_spokes (m_statistics (m_ri r))
     <= broken_spokes (m_statistics (m_ri (run (ProcessFrame e len r) buf)))
  /\ broken_packets (m_statistics (m_ri r))
     <= broken_packets (m_statistics (m_ri (run (ProcessFrame e len r) buf)))
  /\ packets (m_statistics (m_ri (run (ProcessFrame e len r) buf)))
     = packets (m_statistics (m_ri r)) + 1
  /\ (sizeof_frame_hdr + sizeof_radar_line <= len ->
      0 <= m_next_spoke (run (ProcessFrame e len r) buf)).
Proof.
  intros Hnext. unfold run, ProcessFrame.
  assert (HL : 0 < sizeof_radar_line)
    by (unfold sizeof_radar_line, sizeof_header; lia).
  destruct (Z.ltb_spec len sizeof_frame_hdr) as [Hshort | Hlong].
  - unfold missing_of, sizeof_radar_line, sizeof_header, sizeof_frame_hdr in *.
    cbn [ret fst with_ri with_statistics m_ri m_statistics m_next_spoke
         missing_spokes spokes broken_spokes broken_packets packets
         inc_broken_packets inc_packets update_state set_data_timeout
         set_radar_timeout].
    repeat split; intros; lia.
  - cbv zeta. fold (scanlines_in_packet len).
    match goal with
    | |- context [process_lines e ?n 0 ?x buf []] =>
        destruct (process_lines_tracker e n 0 x buf []) as (T & Tn);
        pose proof (process_lines_kept e n 0 x buf []) as (_ & _ & _ & F4 & F5);
        destruct (clear_first_receive
                    (if negb (scanlines_in_packet len =? 32)
                     then with_ri (with_statistics inc_broken_packets)
                            (with_ri (with_statistics inc_packets)
                               (with_ri (update_state RADAR_TRANSMIT)
                                  (with_ri (set_data_timeout (now e + DATA_TIMEOUT))
                                     (with_ri (set_radar_timeout
                                                 (now e + WATCHDOG_TIMEOUT)) r))))
                     else with_ri (with_statistics inc_packets)
                            (with_ri (update_state RADAR_TRANSMIT)
                               (with_ri (set_data_timeout (now e + DATA_TIMEOUT))
                                  (with_ri (set_radar_timeout
                                              (now e + WATCHDOG_TIMEOUT)) r)))))
          as (_ & G2 & _ & _ & G5 & _)
    end.
    unfold tracker_step, missing_of in *.
    rewrite G2, G5 in T. rewrite F4, F5, G2.
    assert (Hpre : m_next_spoke
                     (if negb (scanlines_in_packet len =? 32)
                      then with_ri (with_statistics inc_broken_packets)
                             (with_ri (with_statistics inc_packets)
                                (with_ri (update_state RADAR_TRANSMIT)
                                   (with_ri (set_data_timeout (now e + DATA_TIMEOUT))
                                      (with_ri (set_radar_timeout
                                                  (now e + WATCHDOG_TIMEOUT)) r))))
                      else with_ri (with_statistics inc_packets)
                             (with_ri (update_state RADAR_TRANSMIT)
                                (with_ri (set_data_timeout (now e + DATA_TIMEOUT))
                                   (with_ri (set_radar_timeout
                                               (now e + WATCHDOG_TIMEOUT)) r))))
                   < SPOKES)
      by (destruct (negb _); exact Hnext).
    destruct (T Hpre) as (T1 & T2 & T3 & T4).
    split; [exact T1 |].
    assert (Hone : sizeof_frame_hdr + sizeof_radar_line <= len ->
                   Z.to_nat (scanlines_in_packet len) <> O).
    { intros Hfit. unfold scanlines_in_packet.
      assert (1 <= (len - sizeof_frame_hdr) / sizeof_radar_line)
        by (apply Z.div_le_lower_bound; lia).
      lia. }
    destruct (negb (scanlines_in_packet len =? 32)); cbn in T2, T3, T4 |- *;
      repeat split; try lia; intros Hfit; apply Tn; apply Hone; exact Hfit.
Qed.

Lemma rd_array_ext (n : nat) (off : Z) (buf1 buf2 : list byte) (tr : list Z) :
  (forall i, off <= i < off + Z.of_nat n -> byte_at buf1 i = byte_at buf2 i) ->
  rd_array n off buf1 tr = rd_array n off buf2 tr.
Proof.
  revert off tr. induction n as [| n IH]; intros off tr H; [reflexivity |].
  cbn [rd_array]. unfold bind, rd8, ret.
  rewrite (H off) by lia.
  rewrite (IH (off + 1) (tr ++ [off])); [reflexivity |].
  intros i Hi. apply H. lia.
Qed.

(** The decoding of a line looks at the bytes of its record only. *)
Lemma process_line_ext (e : frame_env) (base : Z) (r : NavicoReceive)
    (buf1 buf2 : list byte) (tr : list Z) :
  (forall i, base <= i < base + sizeof_radar_line ->
             byte_at buf1 i = byte_at buf2 i) ->
  process_line e base r buf1 tr = process_line e base r buf2 tr.
Proof.
  unfold sizeof_radar_line, sizeof_header. intros H.
  assert (E0 : byte_at buf1 base = byte_at buf2 base) by (apply H; lia).
  assert (E : forall k, 0 <= k < 24 ->
                        byte_at buf1 (base + k) = byte_at buf2 (base + k))
    by (intros k Hk; apply H; lia).
  destruct (Z.eq_dec (byte_at buf1 base) 0x18) as [Hlen | Hlen].
  - rewrite (process_line_normal e base r buf1 tr Hlen).
    rewrite E0 in Hlen.
    rewrite (process_line_normal e base r buf2 tr Hlen).
    unfold line_fields, line_reads, line_data, line_mark, line_heading_raw,
      line_spoke, line_angle_raw, line_br24_range_raw, line_large_range,
      line_small_range, u16_at.
    rewrite (rd_array_ext RETURNS_PER_LINE (base + 24) buf1 buf2 [])
      by (intros i Hi; apply H; lia).
    replace (base + 6 + 1) with (base + 7) by lia.
    replace (base + 8 + 1) with (base + 9) by lia.
    replace (base + 12 + 1) with (base + 13) by lia.
    rewrite (E 1), (E 2), (E 3), (E 4), (E 5), (E 6), (E 7), (E 8), (E 9),
      (E 10), (E 11), (E 12), (E 13), (E 14) by lia.
    reflexivity.
  - rewrite (process_line_strange e base r buf1 tr Hlen).
    rewrite E0 in Hlen.
    rewrite (process_line_strange e base r buf2 tr Hlen).
    unfold line_spoke. rewrite (E 2), (E 3) by lia. reflexivity.
Qed.

Lemma process_lines_ext (e : frame_env) (n : nat) (scanline : Z)
    (r : NavicoReceive) (buf1 buf2 : list byte) (tr : list Z) :
  0 <= scanline ->
  (forall i, sizeof_frame_hdr + scanline * sizeof_radar_line <= i
             < sizeof_frame_hdr + (scanline + Z.of_nat n) * sizeof_radar_line ->
             byte_at buf1 i = byte_at buf2 i) ->
  process_lines e n scanline r buf1 tr = process_lines e n scanline r buf2 tr.
Proof.
  assert (HL : 0 < sizeof_radar_line)
    by (unfold sizeof_radar_line, sizeof_header; lia).
  revert scanline r tr. induction n as [| n IH]; intros scanline r tr Hs H;
    [reflexivity |].
  rewrite !process_lines_step.
  rewrite (process_line_ext e _ r buf1 buf2 tr).
  - apply IH; [lia |]. intros i Hi. apply H. nia.
  - intros i Hi. apply H. nia.
Qed.

(** X4.  What [ProcessFrame] does depends on no byte outside the line
    records within the declared length: two receive buffers that agree
    from offset 8 up to the declared length give the same state and the
    same reads, whatever the frame header and the bytes behind the
    datagram are. *)
Theorem ProcessFrame_ignores_bytes_beyond_len (e : frame_env) (len : Z)
    (r : NavicoReceive) (buf1 buf2 : list byte) :
  (forall i, sizeof_frame_hdr <= i < len -> byte_at buf1 i = byte_at buf2 i) ->
  run (ProcessFrame e len r) buf1 = run (ProcessFrame e len r) buf2
  /\ reads (ProcessFrame e len r) buf1 = reads (ProcessFrame e len r) buf2.
Proof.
  intros H.
  assert (Heq : ProcessFrame e len r buf1 [] = ProcessFrame e len r buf2 []).
  { unfold ProcessFrame.
    destruct (Z.ltb_spec len sizeof_frame_hdr) as [Hshort | Hlong];
      [reflexivity |].
    cbv zeta. apply process_lines_ext; [lia |].
    assert (HL : 0 < sizeof_radar_line)
      by (unfold sizeof_radar_line, sizeof_header; lia).
    intros i Hi. apply H.
    assert (Hn : 0 <= (len - sizeof_frame_hdr) / sizeof_radar_line)
      by (apply Z.div_pos; lia).
    rewrite Z2Nat.id in Hi by exact Hn.
    pose proof (Z.mul_div_le (len - sizeof_frame_hdr) sizeof_radar_line HL).
    nia. }
  unfold run, reads. rewrite Heq. split; reflexivity.
Qed.

Lemma report_heading_calls (e : frame_env) (h : Z) (r : NavicoReceive) :
  heading_calls (report_heading e h r)
  = heading_calls r
    ++ [if HEADING_VALID h && negb (ignore_radar_heading e)
        then SetRadarHeading h (negb (Z.land h HEADING_TRUE_FLAG =? 0))
        else SetRadarHeading_none].
Proof. unfold report_heading. now destruct (_ && _). Qed.

Lemma track_spoke_missing_eq (spoke : Z) (a b : NavicoReceive) :
  m_next_spoke a = m_next_spoke b -> missing_of a = missing_of b ->
  missing_of (track_spoke spoke a) = missing_of (track_spoke spoke b).
Proof.
  unfold track_spoke, missing_of. intros Hn Hm. rewrite Hn.
  destruct (_ && _); [| exact Hm].
  destruct (_ <? _);
    cbn [with_ri with_statistics add_missing_spokes m_ri m_statistics
         missing_spokes]; rewrite Hm; reflexivity.
Qed.

(** X5.  A line whose header length is not 0x18 is counted as one missing
    spoke, whatever spoke was expected and also when none was expected yet;
    it makes no call of [ProcessRadarSpoke] or [SetRadarHeading], sets the
    expected spoke to the successor of its own number, and only its header
    length and spoke number are read. *)
Theorem process_line_strange_header (e : frame_env) (base : Z)
    (r : NavicoReceive) (buf : list byte) (tr : list Z) :
  byte_at buf base <> 0x18 ->
  spoke_calls (m_ri (fst (process_line e base r buf tr))) = spoke_calls (m_ri r)
  /\ heading_calls (fst (process_line e base r buf tr)) = heading_calls r
  /\ missing_of (fst (process_line e base r buf tr)) = missing_of r + 1
  /\ spokes (m_statistics (m_ri (fst (process_line e base r buf tr))))
     = spokes (m_statistics (m_ri r)) + 1
  /\ broken_spokes (m_statistics (m_ri (fst (process_line e base r buf tr))))
     = broken_spokes (m_statistics (m_ri r))
  /\ m_next_spoke (fst (process_line e base r buf tr))
     = (u16_at buf (base + 2) + 1) mod 4096
  /\ snd (process_line e base r buf tr) = tr ++ [base + 2; base + 3; base].
Proof.
  intros Hlen.
  destruct (process_line_effect e base r buf tr) as (P1 & P2 & _ & _ & P5).
  destruct (P5 Hlen) as (Q1 & Q2 & Q3 & Q4).
  rewrite Q1, Q2, Q3, Q4, P1, P2.
  rewrite (process_line_strange e base r buf tr Hlen).
  repeat split.
Qed.

(** X6.  The status byte of a well-formed line is advisory: a status other
    than 0x02 and 0x12 counts one broken spoke, and the line is processed
    all the same.  Two buffers that differ in the status byte only give
    the same spoke and heading calls, the same missing-spoke count and the
    same expected spoke. *)
Theorem process_line_status_advisory (e : frame_env) (base : Z)
    (r : NavicoReceive) (buf1 buf2 : list byte) (tr : list Z) :
  byte_at buf1 base = 0x18 ->
  (forall i, i <> base + 1 -> byte_at buf1 i = byte_at buf2 i) ->
  spoke_calls (m_ri (fst (process_line e base r buf1 tr)))
  = spoke_calls (m_ri (fst (process_line e base r buf2 tr)))
  /\ heading_calls (fst (process_line e base r buf1 tr))
     = heading_calls (fst (process_line e base r buf2 tr))
  /\ missing_of (fst (process_line e base r buf1 tr))
     = missing_of (fst (process_line e base r buf2 tr))
  /\ m_next_spoke (fst (process_line e base r buf1 tr))
     = m_next_spoke (fst (process_line e base r buf2 tr))
  /\ broken_spokes (m_statistics (m_ri (fst (process_line e base r buf1 tr))))
     = broken_spokes (m_statistics (m_ri r))
       + (if (byte_at buf1 (base + 1) =? 0x02) || (byte_at buf1 (base + 1) =? 0x12)
          then 0 else 1).
Proof.
  intros Hlen H.
  assert (Hlen2 : byte_at buf2 base = 0x18) by (rewrite <- H by lia; exact Hlen).
  assert (E : forall k, k <> 1 -> byte_at buf1 (base + k) = byte_at buf2 (base + k))
    by (intros k Hk; apply H; lia).
  destruct (process_line_effect e base r buf1 tr) as (_ & _ & _ & P4 & _).
  destruct (P4 Hlen) as (_ & _ & Q3).
  rewrite Q3.
  rewrite (process_line_normal e base r buf1 tr Hlen).
  rewrite (process_line_normal e base r buf2 tr Hlen2).
  cbn [fst]. cbv zeta.
  assert (Hsp : line_spoke buf1 base = line_spoke buf2 base)
    by (unfold line_spoke; rewrite (E 2), (E 3) by lia; reflexivity).
  assert (Hh : line_heading_raw buf1 base = line_heading_raw buf2 base)
    by (unfold line_heading_raw; rewrite (E 10), (E 11) by lia; reflexivity).
  assert (Hf : line_fields buf1 base = line_fields buf2 base).
  { unfold line_fields, line_mark, line_angle_raw, line_br24_range_raw,
      line_large_range, line_small_range, u16_at.
    replace (base + 6 + 1) with (base + 7) by lia.
    replace (base + 8 + 1) with (base + 9) by lia.
    replace (base + 12 + 1) with (base + 13) by lia.
    rewrite (E 4), (E 5), (E 6), (E 7), (E 8), (E 9), (E 12), (E 13), (E 14)
      by lia.
    reflexivity. }
  assert (Hd : line_data buf1 base RETURNS_PER_LINE
               = line_data buf2 base RETURNS_PER_LINE).
  { unfold line_data.
    rewrite (rd_array_ext RETURNS_PER_LINE (base + 24) buf1 buf2 []);
      [reflexivity |].
    intros i Hi. apply H. lia. }
  rewrite Hsp, Hh, Hf, Hd.
  set (r0 := with_ri (with_statistics inc_spokes) r).
  set (st1 := byte_at buf1 (base + 1)). set (st2 := byte_at buf2 (base + 1)).
  destruct (track_spoke_fields (line_spoke buf2 base) (check_status st1 r0))
    as (T1 & T2 & _).
  destruct (track_spoke_fields (line_spoke buf2 base) (check_status st2 r0))
    as (U1 & U2 & _).
  destruct (check_status_fields st1 r0) as (K1 & K2 & _).
  destruct (check_status_fields st2 r0) as (L1 & L2 & _).
  unfold missing_of at 1 2.
  cbn [with_ri m_ri ProcessRadarSpoke spoke_calls heading_calls m_statistics
       m_next_spoke].
  rewrite !report_heading_ri, !report_heading_next, !report_heading_calls.
  cbn [set_next_spoke m_ri m_next_spoke heading_calls].
  rewrite T1, T2, U1, U2, K1, K2, L1, L2.
  split; [reflexivity |]. split; [reflexivity |]. split.
  - apply track_spoke_missing_eq.
    + now rewrite !check_status_next.
    + now rewrite !check_status_missing.
  - split; [reflexivity |].
    f_equal. subst st1. destruct (byte_at buf1 (base + 1) =? 2);
      destruct (byte_at buf1 (base + 1) =? 18); reflexivity.
Qed.

(** ** Reports *)

Lemma rd_u16_eq (off : Z) (buf : list byte) (tr : list Z) :
  rd_u16 off buf tr = (u16_at buf off, tr ++ [off; off + 1]).
Proof.
  unfold rd_u16, bind, rd8, ret, u16_at. now rewrite <- app_assoc.
Qed.

Lemma rd_u32_eq (off : Z) (buf : list byte) (tr : list Z) :
  rd_u32 off buf tr = (u32_at buf off, tr ++ [off; off + 1; off + 2; off + 3]).
Proof.
  unfold rd_u32, bind, ret. rewrite !rd_u16_eq. unfold u32_at.
  rewrite <- app_assoc. cbn [app].
  now replace (off + 2 + 1) with (off + 3) by lia.
Qed.

Lemma u32_at_range (buf : list byte) (off : Z) : 0 <= u32_at buf off < 4294967296.
Proof.
  unfold u32_at. pose proof (u16_at_range buf off).
  pose proof (u16_at_range buf (off + 2)). lia.
Qed.

Lemma process_02C4_99_state (r : NavicoReceive) (buf : list byte) (tr : list Z) :
  fst (process_02C4_99 r buf tr) =
  with_ri (update_control m_range (u32_at buf 2 / 10))
    (with_ri (update_control m_target_expansion (byte_at buf 38))
       (with_ri (update_control m_interference_rejection (byte_at buf 34))
          (with_ri (update_control m_target_boost (byte_at buf 42))
             (with_ri (update_control m_sea
                         (if 0 <? byte_at buf 13 then AUTO_RANGE - byte_at buf 13
                          else to_uint32 (u32_at buf 17 * 100) / 255))
                (with_ri (update_control m_rain (Z.quot (byte_at buf 22 * 100) 255))
                   (with_ri (update_control m_gain
                               (if u32_at buf 8 =? 1 then AUTO_RANGE - 1
                                else Z.quot (byte_at buf 12 * 100) 255)) r)))))).
Proof.
  unfold process_02C4_99, bind, rd8, ret. rewrite rd_u32_eq.
  destruct (u32_at buf 8 =? 1); cbv beta iota zeta;
    destruct (0 <? byte_at buf 13); cbv beta iota zeta;
    rewrite ?rd_u32_eq; cbv beta iota zeta; rewrite ?rd_u32_eq; reflexivity.
Qed.

Lemma process_08C4_18_state (r : NavicoReceive) (buf : list byte) (tr : list Z) :
  fst (process_08C4_18 r buf tr) =
  with_ri (update_control m_local_interference_rejection (byte_at buf 3))
    (with_ri (update_control m_side_lobe_suppression
                (if byte_at buf 5 =? 1 then AUTO_RANGE - 1
                 else Z.quot (byte_at buf 9 * 100) 255))
       (with_ri (update_control m_target_separation (byte_at buf 13))
          (with_ri (update_control m_noise_rejection (byte_at buf 12))
             (with_ri (update_control m_scan_speed (byte_at buf 4)) r)))).
Proof.
  unfold process_08C4_18, bind, rd8, ret.
  destruct (byte_at buf 5 =? 1); reflexivity.
Qed.

Lemma scale_255_bounds (b : Z) :
  0 <= b < 256 -> 0 <= Z.quot (b * 100) 255 <= 100.
Proof.
  intros Hb. pose proof (quot_bounds (b * 100) 255 ltac:(lia) ltac:(lia)). lia.
Qed.

(** X7.  The settings report (length 99, 02 C4).  Gain is the AUTO value
    [AUTO_RANGE - 1] when the 32-bit field at offset 8 is 1, whatever the
    gain byte, and the gain byte scaled to 0..100 otherwise; rain is
    scaled to 0..100; sea is [AUTO_RANGE - sea_auto] when the byte
    [sea_auto] is not zero and the 32-bit sea field times 100 over 255
    otherwise, within 0..100 when that field is below 256; range is the
    32-bit field over 10; the three other settings are copied.  No other
    setting, nor the operating state, nor the recorded status byte
    changes, and the report is accepted. *)
Theorem ProcessReport_settings_report (now : Z) (r : NavicoReceive)
    (buf : list byte) :
  byte_at buf 0 = 0x02 -> byte_at buf 1 = 0xC4 ->
  let r' := report_state (run (ProcessReport now 99 r) buf) in
  let v c := value (controls (m_ri r') c) in
  (u32_at buf 8 = 1 -> v m_gain = AUTO_RANGE - 1)
  /\ (u32_at buf 8 <> 1 ->
      v m_gain = Z.quot (byte_at buf 12 * 100) 255 /\ 0 <= v m_gain <= 100)
  /\ (v m_rain = Z.quot (byte_at buf 22 * 100) 255 /\ 0 <= v m_rain <= 100)
  /\ (0 < byte_at buf 13 -> v m_sea = AUTO_RANGE - byte_at buf 13)
  /\ (byte_at buf 13 = 0 ->
      v m_sea = to_uint32 (u32_at buf 17 * 100) / 255
      /\ (u32_at buf 17 < 256 -> 0 <= v m_sea <= 100))
  /\ v m_range = u32_at buf 2 / 10
  /\ v m_target_boost = byte_at buf 42
  /\ v m_interference_rejection = byte_at buf 34
  /\ v m_target_expansion = byte_at buf 38
  /\ (forall c, ~ In c settings_02C4_99 ->
                controls (m_ri r') c = controls (m_ri r) c)
  /\ m_state (m_ri r') = m_state (m_ri r)
  /\ m_radar_status r' = m_radar_status r
  /\ report_accepted (run (ProcessReport now 99 r) buf) = true.
Proof.
  clear MOD_SPOKES.
  intros H0 H1. cbv zeta. unfold report_state, report_accepted, run.
  rewrite ProcessReport_unfold, H0, H1. cbv zeta.
  change (dispatch_path 99 2 196) with Report_02C4_99. cbv iota.
  rewrite (surjective_pairing (process_02C4_99 _ _ _)). cbn [fst snd].
  rewrite process_02C4_99_state.
  cbn [with_ri m_ri update_control controls Control_eqb Update value m_state
       m_radar_status].
  pose proof (byte_at_range buf 12) as Hg.
  pose proof (byte_at_range buf 22) as Hrain.
  pose proof (byte_at_range buf 13) as Hauto.
  pose proof (u32_at_range buf 17) as Hsea.
  split; [intros E; apply Z.eqb_eq in E; rewrite E; reflexivity |].
  split; [intros E; apply Z.eqb_neq in E; rewrite E;
          split; [reflexivity | apply scale_255_bounds; exact Hg] |].
  split; [split; [reflexivity | apply scale_255_bounds; exact Hrain] |].
  split; [intros E; apply Z.ltb_lt in E; rewrite E; reflexivity |].
  split.
  { intros E. rewrite E. cbn [Z.ltb Z.compare]. split; [reflexivity |].
    intros Hsmall. unfold to_uint32. rewrite Z.mod_small by lia.
    split; [apply Z.div_pos; lia | apply Z.div_le_upper_bound; lia]. }
  repeat split.
  intros c Hc. unfold settings_02C4_99 in Hc. cbn [In] in Hc.
  destruct c; try reflexivity; exfalso; apply Hc; tauto.
Qed.

(** X8.  The report of length 18, 08 C4.  Scan speed, noise rejection,
    target separation and local interference rejection are copied;
    side-lobe suppression is the AUTO value [AUTO_RANGE - 1] exactly when
    the byte [sls_auto] is 1, and the byte at offset 9 scaled to 0..100
    otherwise.  No other setting, nor the operating state, changes. *)
Theorem ProcessReport_scan_report (now : Z) (r : NavicoReceive)
    (buf : list byte) :
  byte_at buf 0 = 0x08 -> byte_at buf 1 = 0xC4 ->
  let r' := report_state (run (ProcessReport now 18 r) buf) in
  let v c := value (controls (m_ri r') c) in
  v m_scan_speed = byte_at buf 4
  /\ v m_noise_rejection = byte_at buf 12
  /\ v m_target_separation = byte_at buf 13
  /\ v m_local_interference_rejection = byte_at buf 3
  /\ (byte_at buf 5 = 1 -> v m_side_lobe_suppression = AUTO_RANGE - 1)
  /\ (byte_at buf 5 <> 1 ->
      v m_side_lobe_suppression = Z.quot (byte_at buf 9 * 100) 255
      /\ 0 <= v m_side_lobe_suppression <= 100)
  /\ (forall c, ~ In c settings_08C4_18 ->
                controls (m_ri r') c = controls (m_ri r) c)
  /\ m_state (m_ri r') = m_state (m_ri r)
  /\ m_radar_status r' = m_radar_status r.
Proof.
  clear MOD_SPOKES.
  intros H0 H1. cbv zeta. unfold report_state, run.
  rewrite ProcessReport_unfold, H0, H1. cbv zeta.
  change (dispatch_path 18 8 196) with Report_08C4_18. cbv iota.
  rewrite (surjective_pairing (process_08C4_18 _ _ _)). cbn [fst snd].
  rewrite process_08C4_18_state.
  cbn [with_ri m_ri update_control controls Control_eqb Update value m_state
       m_radar_status].
  pose proof (byte_at_range buf 9) as Hs.
  do 4 (split; [reflexivity |]).
  split; [intros E; rewrite E; reflexivity |].
  split; [intros E; apply Z.eqb_neq in E; rewrite E;
          split; [reflexivity | apply scale_255_bounds; exact Hs] |].
  repeat split.
  intros c Hc. unfold settings_08C4_18 in Hc. cbn [In] in Hc.
  destruct c; try reflexivity; exfalso; apply Hc; tauto.
Qed.

(** X9.  An operating-status report that is processed a second time, at
    whatever time, changes nothing but the radar-presence deadline: the
    first pass has recorded its status byte. *)
Theorem ProcessReport_status_twice (now now' : Z) (r : NavicoReceive)
    (buf : list byte) :
  byte_at buf 0 = 0x01 -> byte_at buf 1 = 0xC4 ->
  report_state
    (run (ProcessReport now' 18 (report_state (run (ProcessReport now 18 r) buf)))
       buf)
  = with_ri (set_radar_timeout (now' + WATCHDOG_TIMEOUT))
      (report_state (run (ProcessReport now 18 r) buf)).
Proof.
  intros H0 H1.
  assert (Hst : forall t x,
            report_state (run (ProcessReport t 18 x) buf)
            = fst (process_01C4_18 t
                     (with_ri (set_radar_timeout (t + WATCHDOG_TIMEOUT)) x)
                     buf ([] ++ [1; 0]))).
  { intros t x. unfold report_state, run.
    rewrite ProcessReport_unfold, H0, H1. cbv zeta.
    change (dispatch_path 18 1 196) with Report_01C4_18. cbv iota.
    now rewrite (surjective_pairing (process_01C4_18 t _ buf _)) at 1. }
  assert (Hrec : m_radar_status (report_state (run (ProcessReport now 18 r) buf))
                 = byte_at buf 2).
  { rewrite Hst, process_01C4_18_state. cbn [with_ri m_radar_status].
    destruct (Z.eqb_spec (byte_at buf 2) (m_radar_status r)) as [Heq | Hne].
    - cbn [with_ri m_radar_status]. now symmetry.
    - cbv zeta.
      repeat match goal with
             | |- context [if ?b then _ else _] => destruct b
             end; reflexivity. }
  set (r1 := report_state (run (ProcessReport now 18 r) buf)) in *.
  rewrite (Hst now' r1), process_01C4_18_state.
  cbn [with_ri m_radar_status]. rewrite Hrec, Z.eqb_refl. reflexivity.
Qed.

Lemma code_units_succ (buf : list byte) (src : Z) (k : nat) :
  code_units buf src (S k) = u16_at buf src :: code_units buf (src + 2) k.
Proof.
  unfold code_units. cbn [seq map]. f_equal.
  - f_equal. lia.
  - rewrite <- seq_shift, map_map. apply map_ext. intros i. f_equal. lia.
Qed.

Lemma code_unit_reads_succ (src : Z) (k : nat) :
  code_unit_reads src (S k) = src :: src + 1 :: code_unit_reads (src + 2) k.
Proof.
  unfold code_unit_reads.
  replace (2 * S k + 2)%nat with (S (S (2 * k + 2))) by lia.
  cbn [seq map]. f_equal; [lia |]. f_equal.
  rewrite <- seq_shift, <- seq_shift, !map_map. apply map_ext. intros i. lia.
Qed.

Lemma AppendChar16String_terminated (fuel : nat) (dest : list Z) (src : Z)
    (buf : list byte) (tr : list Z) (k : nat) :
  (k < fuel)%nat ->
  (forall i, (i < k)%nat -> u16_at buf (src + 2 * Z.of_nat i) <> 0) ->
  u16_at buf (src + 2 * Z.of_nat k) = 0 ->
  AppendChar16String fuel dest src buf tr
  = (dest ++ code_units buf src k, tr ++ code_unit_reads src k).
Proof.
  revert fuel dest src tr. induction k as [| k IH]; intros fuel dest src tr Hf Hnz Hz.
  - destruct fuel as [| fuel]; [lia |].
    cbn [AppendChar16String]. unfold bind. rewrite rd_u16_eq.
    replace (src + 2 * Z.of_nat 0) with src in Hz by lia.
    rewrite Hz. cbn [Z.eqb]. unfold ret, code_units, code_unit_reads.
    cbn [seq map Nat.mul Nat.add]. rewrite app_nil_r.
    do 3 f_equal; lia.
  - destruct fuel as [| fuel]; [lia |].
    cbn [AppendChar16String]. unfold bind. rewrite rd_u16_eq.
    assert (H0 : u16_at buf src <> 0).
    { specialize (Hnz O ltac:(lia)).
      now replace (src + 2 * Z.of_nat 0) with src in Hnz by lia. }
    apply Z.eqb_neq in H0. rewrite H0.
    rewrite (IH fuel (dest ++ [u16_at buf src]) (src + 2) (tr ++ [src; src + 1])).
    + rewrite code_units_succ, code_unit_reads_succ, <- !app_assoc. reflexivity.
    + lia.
    + intros i Hi. specialize (Hnz (S i) ltac:(lia)).
      now replace (src + 2 + 2 * Z.of_nat i)
        with (src + 2 * Z.of_nat (S i)) by lia.
    + now replace (src + 2 + 2 * Z.of_nat k)
        with (src + 2 * Z.of_nat (S k)) by lia.
Qed.

(** X10.  [AppendChar16String] appends to the string the code units that
    precede the first zero unit, in order and none of them zero, and
    nothing else; it reads these units and the terminator, and no byte
    behind the terminator. *)
Theorem AppendChar16String_first_zero (fuel : nat) (dest : list Z) (src : Z)
    (buf : list byte) (tr : list Z) (k : nat) :
  (k < fuel)%nat ->
  (forall i, (i < k)%nat -> u16_at buf (src + 2 * Z.of_nat i) <> 0) ->
  u16_at buf (src + 2 * Z.of_nat k) = 0 ->
  fst (AppendChar16String fuel dest src buf tr) = dest ++ code_units buf src k
  /\ List.length (code_units buf src k) = k
  /\ (forall u, In u (code_units buf src k) -> 0 < u < 65536)
  /\ (forall off, In off (snd (AppendChar16String fuel dest src buf tr)) ->
                  In off tr \/ src <= off < src + 2 * Z.of_nat k + 2).
Proof.
  intros Hf Hnz Hz.
  rewrite (AppendChar16String_terminated fuel dest src buf tr k Hf Hnz Hz).
  cbn [fst snd]. split; [reflexivity |]. split; [| split].
  - unfold code_units. now rewrite length_map, length_seq.
  - intros u Hu. unfold code_units in Hu. apply in_map_iff in Hu.
    destruct Hu as (i & <- & Hi). apply in_seq in Hi.
    pose proof (u16_at_range buf (src + 2 * Z.of_nat i)).
    specialize (Hnz i ltac:(lia)). lia.
  - intros off Hin. apply in_app_iff in Hin. destruct Hin as [Hin | Hin];
      [now left | right].
    unfold code_unit_reads in Hin. apply in_map_iff in Hin.
    destruct Hin as (i & <- & Hi). apply in_seq in Hi. lia.
Qed.

(** X11.  The identification report (length 129, 03 C4) whose firmware
    date and firmware time each hold a zero code unit among their 16
    units: the build information is the text "Firmware date: ", the date
    up to its terminator, a blank and the time up to its terminator; every
    read stays below offset 122, within the datagram; nothing else of the
    radar state changes but the radar-presence deadline. *)
Theorem ProcessReport_build_info (now : Z) (r : NavicoReceive)
    (buf : list byte) (kd kt : nat) :
  byte_at buf 0 = 0x03 -> byte_at buf 1 = 0xC4 ->
  (129 <= List.length buf)%nat ->
  (kd < 16)%nat -> (kt < 16)%nat ->
  (forall i, (i < kd)%nat -> u16_at buf (58 + 2 * Z.of_nat i) <> 0) ->
  u16_at buf (58 + 2 * Z.of_nat kd) = 0 ->
  (forall i, (i < kt)%nat -> u16_at buf (90 + 2 * Z.of_nat i) <> 0) ->
  u16_at buf (90 + 2 * Z.of_nat kt) = 0 ->
  build_info (report_state (run (ProcessReport now 129 r) buf))
  = Some (wxT "Firmware date: " ++ code_units buf 58 kd ++ wxT " "
          ++ code_units buf 90 kt)
  /\ m_ri (report_state (run (ProcessReport now 129 r) buf))
     = set_radar_timeout (now + WATCHDOG_TIMEOUT) (m_ri r)
  /\ (forall off, In off (reads (ProcessReport now 129 r) buf) -> 0 <= off < 122).
Proof.
  intros H0 H1 Hsize Hkd Hkt Hd Hdz Ht Htz.
  assert (Hfuel : (64 <= Nat.div (List.length buf) 2)%nat)
    by (apply (Nat.div_le_lower_bound (List.length buf) 2 64); lia).
  assert (Heq : ProcessReport now 129 r buf []
                = ((true, Report_03C4_129,
                    SetRadarBuildInfo
                      (((wxT "Firmware date: " ++ code_units buf 58 kd) ++ wxT " ")
                       ++ code_units buf 90 kt)
                      (with_ri (set_radar_timeout (now + WATCHDOG_TIMEOUT)) r)),
                   (([] ++ [1; 0]) ++ code_unit_reads 58 kd)
                   ++ code_unit_reads 90 kt)).
  { rewrite ProcessReport_unfold, H0, H1. cbv zeta.
    change (dispatch_path 129 3 196) with Report_03C4_129. cbv iota.
    unfold process_03C4_129, bind, capacity.
    rewrite (AppendChar16String_terminated _ _ 58 buf _ kd) by (assumption || lia).
    rewrite (AppendChar16String_terminated _ _ 90 buf _ kt) by (assumption || lia).
    reflexivity. }
  unfold report_state, run, reads. rewrite Heq. cbn [fst snd].
  split; [cbn [SetRadarBuildInfo build_info]; now rewrite <- !app_assoc |].
  split; [reflexivity |].
  intros off Hin. rewrite !in_app_iff in Hin. unfold code_unit_reads in Hin.
  destruct Hin as [[Hin | Hin] | Hin].
  - cbn [app In] in Hin. lia.
  - apply in_map_iff in Hin. destruct Hin as (i & <- & Hi).
    apply in_seq in Hi. lia.
  - apply in_map_iff in Hin. destruct Hin as (i & <- & Hi).
    apply in_seq in Hi. lia.
Qed.

Lemma dispatch_path_family (len what command : Z) :
  (match dispatch_path len what command with
   | Report_unknown_message => false
   | _ => true
   end) = ((command =? 0xC4) || (command =? 0xF5)).
Proof.
  unfold dispatch_path. destruct (command =? 196).
  - cbv zeta.
    repeat match goal with
           | |- context [if ?b then _ else _] => destruct b; [reflexivity |]
           end.
    reflexivity.
  - destruct (command =? 245); reflexivity.
Qed.

Lemma process_03C4_129_ri (r : NavicoReceive) (buf : list byte) (tr : list Z) :
  m_ri (fst (process_03C4_129 r buf tr)) = m_ri r
  /\ m_next_spoke (fst (process_03C4_129 r buf tr)) = m_next_spoke r
  /\ heading_calls (fst (process_03C4_129 r buf tr)) = heading_calls r.
Proof.
  unfold process_03C4_129, bind, capacity, ret.
  repeat match goal with
         | |- context [let (_, _) := ?m in _] => rewrite (surjective_pairing m)
         end.
  repeat split.
Qed.

(** X12.  Whatever the datagram, [ProcessReport] returns true exactly when
    the second byte is one of the family bytes 0xC4 and 0xF5, refreshes
    the radar-presence deadline also for a message that it does not
    accept, and never touches the statistics, the spoke tracker, the spokes
    drawn or the heading. *)
Theorem ProcessReport_acceptance (now len : Z) (r : NavicoReceive)
    (buf : list byte) :
  report_accepted (run (ProcessReport now len r) buf)
  = ((byte_at buf 1 =? 0xC4) || (byte_at buf 1 =? 0xF5))
  /\ m_radar_timeout (m_ri (report_state (run (ProcessReport now len r) buf)))
     = now + WATCHDOG_TIMEOUT
  /\ m_statistics (m_ri (report_state (run (ProcessReport now len r) buf)))
     = m_statistics (m_ri r)
  /\ spoke_calls (m_ri (report_state (run (ProcessReport now len r) buf)))
     = spoke_calls (m_ri r)
  /\ m_next_spoke (report_state (run (ProcessReport now len r) buf))
     = m_next_spoke r
  /\ heading_calls (report_state (run (ProcessReport now len r) buf))
     = heading_calls r.
Proof.
  unfold report_accepted, report_state, run. rewrite ProcessReport_unfold.
  cbv zeta. rewrite <- (dispatch_path_family len (byte_at buf 0) (byte_at buf 1)).
  destruct (dispatch_path len (byte_at buf 0) (byte_at buf 1));
    try match goal with
        | |- context [let (_, _) := ?m in _] => rewrite (surjective_pairing m)
        end; cbn [fst snd].
  - rewrite process_01C4_18_state. cbn [with_ri m_radar_status]. cbv zeta.
    repeat match goal with
           | |- context [if ?b then _ else _] => destruct b
           end; repeat split.
  - rewrite process_02C4_99_state. repeat split.
  - destruct (process_03C4_129_ri
                (with_ri (set_radar_timeout (now + WATCHDOG_TIMEOUT)) r) buf
                ([] ++ [1; 0])) as (A1 & A2 & A3).
    rewrite A1, A2, A3. repeat split.
  - rewrite process_04C4_66_state. repeat split.
  - rewrite process_08C4_18_state. repeat split.
  - repeat split.
  - repeat split.
  - repeat split.
Qed.

(** ** The interface and socket manager *)

(** X13.  [PickNextEthernetCard] forgets the interface address it had.  It
    returns a socket only for an interface with a non-zero address, which
    is then the interface address with port 0, and announces the scan;
    without an interface it returns no socket, leaves the address cleared
    and the status text as it was; when the socket cannot be opened it
    returns no socket, reports the error and keeps the address of the
    interface.  The radar state is not touched. *)
Theorem PickNextEthernetCard_outcome (v : iteration_env) (r : NavicoReceive) :
  (forall k, fst (PickNextEthernetCard v r) = Some k ->
     report_socket_opened v = Some k
     /\ next_interface v = Some (addr (m_interface_addr (snd (PickNextEthernetCard v r))))
     /\ addr (m_interface_addr (snd (PickNextEthernetCard v r))) <> 0
     /\ port (m_interface_addr (snd (PickNextEthernetCard v r))) = 0
     /\ m_status (snd (PickNextEthernetCard v r)) = Some Scanning_interface)
  /\ (next_interface v = None ->
      fst (PickNextEthernetCard v r) = None
      /\ m_interface_addr (snd (PickNextEthernetCard v r)) = CLEAR_STRUCT_addr
      /\ m_status (snd (PickNextEthernetCard v r)) = m_status r)
  /\ (forall a, next_interface v = Some a -> a <> 0 ->
      report_socket_opened v = None ->
      fst (PickNextEthernetCard v r) = None
      /\ m_interface_addr (snd (PickNextEthernetCard v r)) = mk_addr a 0
      /\ m_status (snd (PickNextEthernetCard v r)) = Some Socket_error)
  /\ m_ri (snd (PickNextEthernetCard v r)) = m_ri r.
Proof.
  unfold PickNextEthernetCard, GetNewReportSocket. cbv zeta.
  destruct (next_interface v) as [a |];
    cbn [set_interface_addr m_interface_addr addr CLEAR_STRUCT_addr];
    [destruct (Z.eqb_spec a 0) as [Ha | Ha] |];
    try destruct (report_socket_opened v) as [k' |];
    cbn; repeat split; try discriminate; try congruence;
    intros; try congruence; repeat split; congruence.
Qed.

(** ** The receive loop *)

Lemma Entry_iteration_steps (v : iteration_env) (s : entry_state) :
  Entry_iteration v s =
  let s1 := iteration_open_data v (iteration_open_report v s) in
  if iteration_stop v s1 then (s1, true)
  else (iteration_close_data
          (if 0 <? select_r v then report_readable v (data_readable v s1)
           else select_timeout s1), false).
Proof. reflexivity. Qed.

Ltac break_match :=
  repeat match goal with
         | |- context [match ?x with _ => _ end] => destruct x eqn:?
         | H : context [match ?x with _ => _ end] |- _ => destruct x eqn:?
         end.

Ltac entry_fields :=
  cbn [reportSocket dataSocket radar_addr closed m_receive_socket rx
       no_data_timeout no_spoke_timeout data
       with_rx set_no_data_timeout set_no_spoke_timeout set_radar_addr
       set_dataSocket set_reportSocket set_data closesocket] in *.

Ltac sockets_solve :=
  entry_fields; unfold held in *;
  repeat match goal with
         | |- context [In _ (_ ++ _)] => rewrite in_app_iff
         end;
  cbn [In];
  intuition (try congruence).

Lemma kept_or_closed_refl (s : entry_state) : kept_or_closed s s.
Proof. unfold kept_or_closed. auto. Qed.

Lemma kept_or_closed_trans (s1 s2 s3 : entry_state) :
  kept_or_closed s1 s2 -> kept_or_closed s2 s3 -> kept_or_closed s1 s3.
Proof. unfold kept_or_closed. auto. Qed.

Lemma iteration_open_report_kept (v : iteration_env) (s : entry_state) :
  kept_or_closed s (iteration_open_report v s).
Proof.
  unfold kept_or_closed, iteration_open_report. intros k. cbv zeta.
  break_match; sockets_solve.
Qed.

Lemma iteration_open_data_kept (v : iteration_env) (s : entry_state) :
  kept_or_closed s (iteration_open_data v s).
Proof.
  unfold kept_or_closed, iteration_open_data. intros k. cbv zeta.
  break_match; sockets_solve.
Qed.

Lemma data_readable_kept (v : iteration_env) (s : entry_state) :
  kept_or_closed s (data_readable v s).
Proof.
  unfold kept_or_closed, data_readable. intros k. cbv zeta.
  break_match; sockets_solve.
Qed.

Lemma report_readable_kept (v : iteration_env) (s : entry_state) :
  kept_or_closed s (report_readable v s).
Proof.
  unfold kept_or_closed, report_readable. intros k. cbv zeta.
  break_match; sockets_solve.
Qed.

Lemma select_timeout_kept (s : entry_state) :
  kept_or_closed s (select_timeout s).
Proof.
  unfold kept_or_closed, select_timeout, no_spoke_watchdog, no_data_watchdog.
  intros k. cbv zeta.
  break_match; sockets_solve.
Qed.

Lemma iteration_close_data_kept (s : entry_state) :
  kept_or_closed s (iteration_close_data s).
Proof.
  unfold kept_or_closed, iteration_close_data. intros k.
  break_match; sockets_solve.
Qed.

Lemma Entry_iteration_kept (v : iteration_env) (s : entry_state) :
  kept_or_closed s (fst (Entry_iteration v s)).
Proof.
  rewrite Entry_iteration_steps. cbv zeta.
  assert (H1 : kept_or_closed s (iteration_open_data v (iteration_open_report v s))).
  { eapply kept_or_closed_trans;
      [apply iteration_open_report_kept | apply iteration_open_data_kept]. }
  destruct (iteration_stop v _); cbn [fst]; [exact H1 |].
  eapply kept_or_closed_trans; [exact H1 |].
  eapply kept_or_closed_trans; [| apply iteration_close_data_kept].
  destruct (0 <? select_r v).
  - eapply kept_or_closed_trans;
      [apply data_readable_kept | apply report_readable_kept].
  - apply select_timeout_kept.
Qed.

Lemma Entry_loop_kept (vs : list iteration_env) (s : entry_state) :
  kept_or_closed s (Entry_loop vs s).
Proof.
  revert s. induction vs as [| v vs IH]; intros s; [apply kept_or_closed_refl |].
  cbn [Entry_loop]. destruct (m_receive_socket s); [| apply kept_or_closed_refl].
  pose proof (Entry_iteration_kept v s) as Hit.
  destruct (Entry_iteration v s) as [s' stop]. cbn [fst] in Hit.
  destruct stop; [exact Hit |].
  eapply kept_or_closed_trans; [exact Hit | apply IH].
Qed.

Lemma steps_receive_socket (v : iteration_env) (s : entry_state) :
  m_receive_socket (iteration_open_report v s) = m_receive_socket s
  /\ m_receive_socket (iteration_open_data v s) = m_receive_socket s
  /\ m_receive_socket (data_readable v s) = m_receive_socket s
  /\ m_receive_socket (report_readable v s) = m_receive_socket s
  /\ m_receive_socket (select_timeout s) = m_receive_socket s
  /\ m_receive_socket (iteration_close_data s) = m_receive_socket s.
Proof.
  repeat split.
  - unfold iteration_open_report. cbv zeta. break_match; reflexivity.
  - unfold iteration_open_data. cbv zeta. break_match; reflexivity.
  - unfold data_readable. cbv zeta. break_match; reflexivity.
  - unfold report_readable. cbv zeta. break_match; reflexivity.
  - unfold select_timeout, no_spoke_watchdog, no_data_watchdog. cbv zeta.
    break_match; reflexivity.
  - unfold iteration_close_data. break_match; reflexivity.
Qed.

Lemma Entry_iteration_receive_socket (v : iteration_env) (s : entry_state) :
  m_receive_socket (fst (Entry_iteration v s)) = m_receive_socket s.
Proof.
  rewrite Entry_iteration_steps. cbv zeta.
  set (s1 := iteration_open_data v (iteration_open_report v s)).
  assert (H1 : m_receive_socket s1 = m_receive_socket s).
  { subst s1.
    destruct (steps_receive_socket v (iteration_open_report v s)) as (_ & A & _).
    destruct (steps_receive_socket v s) as (B & _).
    congruence. }
  destruct (iteration_stop v s1); cbn [fst]; [exact H1 |].
  match goal with
  | |- m_receive_socket (iteration_close_data ?x) = _ =>
      destruct (steps_receive_socket v x) as (_ & _ & _ & _ & _ & C); rewrite C
  end.
  destruct (0 <? select_r v).
  - destruct (steps_receive_socket v (data_readable v s1)) as (_ & _ & _ & D & _).
    destruct (steps_receive_socket v s1) as (_ & _ & E & _).
    congruence.
  - destruct (steps_receive_socket v s1) as (_ & _ & _ & _ & F & _).
    congruence.
Qed.

Lemma Entry_loop_receive_socket (vs : list iteration_env) (s : entry_state) :
  m_receive_socket (Entry_loop vs s) = m_receive_socket s.
Proof.
  revert s. induction vs as [| v vs IH]; intros s; [reflexivity |].
  cbn [Entry_loop]. destruct (m_receive_socket s) eqn:E; [| exact E].
  pose proof (Entry_iteration_receive_socket v s) as Hit.
  destruct (Entry_iteration v s) as [s' stop]. cbn [fst] in Hit.
  destruct stop; [congruence |]. rewrite IH. congruence.
Qed.

(** X14.  The loop drops no socket: a socket held in [reportSocket] or
    [dataSocket] at some turn is, after any number of further turns, still
    held or has been handed to [closesocket]; and when [Entry] has run to
    its end every such socket, and the two sockets of the stop message,
    have been closed and [m_is_shutdown] is raised. *)
Theorem Entry_closes_every_socket (vs : list iteration_env) (s : entry_state)
    (m_send_socket : option SOCKET) (k : SOCKET) :
  held s k \/ m_send_socket = Some k \/ m_receive_socket s = Some k ->
  (held s k -> held (Entry_loop vs s) k \/ In k (closed (Entry_loop vs s)))
  /\ In k (closed (fst (fst (Entry_exit m_send_socket (Entry_loop vs s)))))
  /\ snd (Entry_exit m_send_socket (Entry_loop vs s)) = true
  /\ snd (fst (Entry_exit m_send_socket (Entry_loop vs s))) = None.
Proof.
  intros H.
  assert (Hloop : held s k -> held (Entry_loop vs s) k \/ In k (closed (Entry_loop vs s)))
    by (intros Hh; apply (Entry_loop_kept vs s k); now left).
  split; [exact Hloop |]. split; [| split; reflexivity].
  assert (Hrecv : m_receive_socket (Entry_loop vs s) = m_receive_socket s)
    by apply Entry_loop_receive_socket.
  unfold Entry_exit. cbv zeta. cbn [fst].
  destruct H as [Hh | [Hsend | Hr]].
  - destruct (Hloop Hh) as [[Hrep | Hdat] | Hcl];
      break_match; sockets_solve.
  - subst m_send_socket. break_match; sockets_solve.
  - rewrite <- Hrecv in Hr. break_match; sockets_solve.
Qed.

Lemma PickNextEthernetCard_ri (v : iteration_env) (r : NavicoReceive) :
  m_ri (snd (PickNextEthernetCard v r)) = m_ri r.
Proof.
  unfold PickNextEthernetCard, GetNewReportSocket. cbv zeta.
  break_match; reflexivity.
Qed.

Lemma iteration_open_report_effect (v : iteration_env) (s : entry_state) :
  dataSocket (iteration_open_report v s) = dataSocket s
  /\ radar_addr (iteration_open_report v s) = radar_addr s
  /\ closed (iteration_open_report v s) = closed s
  /\ m_ri (rx (iteration_open_report v s)) = m_ri (rx s)
  /\ (reportSocket s <> None -> iteration_open_report v s = s)
  /\ (reportSocket (iteration_open_report v s) = None ->
      no_data_timeout (iteration_open_report v s) = no_data_timeout s).
Proof.
  unfold iteration_open_report. cbv zeta.
  destruct (reportSocket s) eqn:E; [repeat split; congruence |].
  pose proof (PickNextEthernetCard_ri v (rx s)) as Hri.
  entry_fields.
  destruct (fst (PickNextEthernetCard v (rx s))); entry_fields;
    repeat split; try congruence.
Qed.

Lemma iteration_open_data_effect (v : iteration_env) (s : entry_state) :
  reportSocket (iteration_open_data v s) = reportSocket s
  /\ radar_addr (iteration_open_data v s) = radar_addr s
  /\ m_ri (rx (iteration_open_data v s)) = m_ri (rx s)
  /\ no_data_timeout (iteration_open_data v s) = no_data_timeout s
  /\ (dataSocket (iteration_open_data v s) <> None -> radar_addr s <> None).
Proof.
  unfold iteration_open_data, GetNewDataSocket. cbv zeta.
  break_match; entry_fields; repeat split; congruence.
Qed.

Lemma data_readable_effect (v : iteration_env) (s : entry_state) :
  reportSocket (data_readable v s) = reportSocket s
  /\ radar_addr (data_readable v s) = radar_addr s
  /\ (dataSocket (data_readable v s) <> None ->
      dataSocket (data_readable v s) = dataSocket s)
  /\ (data_ready v = false -> data_readable v s = s).
Proof.
  unfold data_readable. cbv zeta.
  break_match; entry_fields; repeat split; congruence.
Qed.

Lemma report_readable_effect (v : iteration_env) (s : entry_state) :
  dataSocket (report_readable v s) = dataSocket s
  /\ (reportSocket (report_readable v s) <> None ->
      reportSocket (report_readable v s) = reportSocket s)
  /\ (forall a, radar_addr s = Some a -> radar_addr (report_readable v s) = Some a)
  /\ (radar_addr s = None ->
      radar_addr (report_readable v s) = None
      \/ (radar_addr (report_readable v s) = Some (report_from v)
          /\ reportSocket (report_readable v s) <> None
          /\ no_data_timeout (report_readable v s) = SECONDS_SELECT (-15)
          /\ exists iface,
               detected (m_ri (rx (report_readable v s)))
               = Some (iface, report_from v))).
Proof.
  unfold report_readable. cbv zeta.
  destruct (reportSocket s) as [k |] eqn:Erep;
    [| repeat split; try congruence; intros; now left].
  destruct (report_ready v); [| repeat split; try congruence; intros; now left].
  entry_fields.
  destruct (0 <? recv_r _ _);
    [| entry_fields; repeat split; try congruence; intros; now left].
  destruct (fst (fst _)); [| entry_fields; repeat split; try congruence;
                             intros; now left].
  destruct (radar_addr s) as [a |] eqn:Eaddr; entry_fields.
  { repeat split; try congruence. }
  match goal with
  | |- context [eqb_of ?x RADAR_OFF] => destruct (eqb_of x RADAR_OFF) eqn:Eoff
  end; entry_fields; (split; [reflexivity |]); (split; [congruence |]);
    (split; [congruence |]); intros _; right;
    (split; [reflexivity |]); (split; [congruence |]);
    (split; [reflexivity |]); eexists; reflexivity.
Qed.

Lemma no_data_watchdog_effect (s : entry_state) :
  dataSocket (no_data_watchdog s) = dataSocket s
  /\ no_spoke_timeout (no_data_watchdog s) = no_spoke_timeout s
  /\ ((reportSocket (no_data_watchdog s) = reportSocket s
       /\ radar_addr (no_data_watchdog s) = radar_addr s)
      \/ (reportSocket (no_data_watchdog s) = None
          /\ radar_addr (no_data_watchdog s) = None
          /\ no_data_timeout (no_data_watchdog s) = 0
          /\ SECONDS_SELECT 2 <= no_data_timeout s
          /\ reportSocket s <> None)).
Proof.
  unfold no_data_watchdog. cbv zeta.
  destruct (Z.leb_spec (SECONDS_SELECT 2) (no_data_timeout s)); entry_fields.
  - destruct (reportSocket s) eqn:Erep; entry_fields.
    + split; [reflexivity |]. split; [reflexivity |]. right.
      repeat split; try assumption. discriminate.
    + split; [reflexivity |]. split; [reflexivity |]. left. split; congruence.
  - split; [reflexivity |]. split; [reflexivity |]. left. split; reflexivity.
Qed.

Lemma no_spoke_watchdog_effect (s : entry_state) :
  dataSocket (no_spoke_watchdog s) = dataSocket s
  /\ reportSocket (no_spoke_watchdog s) = reportSocket s
  /\ radar_addr (no_spoke_watchdog s) = radar_addr s
  /\ no_data_timeout (no_spoke_watchdog s) = no_data_timeout s.
Proof.
  unfold no_spoke_watchdog. cbv zeta.
  destruct (SECONDS_SELECT 2 <=? no_spoke_timeout s); entry_fields;
    repeat split.
Qed.

Lemma select_timeout_effect (s : entry_state) :
  dataSocket (select_timeout s) = dataSocket s
  /\ ((reportSocket (select_timeout s) = reportSocket s
       /\ radar_addr (select_timeout s) = radar_addr s)
      \/ (reportSocket (select_timeout s) = None
          /\ radar_addr (select_timeout s) = None
          /\ no_data_timeout (select_timeout s) = 0
          /\ SECONDS_SELECT 2 <= no_data_timeout s
          /\ reportSocket s <> None)).
Proof.
  unfold select_timeout.
  destruct (no_spoke_watchdog_effect (no_data_watchdog s)) as (D & R & A & N).
  destruct (no_data_watchdog_effect s) as (D' & _ & W).
  rewrite D, R, A, N. split; [exact D' | exact W].
Qed.

Lemma iteration_close_data_effect (s : entry_state) :
  reportSocket (iteration_close_data s) = reportSocket s
  /\ radar_addr (iteration_close_data s) = radar_addr s
  /\ rx (iteration_close_data s) = rx s
  /\ no_data_timeout (iteration_close_data s) = no_data_timeout s
  /\ (dataSocket (iteration_close_data s) <> None ->
      reportSocket s <> None /\ dataSocket (iteration_close_data s) = dataSocket s).
Proof.
  unfold iteration_close_data.
  break_match; entry_fields; repeat split; congruence.
Qed.

Lemma SECONDS_SELECT_2 : SECONDS_SELECT 2 = 8.
Proof. reflexivity. Qed.

Lemma iteration_open_report_fresh (v : iteration_env) (s : entry_state) :
  reportSocket s = None ->
  reportSocket (iteration_open_report v s) <> None ->
  no_data_timeout (iteration_open_report v s) = 0.
Proof.
  unfold iteration_open_report. cbv zeta. intros E. rewrite E. entry_fields.
  destruct (fst (PickNextEthernetCard v (rx s))); entry_fields; congruence.
Qed.

Lemma iteration_open_data_none (v : iteration_env) (s : entry_state) :
  radar_addr s = None -> dataSocket (iteration_open_data v s) = None.
Proof.
  unfold iteration_open_data. intros E. rewrite E.
  destruct (dataSocket s) eqn:D; entry_fields; congruence.
Qed.

Lemma iteration_close_data_none (s : entry_state) :
  reportSocket s = None -> dataSocket (iteration_close_data s) = None.
Proof.
  unfold iteration_close_data. intros E. rewrite E.
  destruct (dataSocket s) eqn:D; entry_fields; congruence.
Qed.

Lemma iteration_close_data_closed (s : entry_state) (k : SOCKET) :
  In k (closed s) -> In k (closed (iteration_close_data s)).
Proof.
  unfold iteration_close_data. intros H.
  break_match; entry_fields; try assumption.
  apply in_or_app. now left.
Qed.

Lemma steps_data (v : iteration_env) (s : entry_state) :
  data (iteration_open_report v s) = data s
  /\ data (iteration_open_data v s) = data s.
Proof.
  unfold iteration_open_report, iteration_open_data. cbv zeta.
  split; break_match; reflexivity.
Qed.

Lemma select_timeout_below (s : entry_state) :
  no_data_timeout s < SECONDS_SELECT 2 ->
  no_data_timeout (select_timeout s) = no_data_timeout s + 1
  /\ reportSocket (select_timeout s) = reportSocket s
  /\ radar_addr (select_timeout s) = radar_addr s.
Proof.
  intros H. unfold select_timeout.
  destruct (no_spoke_watchdog_effect (no_data_watchdog s)) as (_ & R & A & N).
  rewrite R, A, N. unfold no_data_watchdog.
  destruct (Z.leb_spec (SECONDS_SELECT 2) (no_data_timeout s)); [lia |].
  repeat split.
Qed.

Lemma select_timeout_fires (s : entry_state) (k : SOCKET) :
  SECONDS_SELECT 2 <= no_data_timeout s ->
  reportSocket s = Some k ->
  no_data_timeout (select_timeout s) = 0
  /\ reportSocket (select_timeout s) = None
  /\ radar_addr (select_timeout s) = None
  /\ In k (closed (select_timeout s)).
Proof.
  intros H E. unfold select_timeout.
  destruct (no_spoke_watchdog_effect (no_data_watchdog s)) as (_ & R & A & N).
  rewrite R, A, N.
  assert (C : closed (no_spoke_watchdog (no_data_watchdog s))
              = closed (no_data_watchdog s)).
  { unfold no_spoke_watchdog. cbv zeta. break_match; reflexivity. }
  rewrite C. unfold no_data_watchdog. cbv zeta.
  destruct (Z.leb_spec (SECONDS_SELECT 2) (no_data_timeout s)); [| lia].
  entry_fields. rewrite E. entry_fields.
  repeat split. apply in_or_app. right. now left.
Qed.

Lemma iteration_stop_silent (v : iteration_env) (s : entry_state) :
  (0 <? select_r v) && stop_ready v = false -> iteration_stop v s = false.
Proof.
  unfold iteration_stop. intros H.
  destruct (0 <? select_r v), (m_receive_socket s), (stop_ready v);
    cbn in *; try discriminate; reflexivity.
Qed.

Lemma Entry_iteration_no_stop (v : iteration_env) (s : entry_state) :
  (0 <? select_r v) && stop_ready v = false ->
  snd (Entry_iteration v s) = false.
Proof.
  intros H. rewrite Entry_iteration_steps. cbv zeta.
  rewrite (iteration_stop_silent _ _ H). reflexivity.
Qed.

Lemma Entry_loop_iterate (vs : list iteration_env) (s : entry_state) :
  m_receive_socket s <> None ->
  (forall u, In u vs -> (0 <? select_r u) && stop_ready u = false) ->
  Entry_loop vs s = iterate_turns vs s.
Proof.
  revert s. induction vs as [| v vs IH]; intros s Hr Hvs; [reflexivity |].
  cbn [Entry_loop]. unfold iterate_turns. cbn [fold_left].
  fold (iterate_turns vs (fst (Entry_iteration v s))).
  destruct (m_receive_socket s) eqn:E; [| congruence].
  pose proof (Entry_iteration_no_stop v s (Hvs v (or_introl eq_refl))) as Hno.
  pose proof (Entry_iteration_receive_socket v s) as Hk.
  destruct (Entry_iteration v s) as [s' stop]. cbn [fst snd] in *. subst stop.
  apply IH; [congruence |]. intros u Hu. apply Hvs. now right.
Qed.

Lemma iterate_turns_receive_socket (vs : list iteration_env) (s : entry_state) :
  m_receive_socket (iterate_turns vs s) = m_receive_socket s.
Proof.
  revert s. induction vs as [| v vs IH]; intros s; [reflexivity |].
  unfold iterate_turns. cbn [fold_left].
  fold (iterate_turns vs (fst (Entry_iteration v s))).
  rewrite IH. apply Entry_iteration_receive_socket.
Qed.

(** X15.  After every turn of the loop that is not left through [break] an
    open data socket goes together with an open report socket and a
    detected radar, whatever the state before the turn was. *)
Theorem Entry_iteration_sockets_consistent (v : iteration_env) (s : entry_state) :
  snd (Entry_iteration v s) = false ->
  sockets_consistent (fst (Entry_iteration v s)).
Proof.
  rewrite Entry_iteration_steps. cbv zeta.
  set (s0 := iteration_open_report v s).
  set (s1 := iteration_open_data v s0).
  destruct (iteration_stop v s1); cbn [fst snd]; [discriminate | intros _].
  destruct (iteration_open_data_effect v s0) as (_ & A1 & _ & _ & D1).
  fold s1 in A1, D1.
  set (s2 := if 0 <? select_r v then report_readable v (data_readable v s1)
             else select_timeout s1).
  assert (H2 : dataSocket s2 <> None -> reportSocket s2 <> None ->
               radar_addr s2 <> None).
  { subst s2. destruct (0 <? select_r v).
    - destruct (report_readable_effect v (data_readable v s1)) as (D & _ & A & _).
      destruct (data_readable_effect v s1) as (_ & A' & D' & _).
      intros Hd _. rewrite D in Hd. pose proof (D' Hd) as E. rewrite E in Hd.
      apply D1 in Hd. rewrite <- A1 in Hd.
      destruct (radar_addr s1) as [a |] eqn:Ea; [| congruence].
      rewrite (A a); [discriminate | congruence].
    - destruct (select_timeout_effect s1) as (D & [(R & A) | (R & _)]).
      + intros Hd _. rewrite D in Hd. rewrite A, A1. auto.
      + intros _ Hr. congruence. }
  destruct (iteration_close_data_effect s2) as (R & A & _ & _ & D).
  unfold sockets_consistent. intros Hd. destruct (D Hd) as (Hr & E).
  rewrite R, A. split; [exact Hr |]. apply H2; [congruence | exact Hr].
Qed.

(** X16.  The address of a detected radar survives every turn of the loop
    but one: a select timeout with the no-data counter at its threshold
    while the report socket was open at the start of the turn.  That turn
    leaves no socket of the radar open and the counter at 0.  No datagram
    and no read error forgets the radar. *)
Theorem Entry_iteration_radar_address (v : iteration_env) (s : entry_state)
    (a : NetworkAddress) :
  radar_addr s = Some a ->
  radar_addr (fst (Entry_iteration v s)) = Some a
  \/ (radar_addr (fst (Entry_iteration v s)) = None
      /\ reportSocket (fst (Entry_iteration v s)) = None
      /\ dataSocket (fst (Entry_iteration v s)) = None
      /\ no_data_timeout (fst (Entry_iteration v s)) = 0
      /\ select_r v <= 0
      /\ SECONDS_SELECT 2 <= no_data_timeout s
      /\ reportSocket s <> None).
Proof.
  intros Ha. rewrite Entry_iteration_steps. cbv zeta.
  set (s0 := iteration_open_report v s).
  set (s1 := iteration_open_data v s0).
  destruct (iteration_open_report_effect v s) as (_ & A0 & _ & _ & Same & _).
  fold s0 in A0, Same.
  destruct (iteration_open_data_effect v s0) as (R1 & A1 & _ & N1 & _).
  fold s1 in R1, A1, N1.
  assert (Ha1 : radar_addr s1 = Some a) by congruence.
  destruct (iteration_stop v s1); cbn [fst]; [now left |].
  match goal with
  | |- context [iteration_close_data ?x] =>
      destruct (iteration_close_data_effect x) as (R & A & _ & N & _);
      pose proof (iteration_close_data_none x) as Dn;
      rewrite R, A, N
  end.
  destruct (Z.ltb_spec 0 (select_r v)) as [Hsel | Hsel].
  - left.
    destruct (report_readable_effect v (data_readable v s1)) as (_ & _ & K & _).
    destruct (data_readable_effect v s1) as (_ & K' & _).
    apply K. congruence.
  - destruct (select_timeout_effect s1) as (_ & [(_ & K) | (Rn & An & Nn & T & Rs)]).
    + left. congruence.
    + right. split; [exact An |]. split; [exact Rn |].
      split; [exact (Dn Rn) |]. split; [exact Nn |]. split; [exact Hsel |].
      destruct (reportSocket s) as [k |] eqn:Erep.
      * assert (E : s0 = s) by (apply Same; discriminate).
        split; [| discriminate]. rewrite N1, E in T. exact T.
      * exfalso. rewrite R1 in Rs.
        pose proof (iteration_open_report_fresh v s Erep Rs) as Z0.
        fold s0 in Z0. rewrite N1, Z0, SECONDS_SELECT_2 in T. lia.
Qed.

(** X17.  A radar is detected only through a datagram on the report socket:
    a turn that starts without a detected radar ends without one, or else
    select had reported a ready socket, the sender of the report is the
    radar's address, [DetectedRadar] has been called with it, the report
    socket is still open, the no-data counter stands at
    [SECONDS_SELECT(-15)] and the data socket is not open yet: it is
    opened in the next turn. *)
Theorem Entry_iteration_detects_radar (v : iteration_env) (s : entry_state) :
  radar_addr s = None ->
  radar_addr (fst (Entry_iteration v s)) = None
  \/ (radar_addr (fst (Entry_iteration v s)) = Some (report_from v)
      /\ reportSocket (fst (Entry_iteration v s)) <> None
      /\ dataSocket (fst (Entry_iteration v s)) = None
      /\ no_data_timeout (fst (Entry_iteration v s)) = SECONDS_SELECT (-15)
      /\ 0 < select_r v
      /\ exists iface,
           detected (m_ri (rx (fst (Entry_iteration v s))))
           = Some (iface, report_from v)).
Proof.
  intros Ha. rewrite Entry_iteration_steps. cbv zeta.
  set (s0 := iteration_open_report v s).
  set (s1 := iteration_open_data v s0).
  destruct (iteration_open_report_effect v s) as (_ & A0 & _).
  fold s0 in A0.
  destruct (iteration_open_data_effect v s0) as (_ & A1 & _).
  fold s1 in A1.
  assert (Ha1 : radar_addr s1 = None) by congruence.
  assert (Hd1 : dataSocket s1 = None)
    by (apply iteration_open_data_none; congruence).
  destruct (iteration_stop v s1); cbn [fst]; [now left |].
  match goal with
  | |- context [iteration_close_data ?x] =>
      destruct (iteration_close_data_effect x) as (R & A & X & N & D);
      rewrite R, A, N, X
  end.
  destruct (Z.ltb_spec 0 (select_r v)) as [Hsel | Hsel].
  - destruct (data_readable_effect v s1) as (_ & K' & D' & _).
    destruct (report_readable_effect v (data_readable v s1)) as (Dr & _ & _ & K).
    assert (Hd2 : dataSocket (data_readable v s1) = None).
    { destruct (dataSocket (data_readable v s1)) eqn:E; [| reflexivity].
      rewrite <- Hd1. apply D'. discriminate. }
    destruct K as [K | (K1 & K2 & K3 & K4)]; [congruence | now left |].
    right. split; [exact K1 |]. split; [exact K2 |].
    split.
    { match goal with
      | |- ?d = None => destruct d eqn:E; [| reflexivity]
      end.
      rewrite <- Hd2, <- Dr. apply D. discriminate. }
    split; [exact K3 |]. split; [exact Hsel | exact K4].
  - left. destruct (select_timeout_effect s1) as (_ & [(_ & K) | (_ & K & _)]);
      congruence.
Qed.

Lemma silent_turn (v : iteration_env) (s : entry_state) (k : SOCKET) :
  select_r v <= 0 -> reportSocket s = Some k ->
  fst (Entry_iteration v s)
  = iteration_close_data (select_timeout (iteration_open_data v s))
  /\ reportSocket (iteration_open_data v s) = Some k
  /\ no_data_timeout (iteration_open_data v s) = no_data_timeout s
  /\ radar_addr (iteration_open_data v s) = radar_addr s.
Proof.
  intros Hsel Hrep. rewrite Entry_iteration_steps. cbv zeta.
  destruct (iteration_open_report_effect v s) as (_ & _ & _ & _ & Same & _).
  rewrite Same by congruence.
  destruct (iteration_open_data_effect v s) as (R1 & A1 & _ & N1 & _).
  assert (Hlt : (0 <? select_r v) = false) by (apply Z.ltb_ge; exact Hsel).
  rewrite iteration_stop_silent by (rewrite Hlt; reflexivity).
  rewrite Hlt. cbn [fst]. repeat split; congruence.
Qed.

Lemma silent_turns (vs : list iteration_env) (s : entry_state) (k : SOCKET) :
  (forall u, In u vs -> select_r u <= 0) ->
  reportSocket s = Some k ->
  no_data_timeout s + Z.of_nat (List.length vs) <= SECONDS_SELECT 2 ->
  reportSocket (iterate_turns vs s) = Some k
  /\ radar_addr (iterate_turns vs s) = radar_addr s
  /\ no_data_timeout (iterate_turns vs s)
     = no_data_timeout s + Z.of_nat (List.length vs).
Proof.
  revert s. induction vs as [| v vs IH]; intros s Hvs Hrep Hn.
  - cbn. repeat split; [exact Hrep | lia].
  - unfold iterate_turns. cbn [fold_left].
    fold (iterate_turns vs (fst (Entry_iteration v s))).
    destruct (silent_turn v s k (Hvs v (or_introl eq_refl)) Hrep)
      as (E & R1 & N1 & A1).
    cbn [List.length] in Hn. rewrite Nat2Z.inj_succ in Hn.
    destruct (select_timeout_below (iteration_open_data v s)) as (N2 & R2 & A2);
      [rewrite N1; lia |].
    destruct (iteration_close_data_effect
                (select_timeout (iteration_open_data v s)))
      as (R3 & A3 & _ & N3 & _).
    rewrite <- E in R3, A3, N3.
    destruct (IH (fst (Entry_iteration v s))) as (R & A & N).
    + intros u Hu. apply Hvs. now right.
    + congruence.
    + rewrite N3, N2, N1. lia.
    + rewrite R, A, N. cbn [List.length]. rewrite Nat2Z.inj_succ.
      repeat split; [congruence | lia].
Qed.

(** X18.  The presence watchdog counts turns: with the report socket open
    and the no-data counter at [n], select timeouts alone leave the report
    socket and the radar address as they are for as many turns as the
    counter needs to reach [SECONDS_SELECT(2)], and the one timeout after
    that closes the report socket, forgets the radar and leaves no data
    socket open. *)
Theorem Entry_silence_watchdog (vs : list iteration_env) (v : iteration_env)
    (s : entry_state) (k : SOCKET) :
  m_receive_socket s <> None ->
  (forall u, In u vs -> select_r u <= 0) ->
  select_r v <= 0 ->
  reportSocket s = Some k ->
  no_data_timeout s + Z.of_nat (List.length vs) = SECONDS_SELECT 2 ->
  (reportSocket (Entry_loop vs s) = Some k
   /\ radar_addr (Entry_loop vs s) = radar_addr s
   /\ no_data_timeout (Entry_loop vs s) = SECONDS_SELECT 2)
  /\ reportSocket (Entry_loop (vs ++ [v]) s) = None
  /\ dataSocket (Entry_loop (vs ++ [v]) s) = None
  /\ radar_addr (Entry_loop (vs ++ [v]) s) = None
  /\ no_data_timeout (Entry_loop (vs ++ [v]) s) = 0
  /\ In k (closed (Entry_loop (vs ++ [v]) s)).
Proof.
  intros Hr Hvs Hv Hrep Hn.
  assert (Hsilent : forall u, select_r u <= 0 ->
                              (0 <? select_r u) && stop_ready u = false).
  { intros u Hu. apply Z.ltb_ge in Hu. rewrite Hu. reflexivity. }
  rewrite !Entry_loop_iterate; try assumption.
  2: { intros u Hu. apply in_app_or in Hu. apply Hsilent.
       destruct Hu as [Hu | [Hu | []]]; [now apply Hvs | now subst u]. }
  2: { intros u Hu. apply Hsilent. now apply Hvs. }
  destruct (silent_turns vs s k Hvs Hrep ltac:(lia)) as (R & A & N).
  split; [repeat split; [exact R | exact A | lia] |].
  unfold iterate_turns at 1 2 3 4 5. rewrite fold_left_app. cbn [fold_left].
  fold (iterate_turns vs s).
  destruct (silent_turn v (iterate_turns vs s) k Hv R) as (E & R1 & N1 & A1).
  rewrite E.
  destruct (select_timeout_fires (iteration_open_data v (iterate_turns vs s)) k)
    as (N2 & R2 & A2 & C2); [rewrite N1; lia | exact R1 |].
  destruct (iteration_close_data_effect
              (select_timeout (iteration_open_data v (iterate_turns vs s))))
    as (R3 & A3 & _ & N3 & _).
  rewrite R3, A3, N3.
  split; [exact R2 |]. split; [now apply iteration_close_data_none |].
  split; [exact A2 |]. split; [exact N2 |].
  now apply iteration_close_data_closed.
Qed.

(** X19.  Only the stop message ends the loop: as long as select reports
    no datagram on [m_receive_socket] every turn is executed, whatever
    arrives on the other sockets and whatever fails; and at the first turn
    in which a non-empty datagram arrives there the loop is left before
    any other socket is read, the turns after it not being executed. *)
Theorem Entry_loop_ends_at_stop (vs ws : list iteration_env) (v : iteration_env)
    (s : entry_state) :
  m_receive_socket s <> None ->
  (forall u, In u vs -> (0 <? select_r u) && stop_ready u = false) ->
  Entry_loop vs s = iterate_turns vs s
  /\ (0 < select_r v -> stop_ready v = true ->
      0 < recv_r (data (iterate_turns vs s)) (stop_recv v) ->
      Entry_loop (vs ++ v :: ws) s
      = iteration_open_data v (iteration_open_report v (iterate_turns vs s))).
Proof.
  intros Hr Hvs. split; [now apply Entry_loop_iterate |].
  intros Hsel Hready Hrecv.
  revert s Hr Hvs Hrecv. induction vs as [| u vs IH]; intros s Hr Hvs Hrecv.
  - cbn [app Entry_loop]. unfold iterate_turns in *. cbn [fold_left] in *.
    destruct (m_receive_socket s) eqn:E; [| congruence].
    rewrite Entry_iteration_steps. cbv zeta.
    set (s1 := iteration_open_data v (iteration_open_report v s)).
    assert (Hd : data s1 = data s).
    { subst s1. destruct (steps_data v (iteration_open_report v s)) as (_ & D1).
      destruct (steps_data v s) as (D0 & _). congruence. }
    assert (Hk : m_receive_socket s1 = m_receive_socket s).
    { subst s1.
      destruct (steps_receive_socket v (iteration_open_report v s)) as (_ & A & _).
      destruct (steps_receive_socket v s) as (B & _). congruence. }
    assert (Hstop : iteration_stop v s1 = true).
    { unfold iteration_stop. rewrite Hk, E, Hready, Hd.
      apply Z.ltb_lt in Hsel, Hrecv. rewrite Hsel, Hrecv. reflexivity. }
    rewrite Hstop. reflexivity.
  - cbn [app Entry_loop]. unfold iterate_turns in *. cbn [fold_left] in *.
    fold (iterate_turns vs (fst (Entry_iteration u s))) in *.
    destruct (m_receive_socket s) eqn:E; [| congruence].
    pose proof (Entry_iteration_no_stop u s (Hvs u (or_introl eq_refl))) as Hno.
    pose proof (Entry_iteration_receive_socket u s) as Hk.
    destruct (Entry_iteration u s) as [s' stop]. cbn [fst snd] in *. subst stop.
    apply IH; [congruence | | exact Hrecv].
    intros x Hx. apply Hvs. now right.
Qed.

Lemma report_readable_error (v : iteration_env) (s : entry_state) (k : SOCKET) :
  reportSocket s = Some k -> report_ready v = true ->
  report_recv v = recv_error \/ report_recv v = recv_bytes [] ->
  reportSocket (report_readable v s) = None
  /\ closed (report_readable v s) = closed s ++ [k]
  /\ radar_addr (report_readable v s) = radar_addr s
  /\ rx (report_readable v s) = rx s
  /\ no_data_timeout (report_readable v s) = no_data_timeout s.
Proof.
  intros Hrep Hready Hrecv. unfold report_readable. cbv zeta.
  rewrite Hrep, Hready. entry_fields.
  assert (Hr : (0 <? recv_r (recv_into (data s) (report_recv v)) (report_recv v))
               = false).
  { destruct Hrecv as [E | E]; rewrite E; reflexivity. }
  rewrite Hr. entry_fields. repeat split.
Qed.

(** X20.  A failed or empty read on the report socket closes the report
    socket and, in the same turn, the data socket, but it neither forgets
    the radar nor touches the radar state or the time-outs: unlike the
    watchdog it leaves the address of the radar in place, so that the data
    socket is asked for again in the next turn. *)
Theorem Entry_iteration_report_error (v : iteration_env) (s : entry_state)
    (k : SOCKET) :
  reportSocket s = Some k ->
  0 < select_r v -> stop_ready v = false -> data_ready v = false ->
  report_ready v = true ->
  report_recv v = recv_error \/ report_recv v = recv_bytes [] ->
  snd (Entry_iteration v s) = false
  /\ reportSocket (fst (Entry_iteration v s)) = None
  /\ dataSocket (fst (Entry_iteration v s)) = None
  /\ In k (closed (fst (Entry_iteration v s)))
  /\ radar_addr (fst (Entry_iteration v s)) = radar_addr s
  /\ m_ri (rx (fst (Entry_iteration v s))) = m_ri (rx s)
  /\ no_data_timeout (fst (Entry_iteration v s)) = no_data_timeout s.
Proof.
  intros Hrep Hsel Hstop Hdata Hready Hrecv.
  rewrite Entry_iteration_steps. cbv zeta.
  destruct (iteration_open_report_effect v s) as (_ & _ & _ & _ & Same & _).
  rewrite Same by congruence.
  destruct (iteration_open_data_effect v s) as (R1 & A1 & I1 & N1 & _).
  rewrite iteration_stop_silent
    by (rewrite Hstop; apply andb_false_r).
  apply Z.ltb_lt in Hsel. rewrite Hsel. cbn [fst snd].
  destruct (data_readable_effect v (iteration_open_data v s)) as (_ & _ & _ & Id).
  rewrite (Id Hdata).
  destruct (report_readable_error v (iteration_open_data v s) k)
    as (R2 & C2 & A2 & X2 & N2); [congruence | assumption | assumption |].
  destruct (iteration_close_data_effect
              (report_readable v (iteration_open_data v s)))
    as (R3 & A3 & X3 & N3 & _).
  rewrite R3, A3, X3, N3.
  split; [reflexivity |]. split; [exact R2 |].
  split; [now apply iteration_close_data_none |].
  split; [apply iteration_close_data_closed; rewrite C2; apply in_or_app;
          right; now left |].
  split; [congruence |]. split; [congruence | congruence].
Qed.

Lemma nth_firstn_lt {A : Type} (d : A) (n i : nat) (l : list A) :
  (i < n)%nat -> nth i (firstn n l) d = nth i l d.
Proof.
  revert i l. induction n as [| n IH]; intros i l Hi; [lia |].
  destruct l as [| x l]; [reflexivity |].
  destruct i as [| i]; [reflexivity |]. cbn. apply IH. lia.
Qed.

Lemma recv_into_length (buf : list byte) (x : recv_result) :
  List.length (recv_into buf x) = List.length buf.
Proof.
  destruct x as [| bytes]; [reflexivity |]. cbn [recv_into].
  rewrite length_firstn, length_app, length_skipn. lia.
Qed.

Lemma recv_into_byte (buf bytes : list byte) (off : Z) :
  0 <= off < recv_r buf (recv_bytes bytes) ->
  byte_at (recv_into buf (recv_bytes bytes)) off = byte_at bytes off.
Proof.
  cbn [recv_r recv_into]. intros H. unfold byte_at. f_equal.
  rewrite nth_firstn_lt by lia. apply app_nth1. lia.
Qed.

(** X21.  [ProcessFrame] never reads the eight bytes of the frame header,
    never reads at or beyond the declared length, and reads nothing at all
    when the datagram has no room for one whole line. *)
Theorem ProcessFrame_reads_inside_datagram (e : frame_env) (len : Z)
    (r : NavicoReceive) (buf : list byte) :
  (forall off, In off (reads (ProcessFrame e len r) buf) ->
               sizeof_frame_hdr <= off < len)
  /\ (len < sizeof_frame_hdr + sizeof_radar_line ->
      reads (ProcessFrame e len r) buf = []).
Proof.
  assert (HL : 0 < sizeof_radar_line)
    by (unfold sizeof_radar_line, sizeof_header; lia).
  assert (Hin : forall off, In off (reads (ProcessFrame e len r) buf) ->
                            sizeof_frame_hdr <= off < len
                            /\ sizeof_frame_hdr + sizeof_radar_line <= len).
  { intros off H. apply ProcessFrame_reads_in_bounds in H.
    destruct H as (i & Hi & Hoff & Hlen). nia. }
  split.
  - intros off H. exact (proj1 (Hin off H)).
  - intros Hshort. destruct (reads (ProcessFrame e len r) buf) as [| off l];
      [reflexivity |].
    destruct (Hin off (or_introl eq_refl)) as (_ & H). lia.
Qed.

(** X22.  What the loop hands to [ProcessFrame] is safe to decode: the
    receive buffer keeps its size, the length that is passed never exceeds
    it, and every byte the decoder reads is a byte of the datagram that
    has just arrived, never one left over from an earlier datagram. *)
Theorem data_readable_reads_received_bytes (v : iteration_env) (s : entry_state)
    (off : Z) :
  In off (reads (ProcessFrame (data_env v)
                   (recv_r (recv_into (data s) (data_recv v)) (data_recv v))
                   (rx s))
                (recv_into (data s) (data_recv v))) ->
  List.length (recv_into (data s) (data_recv v)) = List.length (data s)
  /\ 0 <= off < Z.of_nat (List.length (data s))
  /\ exists bytes,
       data_recv v = recv_bytes bytes
       /\ off < Z.of_nat (List.length bytes)
       /\ byte_at (recv_into (data s) (data_recv v)) off = byte_at bytes off.
Proof.
  intros H. apply ProcessFrame_reads_in_bounds in H.
  destruct H as (i & Hi & Hoff & Hlen).
  assert (HL : 0 < sizeof_radar_line)
    by (unfold sizeof_radar_line, sizeof_header; lia).
  assert (H8 : sizeof_frame_hdr = 8) by reflexivity.
  assert (Hr : 0 <= off < recv_r (recv_into (data s) (data_recv v)) (data_recv v))
    by nia.
  split; [apply recv_into_length |].
  destruct (data_recv v) as [| bytes] eqn:E.
  - cbn [recv_r] in Hr. lia.
  - assert (Hr' : 0 <= off < recv_r (data s) (recv_bytes bytes)).
    { cbn [recv_r] in *. rewrite recv_into_length in Hr. exact Hr. }
    split; [cbn [recv_r] in Hr'; lia |].
    exists bytes. split; [reflexivity |].
    split; [cbn [recv_r] in Hr'; lia |].
    apply recv_into_byte. exact Hr'.
Qed.

End Receive.

(** * Instances *)

(** The constants of the absent headers are given the values
    [RETURNS_PER_LINE] = 4, [WATCHDOG_TIMEOUT] = 10, [DATA_TIMEOUT] = 5 and
    [AUTO_RANGE] = -20000, and [MOD_SPOKES] is [sample_MOD_SPOKES]. *)

Lemma C1_sequence_tracker_witness :
  missing_of (fst (process_line 4 sample_MOD_SPOKES sample_env 8 sample_rx_expect0
                     sample_frame []))
  = missing_of sample_rx_expect0 + 0
  /\ m_next_spoke (fst (process_line 4 sample_MOD_SPOKES sample_env 8 sample_rx_expect0
                          sample_frame [])) = 1.
Proof.
  destruct (C1_sequence_tracker 4 sample_MOD_SPOKES sample_env 8 sample_rx_expect0
              sample_frame [] 4095 0) as (H1 & _ & H3);
    [lia | lia | reflexivity | reflexivity |].
  split; [exact (H1 eq_refl) | exact H3].
Defined.

Lemma C2_heading_validity_witness :
  heading_calls (fst (process_line 4 sample_MOD_SPOKES sample_env 8 sample_rx
                        sample_frame_br24 []))
  = heading_calls sample_rx ++ [SetRadarHeading_none].
Proof.
  destruct (C2_heading_validity 4 sample_MOD_SPOKES 0x8000) as (_ & _ & _ & _ & H);
    [lia |].
  apply H; reflexivity.
Defined.

Lemma C3_br4g_range_witness :
  map spoke_range_meters
    (spoke_calls (m_ri (fst (process_line 4 sample_MOD_SPOKES sample_env 8 sample_rx
                               sample_frame []))))
  = [100].
Proof.
  destruct (C3_br4g_range 4 sample_MOD_SPOKES sample_env 8 sample_rx sample_frame [])
    as (range_raw & _ & H2 & _ & H4 & _);
    [reflexivity | intros H; vm_compute in H; discriminate H |].
  rewrite H4, H2; [reflexivity | reflexivity | intros H; vm_compute in H; discriminate H].
Defined.

Lemma C9_br24_range_witness :
  map spoke_range_meters
    (spoke_calls (m_ri (fst (process_line 4 sample_MOD_SPOKES sample_env 8 sample_rx
                               sample_frame_br24 []))))
  = [7071].
Proof.
  destruct (C9_br24_range 4 sample_MOD_SPOKES sample_env 8 sample_rx
              sample_frame_br24 []) as (H & _);
    [reflexivity | reflexivity |].
  rewrite H. reflexivity.
Defined.

Lemma C10_frame_unconditional_witness :
  broken_packets
    (m_statistics
       (m_ri (run (ProcessFrame 4 10 5 sample_MOD_SPOKES sample_env 3 sample_rx)
                [x01; x00; x00]))) = 1
  /\ reads (ProcessFrame 4 10 5 sample_MOD_SPOKES sample_env 3 sample_rx)
           [x01; x00; x00] = [].
Proof.
  destruct (C10_frame_unconditional 4 10 5 sample_MOD_SPOKES sample_env 3 sample_rx
              [x01; x00; x00]) as (_ & _ & _ & _ & _ & H).
  apply H. lia.
Defined.

Lemma C5_operating_status_witness :
  value (m_state (m_ri (report_state
                          (run (ProcessReport 10 5 (-20000) 1000 18 sample_rx)
                             sample_report_standby))))
  = RADAR_STANDBY.
Proof.
  destruct (C5_operating_status 10 5 (-20000) 1000 sample_rx sample_report_standby)
    as (H & _); [reflexivity | reflexivity |].
  destruct H as (_ & H & _); [intros E; vm_compute in E; discriminate E |].
  apply H. reflexivity.
Defined.

(** C5, the claim as it stands: a standby report that follows a standby
    report and a spoke frame leaves the operating state at TRANSMIT. *)
Lemma C5_repeated_status_counterexample :
  byte_at sample_report_standby 0 = 0x01
  /\ byte_at sample_report_standby 1 = 0xC4
  /\ byte_at sample_report_standby 2 = 0x01
  /\ value (m_state (m_ri (report_state
        (run (ProcessReport 10 5 (-20000) 1002 18
                (run (ProcessFrame 4 10 5 sample_MOD_SPOKES sample_env 36
                        (report_state
                           (run (ProcessReport 10 5 (-20000) 1000 18 sample_rx)
                              sample_report_standby)))
                   sample_frame))
           sample_report_standby))))
     = RADAR_TRANSMIT.
Proof. repeat split. Qed.

Lemma C6_select_timeout_witness :
  value (m_state (m_ri (rx (select_timeout
           (Entry_loop 4 10 5 (-20000) sample_MOD_SPOKES sample_run_silence
              sample_entry)))))
  = RADAR_OFF
  /\ radar_addr (select_timeout
        (Entry_loop 4 10 5 (-20000) sample_MOD_SPOKES sample_run_silence sample_entry))
     = None.
Proof.
  destruct (C6_select_timeout
              (Entry_loop 4 10 5 (-20000) sample_MOD_SPOKES sample_run_silence
                 sample_entry)) as (_ & H & _).
  destruct H as (_ & H & _); [vm_compute; discriminate |].
  destruct (H 4) as (_ & _ & Hoff & Haddr & _); [vm_compute; reflexivity |].
  split; [exact Hoff | exact Haddr].
Defined.

(** C6, the claim as it stands: with the report socket closed by an empty
    datagram and no interface to pick, the no-data counter reaches its
    threshold and is reset, while the operating state stays at TRANSMIT and
    the radar address stays in place. *)
Lemma C6_closed_report_socket_counterexample :
  no_data_timeout
    (Entry_loop 4 10 5 (-20000) sample_MOD_SPOKES sample_run_report_lost sample_entry)
  = SECONDS_SELECT 2
  /\ reportSocket
       (Entry_loop 4 10 5 (-20000) sample_MOD_SPOKES sample_run_report_lost
          sample_entry) = None
  /\ no_data_timeout
       (select_timeout
          (Entry_loop 4 10 5 (-20000) sample_MOD_SPOKES sample_run_report_lost
             sample_entry)) = 0
  /\ value (m_state (m_ri (rx (select_timeout
         (Entry_loop 4 10 5 (-20000) sample_MOD_SPOKES sample_run_report_lost
            sample_entry))))) = RADAR_TRANSMIT
  /\ radar_addr
       (select_timeout
          (Entry_loop 4 10 5 (-20000) sample_MOD_SPOKES sample_run_report_lost
             sample_entry)) = Some sample_radar_address.
Proof. repeat split; vm_compute; reflexivity. Qed.

Lemma C7_unknown_report_ignored_witness :
  report_state (run (ProcessReport 10 5 (-20000) 1000 7 sample_rx) sample_report_unknown)
  = with_ri (set_radar_timeout (1000 + 10)) sample_rx
  /\ report_accepted
       (run (ProcessReport 10 5 (-20000) 1000 7 sample_rx) sample_report_unknown)
     = true.
Proof.
  destruct (C7_unknown_report_ignored 10 5 (-20000) 1000 7 sample_rx
              sample_report_unknown) as (_ & H); [vm_compute; split; reflexivity |].
  destruct H as (Hst & _ & _ & Hacc).
  - unfold known_report_keys. cbn [In].
    intros [E | [E | [E | [E | [E | []]]]]]; discriminate E.
  - split; [exact Hst | apply Hacc; left; reflexivity].
Defined.

Lemma C8_bearing_antenna_witness :
  value (controls (m_ri (report_state
           (run (ProcessReport 10 5 (-20000) 1000 66 sample_rx)
              sample_report_bearing_350))) m_bearing_alignment) = -10
  /\ value (controls (m_ri (report_state
              (run (ProcessReport 10 5 (-20000) 1000 66 sample_rx)
                 sample_report_bearing_350))) m_antenna_height) = 4.
Proof.
  destruct (C8_bearing_antenna 10 5 (-20000) 1000 sample_rx sample_report_bearing_350)
    as (Hba & _ & Hah); [reflexivity | reflexivity |].
  split; [rewrite Hba; reflexivity | rewrite Hah; reflexivity].
Defined.

(** C8, the claim as it stands: the field 0xFFF6, -10 tenths of a degree
    as a signed value, is stored as 6192 degrees. *)
Lemma C8_signed_bearing_counterexample :
  u16_at sample_report_bearing 6 = 0xFFF6
  /\ to_short (u16_at sample_report_bearing 6) = -10
  /\ value (controls (m_ri (report_state
              (run (ProcessReport 10 5 (-20000) 1000 66 sample_rx)
                 sample_report_bearing))) m_bearing_alignment) = 6192
  /\ ~ (-180 < value (controls (m_ri (report_state
              (run (ProcessReport 10 5 (-20000) 1000 66 sample_rx)
                 sample_report_bearing))) m_bearing_alignment) <= 180).
Proof.
  repeat split. vm_compute. intros [_ H]. apply H. reflexivity.
Qed.

(** ** Runs on the sample datagrams *)

Example ProcessFrame_sample_frame :
  spoke_calls (m_ri (run (ProcessFrame 4 10 5 sample_MOD_SPOKES sample_env 36 sample_rx)
                       sample_frame))
  = [mk_spoke 8 8 [1; 2; 3; 4] 100]
  /\ m_statistics (m_ri (run (ProcessFrame 4 10 5 sample_MOD_SPOKES sample_env 36
                               sample_rx) sample_frame))
     = mk_stats 1 1 1 0 0
  /\ heading_calls (run (ProcessFrame 4 10 5 sample_MOD_SPOKES sample_env 36 sample_rx)
                      sample_frame)
     = [SetRadarHeading 0x07d6 false]
  /\ m_next_spoke (run (ProcessFrame 4 10 5 sample_MOD_SPOKES sample_env 36 sample_rx)
                     sample_frame) = 1.
Proof. repeat split. Qed.

Example ProcessFrame_sample_frame_gap :
  map spoke_range_meters
    (spoke_calls (m_ri (run (ProcessFrame 4 10 5 sample_MOD_SPOKES sample_env 64
                               sample_rx) sample_frame_gap)))
  = [100; 640]
  /\ m_statistics (m_ri (run (ProcessFrame 4 10 5 sample_MOD_SPOKES sample_env 64
                               sample_rx) sample_frame_gap))
     = mk_stats 1 1 2 0 4
  /\ heading_calls (run (ProcessFrame 4 10 5 sample_MOD_SPOKES sample_env 64 sample_rx)
                      sample_frame_gap)
     = [SetRadarHeading 0x07d6 false; SetRadarHeading 0x47d6 true]
  /\ m_next_spoke (run (ProcessFrame 4 10 5 sample_MOD_SPOKES sample_env 64 sample_rx)
                     sample_frame_gap) = 6.
Proof. repeat split. Qed.

Example ProcessFrame_sample_frame_br24 :
  spoke_calls (m_ri (run (ProcessFrame 4 10 5 sample_MOD_SPOKES sample_env 36 sample_rx)
                       sample_frame_br24))
  = [mk_spoke 8 8 [1; 2; 3; 4] 7071]
  /\ heading_calls (run (ProcessFrame 4 10 5 sample_MOD_SPOKES sample_env 36 sample_rx)
                      sample_frame_br24)
     = [SetRadarHeading_none].
Proof. repeat split. Qed.

(** The loop on the two sample runs: after the silence the watchdog turns
    the radar off; with the report socket lost the state stays. *)
Example Entry_loop_sample_runs :
  value (m_state (m_ri (rx (Entry_loop 4 10 5 (-20000) sample_MOD_SPOKES
                              (sample_run_silence ++ [env_silence]) sample_entry))))
  = RADAR_OFF
  /\ value (m_state (m_ri (rx (Entry_loop 4 10 5 (-20000) sample_MOD_SPOKES
                                 (sample_run_report_lost ++ [env_silence])
                                 sample_entry))))
     = RADAR_TRANSMIT.
Proof. split; vm_compute; reflexivity. Qed.

(** ** Instances of the further properties *)

Lemma ProcessFrame_statistics_witness :
  spokes (m_statistics
            (m_ri (run (ProcessFrame 4 10 5 sample_MOD_SPOKES sample_env 64 sample_rx)
                     sample_frame_gap))) = 2
  /\ broken_packets
       (m_statistics
          (m_ri (run (ProcessFrame 4 10 5 sample_MOD_SPOKES sample_env 64 sample_rx)
                   sample_frame_gap))) = 1.
Proof.
  destruct (ProcessFrame_statistics 4 10 5 sample_MOD_SPOKES sample_env 64 sample_rx
              sample_frame_gap) as (_ & _ & H1 & H2 & _);
    [unfold sizeof_frame_hdr; lia |].
  split; [rewrite H1 | rewrite H2]; reflexivity.
Defined.

Lemma ProcessFrame_emits_wellformed_lines_witness :
  List.length
    (spoke_calls
       (m_ri (run (ProcessFrame 4 10 5 sample_MOD_SPOKES sample_env 36 sample_rx)
                sample_frame_strange))) = 0%nat.
Proof.
  destruct (ProcessFrame_emits_wellformed_lines 4 10 5 sample_MOD_SPOKES sample_env
              36 sample_rx sample_frame_strange) as (H & _).
  destruct H as (H & _); [unfold sizeof_frame_hdr; lia |].
  apply Nat2Z.inj. rewrite H. reflexivity.
Defined.

Lemma ProcessFrame_tracker_invariant_witness :
  0 <= m_next_spoke
         (run (ProcessFrame 4 10 5 sample_MOD_SPOKES sample_env 64 sample_rx)
            sample_frame_gap) < SPOKES.
Proof.
  destruct (ProcessFrame_tracker_invariant 4 10 5 sample_MOD_SPOKES sample_env 64
              sample_rx sample_frame_gap) as (H1 & _ & _ & _ & _ & _ & H2);
    [reflexivity |].
  split; [apply H2; vm_compute; discriminate | exact H1].
Defined.

Lemma ProcessFrame_ignores_bytes_beyond_len_witness :
  run (ProcessFrame 4 10 5 sample_MOD_SPOKES sample_env 36 sample_rx) sample_frame
  = run (ProcessFrame 4 10 5 sample_MOD_SPOKES sample_env 36 sample_rx)
      (sample_frame ++ [xff; xff]).
Proof.
  apply (ProcessFrame_ignores_bytes_beyond_len 4 10 5 sample_MOD_SPOKES sample_env
           36 sample_rx sample_frame (sample_frame ++ [xff; xff])).
  intros i Hi. unfold byte_at. rewrite app_nth1; [reflexivity |].
  change (List.length sample_frame) with 36%nat. lia.
Defined.

Lemma process_line_strange_header_witness :
  spoke_calls
    (m_ri (fst (process_line 4 sample_MOD_SPOKES sample_env 8 sample_rx
                  sample_frame_strange [])))
  = []
  /\ m_next_spoke (fst (process_line 4 sample_MOD_SPOKES sample_env 8 sample_rx
                          sample_frame_strange [])) = 1.
Proof.
  destruct (process_line_strange_header 4 sample_MOD_SPOKES sample_env 8 sample_rx
              sample_frame_strange []) as (H1 & _ & _ & _ & _ & H2 & _);
    [vm_compute; discriminate |].
  split; [exact H1 | rewrite H2; reflexivity].
Defined.

Lemma process_line_status_advisory_witness :
  spoke_calls
    (m_ri (fst (process_line 4 sample_MOD_SPOKES sample_env 8 sample_rx
                  sample_frame [])))
  = spoke_calls
      (m_ri (fst (process_line 4 sample_MOD_SPOKES sample_env 8 sample_rx
                    sample_frame_status_0c []))).
Proof.
  destruct (process_line_status_advisory 4 sample_MOD_SPOKES sample_env 8 sample_rx
              sample_frame sample_frame_status_0c []) as (H & _);
    [reflexivity | | exact H].
  intros i Hi. unfold byte_at. f_equal.
  remember (Z.to_nat i) as n eqn:En.
  destruct n as [| [| [| [| [| [| [| [| [| [| m]]]]]]]]]]; try reflexivity.
  exfalso. apply Hi. lia.
Defined.

Lemma ProcessReport_settings_report_witness :
  value (controls
           (m_ri (report_state
                    (run (ProcessReport 10 5 (-20000) 1000 99 sample_rx)
                       sample_report_settings))) m_gain) = 50
  /\ value (controls
              (m_ri (report_state
                       (run (ProcessReport 10 5 (-20000) 1000 99 sample_rx)
                          sample_report_settings))) m_sea) = -20001.
Proof.
  destruct (ProcessReport_settings_report 10 5 (-20000) 1000 sample_rx
              sample_report_settings) as (_ & Hg & _ & Hs & _);
    [reflexivity | reflexivity |].
  split.
  - destruct Hg as (Hg & _); [vm_compute; discriminate |].
    rewrite Hg. reflexivity.
  - rewrite Hs; reflexivity.
Defined.

Lemma ProcessReport_scan_report_witness :
  value (controls
           (m_ri (report_state
                    (run (ProcessReport 10 5 (-20000) 1000 18 sample_rx)
                       sample_report_scan))) m_side_lobe_suppression) = 100
  /\ value (controls
              (m_ri (report_state
                       (run (ProcessReport 10 5 (-20000) 1000 18 sample_rx)
                          sample_report_scan))) m_target_separation) = 3.
Proof.
  destruct (ProcessReport_scan_report 10 5 (-20000) 1000 sample_rx
              sample_report_scan) as (_ & _ & Ht & _ & _ & Hs & _);
    [reflexivity | reflexivity |].
  split.
  - destruct Hs as (Hs & _); [vm_compute; discriminate |].
    rewrite Hs. reflexivity.
  - rewrite Ht. reflexivity.
Defined.

Lemma ProcessReport_status_twice_witness :
  report_state
    (run (ProcessReport 10 5 (-20000) 2000 18
            (report_state (run (ProcessReport 10 5 (-20000) 1000 18 sample_rx)
                             sample_report_standby)))
       sample_report_standby)
  = with_ri (set_radar_timeout 2010)
      (report_state (run (ProcessReport 10 5 (-20000) 1000 18 sample_rx)
                       sample_report_standby)).
Proof.
  apply (ProcessReport_status_twice 10 5 (-20000) 1000 2000 sample_rx
           sample_report_standby); reflexivity.
Defined.

Lemma AppendChar16String_first_zero_witness :
  fst (AppendChar16String 16 [] 58 sample_report_build []) = [49; 50].
Proof.
  destruct (AppendChar16String_first_zero 16 [] 58 sample_report_build [] 2)
    as (H & _).
  - lia.
  - intros i Hi. destruct i as [| [| i]]; [vm_compute .. | lia]; discriminate.
  - reflexivity.
  - rewrite H. reflexivity.
Defined.

Lemma ProcessReport_build_info_witness :
  build_info (report_state (run (ProcessReport 10 5 (-20000) 1000 129 sample_rx)
                              sample_report_build))
  = Some (wxT "Firmware date: " ++ [49; 50] ++ wxT " " ++ [51]).
Proof.
  destruct (ProcessReport_build_info 10 5 (-20000) 1000 sample_rx
              sample_report_build 2 1) as (H & _).
  - reflexivity.
  - reflexivity.
  - vm_compute. lia.
  - lia.
  - lia.
  - intros i Hi. destruct i as [| [| i]]; [vm_compute .. | lia]; discriminate.
  - reflexivity.
  - intros i Hi. destruct i as [| i]; [vm_compute | lia]; discriminate.
  - reflexivity.
  - rewrite H. reflexivity.
Defined.

Lemma PickNextEthernetCard_outcome_witness :
  m_status (snd (PickNextEthernetCard env_report_arrives sample_rx))
  = Some Scanning_interface
  /\ fst (PickNextEthernetCard env_silence sample_rx) = None.
Proof.
  destruct (PickNextEthernetCard_outcome env_report_arrives sample_rx)
    as (H1 & _).
  destruct (PickNextEthernetCard_outcome env_silence sample_rx)
    as (_ & H2 & _).
  split.
  - apply (H1 4). reflexivity.
  - apply H2. reflexivity.
Defined.

Lemma Entry_closes_every_socket_witness :
  In 4 (closed
          (fst (fst (Entry_exit (Some 2)
                       (Entry_loop 4 10 5 (-20000) sample_MOD_SPOKES
                          [env_frame_arrives; env_silence]
                          sample_entry_detected))))).
Proof.
  destruct (Entry_closes_every_socket 4 10 5 (-20000) sample_MOD_SPOKES
              [env_frame_arrives; env_silence] sample_entry_detected (Some 2) 4)
    as (_ & H & _); [left; left; reflexivity | exact H].
Defined.

Lemma Entry_iteration_sockets_consistent_witness :
  sockets_consistent
    (fst (Entry_iteration 4 10 5 (-20000) sample_MOD_SPOKES env_frame_arrives
            sample_entry_detected)).
Proof.
  apply (Entry_iteration_sockets_consistent 4 10 5 (-20000) sample_MOD_SPOKES
           env_frame_arrives sample_entry_detected).
  reflexivity.
Defined.

Lemma Entry_iteration_radar_address_witness :
  radar_addr (fst (Entry_iteration 4 10 5 (-20000) sample_MOD_SPOKES
                     env_empty_report sample_entry_detected))
  = Some sample_radar_address.
Proof.
  destruct (Entry_iteration_radar_address 4 10 5 (-20000) sample_MOD_SPOKES
              env_empty_report sample_entry_detected sample_radar_address)
    as [H | (_ & _ & _ & _ & H & _)]; [reflexivity | exact H |].
  exfalso. vm_compute in H. apply H. reflexivity.
Defined.

Lemma Entry_iteration_detects_radar_witness :
  radar_addr (fst (Entry_iteration 4 10 5 (-20000) sample_MOD_SPOKES
                     env_report_arrives sample_entry))
  = Some sample_radar_address
  /\ dataSocket (fst (Entry_iteration 4 10 5 (-20000) sample_MOD_SPOKES
                        env_report_arrives sample_entry)) = None.
Proof.
  destruct (Entry_iteration_detects_radar 4 10 5 (-20000) sample_MOD_SPOKES
              env_report_arrives sample_entry)
    as [H | (H1 & _ & H3 & _)]; [reflexivity | | split; [exact H1 | exact H3]].
  vm_compute in H. discriminate H.
Defined.

Lemma Entry_silence_watchdog_witness :
  radar_addr (Entry_loop 4 10 5 (-20000) sample_MOD_SPOKES
                (repeat env_silence 8) sample_entry_detected)
  = Some sample_radar_address
  /\ radar_addr (Entry_loop 4 10 5 (-20000) sample_MOD_SPOKES
                   (repeat env_silence 8 ++ [env_silence]) sample_entry_detected)
     = None.
Proof.
  destruct (Entry_silence_watchdog 4 10 5 (-20000) sample_MOD_SPOKES
              (repeat env_silence 8) env_silence sample_entry_detected 4)
    as ((_ & H1 & _) & _ & _ & H2 & _).
  - discriminate.
  - intros u Hu. apply repeat_spec in Hu. subst u. cbn. lia.
  - cbn. lia.
  - reflexivity.
  - reflexivity.
  - split; [exact H1 | exact H2].
Defined.

Lemma Entry_loop_ends_at_stop_witness :
  Entry_loop 4 10 5 (-20000) sample_MOD_SPOKES
    ([env_frame_arrives; env_silence] ++ env_stop :: [env_frame_arrives])
    sample_entry_detected
  = iteration_open_data env_stop
      (iteration_open_report env_stop
         (iterate_turns 4 10 5 (-20000) sample_MOD_SPOKES
            [env_frame_arrives; env_silence] sample_entry_detected)).
Proof.
  destruct (Entry_loop_ends_at_stop 4 10 5 (-20000) sample_MOD_SPOKES
              [env_frame_arrives; env_silence] [env_frame_arrives] env_stop
              sample_entry_detected) as (_ & H).
  - discriminate.
  - intros u [Hu | [Hu | []]]; subst u; reflexivity.
  - apply H; [reflexivity | reflexivity | vm_compute; reflexivity].
Defined.

Lemma Entry_iteration_report_error_witness :
  reportSocket (fst (Entry_iteration 4 10 5 (-20000) sample_MOD_SPOKES
                       env_empty_report sample_entry_detected)) = None
  /\ radar_addr (fst (Entry_iteration 4 10 5 (-20000) sample_MOD_SPOKES
                        env_empty_report sample_entry_detected))
     = Some sample_radar_address.
Proof.
  destruct (Entry_iteration_report_error 4 10 5 (-20000) sample_MOD_SPOKES
              env_empty_report sample_entry_detected 4)
    as (_ & H1 & _ & _ & H2 & _);
    [reflexivity | reflexivity | reflexivity | reflexivity | reflexivity
     | right; reflexivity |].
  split; [exact H1 | exact H2].
Defined.

Lemma ProcessFrame_reads_inside_datagram_witness :
  reads (ProcessFrame 4 10 5 sample_MOD_SPOKES sample_env 35 sample_rx) sample_frame
  = [].
Proof.
  destruct (ProcessFrame_reads_inside_datagram 4 10 5 sample_MOD_SPOKES sample_env
              35 sample_rx sample_frame) as (_ & H).
  apply H. reflexivity.
Defined.

Lemma data_readable_reads_received_bytes_witness :
  byte_at (recv_into (data sample_entry_detected) (data_recv env_frame_arrives)) 8
  = 0x18.
Proof.
  destruct (data_readable_reads_received_bytes 4 10 5 sample_MOD_SPOKES
              env_frame_arrives sample_entry_detected 8)
    as (_ & _ & bytes & E & _ & H).
  - vm_compute. tauto.
  - rewrite H. injection E as <-. reflexivity.
Defined.
